(** * itvx: the data-acquisition layer of the ITVX addon

    A shallow embedding of [resources/lib/itvx.py] and the properties of it
    that the specification states.

    Layout
    - [Py]      the Python values the module handles (parsed JSON) and the
                built-in operations the code applies to them;
    - [Run]     the effects of the module: module-level variables, requests
                issued to the fetch layer, log records, loop iterations,
                raised exceptions;
    - [Itvx]    the functions of itvx.py, one definition per function;
    - [InPlace] the lines of [get_live_channels] that change the fetched
                object, run on that object;
    - [Demo]    a small concrete environment on which the functions run;
    - [Spec], [Props]  the vocabulary of the statements;
    - the theorems. *)

From Stdlib Require Import String Ascii List ZArith Lia Bool Arith DecimalString.
From Stdlib Require Import SpecFloat.
Import ListNotations.
Local Open Scope string_scope.
Set Warnings "-register-all".

(* ===================================================================== *)
(** * Python values and built-ins                                         *)
(* ===================================================================== *)

Module Py.

(** What [json.loads] produces, and what the module builds for its callers.
    [str] is a sequence of characters; an [int] is unbounded, a [float] is
    a binary floating-point value with its sign, mantissa and exponent, a
    zero, an infinity or a NaN. A [dict] keeps its insertion order and has
    no duplicate key by construction of the operations below. *)
Inductive json : Type :=
| JNull
| JBool (b : bool)
| JInt (n : Z)
| JFloat (f : spec_float)
| JStr (s : string)
| JList (l : list json)
| JDict (d : list (string * json)).

Definition dict := list (string * json).

(** The exceptions the built-ins raise; [OtherError] stands for anything
    else a collaborator (the fetch layer, a parser) may raise. *)
Inductive exn : Type :=
| KeyError (k : string)
| TypeError
| AttributeError
| ValueError
| IndexError
| OtherError (name : string).

Definition result (A : Type) : Type := (exn + A)%type.
Definition ok {A} (a : A) : result A := inr a.
Definition throw {A} (e : exn) : result A := inl e.

(** ** Characters and strings *)

Definition dquote : ascii := ascii_of_nat 34.
Definition newline : ascii := ascii_of_nat 10.
Definition nl : string := String newline EmptyString.

(** [s.startswith(p)] *)
Definition startswith (p s : string) : bool := prefix p s.

Definition lower_ascii (c : ascii) : ascii :=
  let n := nat_of_ascii c in
  if ((65 <=? n) && (n <=? 90))%nat then ascii_of_nat (n + 32) else c.

(** [s.lower()], on the ASCII letters. *)
Fixpoint lower (s : string) : string :=
  match s with
  | EmptyString => EmptyString
  | String c r => String (lower_ascii c) (lower r)
  end.

(** [s[n:]] *)
Fixpoint drop (n : nat) (s : string) : string :=
  match n, s with
  | O, _ => s
  | S _, EmptyString => EmptyString
  | S n', String _ r => drop n' r
  end.

(** [s[:n]] *)
Fixpoint take (n : nat) (s : string) : string :=
  match n, s with
  | O, _ => EmptyString
  | S _, EmptyString => EmptyString
  | S n', String c r => String c (take n' r)
  end.

(** [s.replace(a, b)] for one-character [a] and [b]. *)
Fixpoint replace (a b : ascii) (s : string) : string :=
  match s with
  | EmptyString => EmptyString
  | String c r => String (if Ascii.eqb c a then b else c) (replace a b r)
  end.

(** [p in s] for strings: [p] occurs in [s]. *)
Fixpoint occurs (p s : string) : bool :=
  prefix p s ||
  match s with
  | EmptyString => false
  | String _ r => occurs p r
  end.

(** ** Dictionaries *)

Fixpoint lookup (k : string) (d : dict) : option json :=
  match d with
  | [] => None
  | (k', v) :: r => if String.eqb k k' then Some v else lookup k r
  end.

(** [d[k] = v]: the value is replaced where the key stands, a new key goes
    last. *)
Fixpoint store (k : string) (v : json) (d : dict) : dict :=
  match d with
  | [] => [(k, v)]
  | (k', v') :: r =>
      if String.eqb k k' then (k', v) :: r else (k', v') :: store k v r
  end.

Fixpoint remove (k : string) (d : dict) : dict :=
  match d with
  | [] => []
  | (k', v') :: r =>
      if String.eqb k k' then remove k r else (k', v') :: remove k r
  end.

Definition has_key (k : string) (v : json) : bool :=
  match v with
  | JDict d => match lookup k d with Some _ => true | None => false end
  | _ => false
  end.

(** ** Operations on arbitrary values *)

(** [v[k]] with a string [k]. *)
Definition subscript (v : json) (k : string) : result json :=
  match v with
  | JDict d => match lookup k d with
               | Some x => ok x
               | None => throw (KeyError k)
               end
  | _ => throw TypeError
  end.

(** [v.get(k, default)] *)
Definition dict_get (v : json) (k : string) (default : json) : result json :=
  match v with
  | JDict d => match lookup k d with
               | Some x => ok x
               | None => ok default
               end
  | _ => throw AttributeError
  end.

(** [v[k] = x], giving the updated object. *)
Definition setitem (v : json) (k : string) (x : json) : result json :=
  match v with
  | JDict d => ok (JDict (store k x d))
  | _ => throw TypeError
  end.

(** [v.pop(k)]: the value removed and the object left. *)
Definition dict_pop (v : json) (k : string) : result (json * json) :=
  match v with
  | JDict d => match lookup k d with
               | Some x => ok (x, JDict (remove k d))
               | None => throw (KeyError k)
               end
  | JList _ => throw TypeError
  | _ => throw AttributeError
  end.

(** Truth value, as [if v:] takes it. *)
Definition truthy (v : json) : bool :=
  match v with
  | JNull => false
  | JBool b => b
  | JInt n => negb (Z.eqb n 0)
  | JFloat f => match f with S754_zero _ => false | _ => true end
  | JStr s => negb (String.eqb s "")
  | JList l => match l with [] => false | _ => true end
  | JDict d => match d with [] => false | _ => true end
  end.

Fixpoint chars (s : string) : list json :=
  match s with
  | EmptyString => []
  | String c r => JStr (String c EmptyString) :: chars r
  end.

(** What [for x in v] visits. *)
Definition py_iter (v : json) : result (list json) :=
  match v with
  | JList l => ok l
  | JDict d => ok (map (fun kv => JStr (fst kv)) d)
  | JStr s => ok (chars s)
  | _ => throw TypeError
  end.

(** A number: an [int] or [bool], or a [float]. *)
Inductive number : Type :=
| Exact (n : Z)
| Binary (f : spec_float).

Definition as_number (v : json) : option number :=
  match v with
  | JInt n => Some (Exact n)
  | JBool b => Some (Exact (if b then 1 else 0)%Z)
  | JFloat f => Some (Binary f)
  | _ => None
  end.

(** The integer a [float] is equal to, when it is equal to one. *)
Definition integral (f : spec_float) : option Z :=
  match f with
  | S754_zero _ => Some 0%Z
  | S754_finite sign m e =>
      let v := if sign then Z.neg m else Z.pos m in
      if (0 <=? e)%Z then Some (v * 2 ^ e)%Z
      else if (Z.pos m mod 2 ^ (- e) =? 0)%Z then Some (v / 2 ^ (- e))%Z
      else None
  | _ => None
  end.

(** Numbers are compared by value, whatever their types. *)
Definition number_eq (a b : number) : bool :=
  match a, b with
  | Exact x, Exact y => Z.eqb x y
  | Exact x, Binary f | Binary f, Exact x =>
      match integral f with
      | Some y => Z.eqb x y
      | None => false
      end
  | Binary f, Binary g => SFeqb f g
  end.

Definition same_number (a : number) (b : json) : bool :=
  match as_number b with
  | Some n => number_eq a n
  | None => false
  end.

(** [a == b]: numbers (booleans included) by value, strings and lists
    element-wise, dictionaries key by key whatever the order. *)
Fixpoint py_eq (a b : json) {struct a} : bool :=
  match a with
  | JNull => match b with JNull => true | _ => false end
  | JBool x => same_number (Exact (if x then 1 else 0)%Z) b
  | JInt x => same_number (Exact x) b
  | JFloat x => same_number (Binary x) b
  | JStr x => match b with JStr y => String.eqb x y | _ => false end
  | JList la =>
      match b with
      | JList lb =>
          (fix all2 (la lb : list json) {struct la} : bool :=
             match la, lb with
             | [], [] => true
             | x :: la', y :: lb' => py_eq x y && all2 la' lb'
             | _, _ => false
             end) la lb
      | _ => false
      end
  | JDict da =>
      match b with
      | JDict db =>
          Nat.eqb (List.length da) (List.length db) &&
          (fix every (da : dict) {struct da} : bool :=
             match da with
             | [] => true
             | (k, x) :: da' =>
                 match lookup k db with
                 | Some y => py_eq x y && every da'
                 | None => false
                 end
             end) da
      | _ => false
      end
  end.

(** [needle in v] for a string [needle]. *)
Definition py_in (needle : string) (v : json) : result bool :=
  match v with
  | JStr s => ok (occurs needle s)
  | JList l => ok (existsb (py_eq (JStr needle)) l)
  | JDict d => ok (match lookup needle d with Some _ => true | None => false end)
  | _ => throw TypeError
  end.

(** [sep.join((a, b))] *)
Definition join2 (sep : string) (a b : json) : result json :=
  match a, b with
  | JStr x, JStr y => ok (JStr (x ++ sep ++ y))
  | _, _ => throw TypeError
  end.

(** [v.lower()] *)
Definition lower_method (v : json) : result string :=
  match v with
  | JStr s => ok (lower s)
  | _ => throw AttributeError
  end.

(** [v[:n]] *)
Definition slice_to (n : nat) (v : json) : result json :=
  match v with
  | JStr s => ok (JStr (take n s))
  | JList l => ok (JList (firstn n l))
  | _ => throw TypeError
  end.

(** [prefix + v] with a string on the left. *)
Definition concat_str (p : string) (v : json) : result json :=
  match v with
  | JStr s => ok (JStr (p ++ s))
  | _ => throw TypeError
  end.

(** [v.replace(a, b)] *)
Definition replace_method (a b : ascii) (v : json) : result json :=
  match v with
  | JStr s => ok (JStr (replace a b s))
  | _ => throw AttributeError
  end.

End Py.
Export Py.

(* ===================================================================== *)
(** * Effects                                                             *)
(* ===================================================================== *)

Module Run.

(** The module-level variables of itvx.py that hold data. A function body
    reads them through the module's namespace each time it runs. The other
    module-level names are bound to the imported modules, to the functions
    and to the logger, whose records are kept apart below. *)
Record Globals : Type := mkGlobals {
  FEATURE_SET : string;
  PLATFORM_TAG : string;
  cached_programs : dict;
  CACHE_TIME : Z
}.

(** The values itvx.py binds at import time (lines 29, 30, 186, 187). *)
Definition module_globals : Globals := {|
  FEATURE_SET := "hd,progressive,single-track,mpeg-dash,widevine,widevine-download,inband-ttml,hls,aes,inband-webvtt,outband-webvtt,inband-audio-description";
  PLATFORM_TAG := "mobile";
  cached_programs := [];
  CACHE_TIME := 600
|}.

(** A call into the fetch layer. *)
Inductive request : Type :=
| GetDocument (url : string)
| GetJson (url : string) (params : list (string * string))
| GetLiveSchedule.

Inductive level : Type := Debug | Info | Warning.

(** A call to [logger]: level, message template and arguments. *)
Definition log_record : Type := (level * string * list json)%type.

Record State : Type := mkState {
  globals : Globals;
  requests : list request;     (* calls into the fetch layer, oldest first *)
  records : list log_record;   (* records handed to the logger, oldest first *)
  steps : nat                  (* loop iterations executed so far *)
}.

Definition initial : State :=
  {| globals := module_globals; requests := []; records := []; steps := 0 |}.

(** A statement sequence: it ends with a value or a raised exception, and
    leaves a state either way. *)
Definition M (A : Type) : Type := State -> result A * State.

Definition ret {A} (a : A) : M A := fun s => (ok a, s).

Definition bind {A B} (m : M A) (k : A -> M B) : M B :=
  fun s =>
    match m s with
    | (inr a, s') => k a s'
    | (inl e, s') => (inl e, s')
    end.

(** A built-in that may raise. *)
Definition lift {A} (r : result A) : M A := fun s => (r, s).

Definition read {A} (f : Globals -> A) : M A := fun s => (ok (f (globals s)), s).

Definition tick : M unit :=
  fun s => (ok tt, {| globals := globals s; requests := requests s;
                      records := records s; steps := S (steps s) |}).

Definition issue (q : request) (s : State) : State :=
  {| globals := globals s; requests := requests s ++ [q];
     records := records s; steps := steps s |}.

Definition logger (lv : level) (msg : string) (args : list json) : M unit :=
  fun s => (ok tt, {| globals := globals s; requests := requests s;
                      records := records s ++ [(lv, msg, args)];
                      steps := steps s |}).

(** A drained generator: the items it yielded, in order, and the exception
    that ended it if one did. A generator function does nothing until it is
    iterated; it is modelled by the run that iterates it to the end. *)
Definition Gen : Type := State -> (list json * option exn) * State.

(** The items a drained generator yielded, and how it ended. *)
Definition yields (g : Gen) (s : State) : list json := fst (fst (g s)).
Definition ending (g : Gen) (s : State) : option exn := snd (fst (g s)).

(** The statements of a generator function before its loop. *)
Definition gen_bind {A} (m : M A) (k : A -> Gen) : Gen :=
  fun s =>
    match m s with
    | (inr a, s') => k a s'
    | (inl e, s') => (([], Some e), s')
    end.

(** [return] in a generator body, or falling off its end. *)
Definition gen_done : Gen := fun s => (([], None), s).

(** [for x in xs: body], where one pass of the body either reaches its
    [yield] ([Some item]) or a [continue] ([None]). *)
Fixpoint gen_for (xs : list json) (body : json -> M (option json)) : Gen :=
  fun s =>
    match xs with
    | [] => (([], None), s)
    | x :: r =>
        match body x s with
        | (inl e, s') => (([], Some e), s')
        | (inr None, s') => gen_for r body s'
        | (inr (Some y), s') =>
            match gen_for r body s' with
            | ((ys, e), s'') => ((y :: ys, e), s'')
            end
        end
    end.

(** [for x in xs: body] where the body maps each element, or a list
    comprehension [[f(x) for x in xs]]. *)
Fixpoint for_each (xs : list json) (body : json -> M json) : M (list json) :=
  match xs with
  | [] => ret []
  | x :: r =>
      fun s =>
        match body x s with
        | (inl e, s') => (inl e, s')
        | (inr y, s') =>
            match for_each r body s' with
            | (inl e, s'') => (inl e, s'')
            | (inr ys, s'') => (inr (y :: ys), s'')
            end
        end
  end.

End Run.
Export Run.

Declare Scope run_scope.
Delimit Scope run_scope with run.
Notation "x <- m ;; k" := (bind m (fun x => k))
  (at level 61, m at next level, right associativity) : run_scope.
Notation "' p <- m ;; k" := (bind m (fun x => match x with p => k end))
  (at level 61, p pattern, m at next level, right associativity) : run_scope.
Notation "m ;; k" := (bind m (fun _ => k))
  (at level 61, right associativity) : run_scope.
Notation "x <~ m ;; k" := (gen_bind m (fun x => k))
  (at level 61, m at next level, right associativity) : run_scope.

Local Open Scope run_scope.

(* ===================================================================== *)
(** * What itvx.py calls but does not define                              *)
(* ===================================================================== *)

(** The helpers imported from the sibling modules [parsex] and [utils], and
    the standard-library calls whose results the module only passes on.
    They take values and give a value or raise; they touch neither the
    module's variables nor the network. *)
Record Lib : Type := mkLib {
  scrape_json : string -> result json;              (* parsex.scrape_json(html_doc) *)
  parse_hero_content : json -> result json;         (* parsex.parse_hero_content(hero_data) *)
  parse_title : json -> json -> result json;        (* parsex.parse_title(episode, brand_fanart) *)
  build_url : json -> json -> option json -> result json;
                                                    (* parsex.build_url(title, prog_id[, episode_id]) *)
  duration_2_seconds : json -> result json;         (* utils.duration_2_seconds(content_info) *)
  IMG_PROPS_THUMB : dict;                           (* parsex.IMG_PROPS_THUMB *)
  IMG_PROPS_FANART : dict;                          (* parsex.IMG_PROPS_FANART *)
  IMG_PROPS_POSTER : dict;                          (* parsex.IMG_PROPS_POSTER *)
  str_format : string -> list json -> dict -> result string;
                                                    (* str.format: template, positional, keyword arguments *)
  strptime : json -> result Z
    (* the datetime built from the first six fields of
       time.strptime(text, '%Y-%m-%dT%H:%M:%S'), read as UTC: seconds since
       the epoch *)
}.

(** What lies outside the process: the broadcaster's servers behind the
    fetch layer, the host's time zone and clock. A fetch hands over a
    value parsed from the response for this call alone: what
    [get_live_channels] changes in the dictionaries of a response
    (lines 59, 60, 68 and 91) no later fetch sees. *)
Record World : Type := mkWorld {
  get_document : string -> result string;                     (* fetch.get_document(url) *)
  get_json : string -> list (string * string) -> result json; (* fetch.get_json(url, params=...) *)
  get_live_schedule : result json;                            (* itv.get_live_schedule() *)
  get_localzone : Z -> Z;     (* tzlocal: offset from UTC, in seconds, in force at an instant *)
  clock : Z                   (* time.time() *)
}.

Definition at_time (W : World) (t : Z) : World :=
  {| get_document := get_document W; get_json := get_json W;
     get_live_schedule := get_live_schedule W;
     get_localzone := get_localzone W; clock := t |}.

(* ===================================================================== *)
(** * itvx.py                                                             *)
(* ===================================================================== *)

Module Itvx.

Definition digit (d : Z) : ascii := ascii_of_nat (48 + Z.to_nat d).

Definition two_digits (n : Z) : string :=
  String (digit (n / 10)) (String (digit (n mod 10)) EmptyString).

(** [utc_start.astimezone(local_tz).strftime('%H:%M')] *)
Definition local_hhmm (tz : Z -> Z) (utc_start : Z) : string :=
  let t := (utc_start + tz utc_start)%Z in
  two_digits ((t / 3600) mod 24) ++ ":" ++ two_digits ((t / 60) mod 60).

(** [re.compile('data-video-id="(.+?)"').search(html_doc)]: the group of
    the leftmost match. The group is the shortest non-empty run of
    characters other than a newline that a double quote follows. *)
Definition video_id_key : string := "data-video-id=" ++ String dquote EmptyString.

Fixpoint until_quote (s : string) : option string :=
  match s with
  | EmptyString => None
  | String c r =>
      if Ascii.eqb c dquote then Some EmptyString
      else if Ascii.eqb c newline then None
      else option_map (String c) (until_quote r)
  end.

Definition group_at (s : string) : option string :=
  match s with
  | EmptyString => None
  | String c r =>
      if Ascii.eqb c newline then None
      else option_map (String c) (until_quote r)
  end.

Fixpoint search_video_id (s : string) : option string :=
  match s with
  | EmptyString => None
  | String _ r =>
      if prefix video_id_key s then
        match group_at (drop (String.length video_id_key) s) with
        | Some g => Some g
        | None => search_video_id r
        end
      else search_video_id r
  end.

Section Functions.

Variable L : Lib.
Variable W : World.

(** [fetch.get_document(url)] *)
Definition fetch_get_document (url : string) : M string :=
  fun s => (get_document W url, issue (GetDocument url) s).

(** [fetch.get_json(url, params=params)] *)
Definition fetch_get_json (url : string) (params : list (string * string)) : M json :=
  fun s => (get_json W url params, issue (GetJson url params) s).

(** [get_live_schedule()] of the sibling module [itv] *)
Definition itv_get_live_schedule : M json :=
  fun s => (get_live_schedule W, issue GetLiveSchedule s).

(** [recv.format] applied to positional and keyword arguments *)
Definition format_method (recv : json) (args : list json) (kwargs : dict) : result json :=
  match recv with
  | JStr t =>
      match str_format L t args kwargs with
      | inr r => ok (JStr r)
      | inl e => throw e
      end
  | _ => throw AttributeError
  end.

(** itvx.py, lines 33-37 *)
Definition get_page_data (url : string) : M json :=
  let url := if negb (startswith "https://" url)
             then "https://www.itv.com" ++ url else url in
  html_doc <- fetch_get_document url ;;
  lift (scrape_json L html_doc).

(** The body of [for prog in (slots['now'], slots['next'])], lines 76-90. *)
Definition programme_entry (local_tz : Z -> Z) (prog : json) : M json :=
  tick ;;
  ddt <- lift (subscript prog "detailedDisplayTitle") ;;
  details <-
    (if truthy ddt then
       dt <- lift (subscript prog "displayTitle") ;;
       ddt' <- lift (subscript prog "detailedDisplayTitle") ;;
       lift (join2 ": " dt ddt')
     else lift (subscript prog "displayTitle")) ;;
  start <- lift (subscript prog "start") ;;
  start_t <- lift (slice_to 19 start) ;;
  utc_start <- lift (strptime L start_t) ;;
  title <- lift (subscript prog "displayTitle") ;;
  ret (JDict [("programme_details", details);
              ("programmeTitle", title);
              ("orig_start", JNull);
              ("startTime", JStr (local_hhmm local_tz utc_start))]).

(** Lines 74-91: the slot list built from the now/next data. *)
Definition now_next (local_tz : Z -> Z) (channel slots : json) : M json :=
  now <- lift (subscript slots "now") ;;
  next <- lift (subscript slots "next") ;;
  programs_list <- for_each [now; next] (programme_entry local_tz) ;;
  lift (setitem channel "slot" (JList programs_list)).

(** [for main_chan in main_schedule], lines 65-69, with its [break]. *)
Fixpoint find_main (main_schedule : list json) (chan_id channel : json) : M json :=
  match main_schedule with
  | [] => ret channel
  | main_chan :: rest =>
      tick ;;
      c <- lift (subscript main_chan "channel") ;;
      name <- lift (subscript c "name") ;;
      if py_eq name chan_id then
        slot <- lift (subscript main_chan "slot") ;;
        lift (setitem channel "slot" slot)
      else find_main rest chan_id channel
  end.

(** The body of [for channel in channels], lines 59-91. *)
Definition channel_entry (local_tz : Z -> Z) (fanart_url main_schedule : json)
    (channel : json) : M json :=
  tick ;;
  channel <- lift (setitem channel "backdrop" fanart_url) ;;
  ' (slots, channel) <- lift (dict_pop channel "slots") ;;
  ctype <- lift (subscript channel "channelType") ;;
  if py_eq ctype (JStr "simulcast") then
    chan_id <- lift (subscript channel "id") ;;
    main_chans <- lift (py_iter main_schedule) ;;
    channel <- find_main main_chans chan_id channel ;;
    slot <- lift (dict_get channel "slot" JNull) ;;
    if truthy slot then ret channel
    else now_next local_tz channel slots
  else now_next local_tz channel slots.

(** The object [channels] after the loop has updated its elements. Only a
    list has elements the loop body accepts; any other iterable is
    returned as it came, having had nothing to visit. *)
Definition updated (channels : json) (elements : list json) : json :=
  match channels with
  | JList _ => JList elements
  | other => other
  end.

(** itvx.py, lines 40-92 *)
Definition get_live_channels : M json :=
  let local_tz := get_localzone W in
  feature_set <- read FEATURE_SET ;;
  platform_tag <- read PLATFORM_TAG ;;
  live_data <- fetch_get_json "https://nownext.oasvc.itv.com/channels"
                 [("broadcaster", "itv");
                  ("featureSet", feature_set);
                  ("platformTag", platform_tag)] ;;
  images <- lift (subscript live_data "images") ;;
  fanart_url <- lift (subscript images "backdrop") ;;
  main_schedule <- itv_get_live_schedule ;;
  channels <- lift (subscript live_data "channels") ;;
  elements <- lift (py_iter channels) ;;
  elements' <- for_each elements (channel_entry local_tz fanart_url main_schedule) ;;
  ret (updated channels elements').

(** itvx.py, lines 95-98 *)
Definition main_page_items : Gen :=
  main_data <~ get_page_data "https://www.itv.com" ;;
  hero_content <~ lift (subscript main_data "heroContent") ;;
  heroes <~ lift (py_iter hero_content) ;;
  gen_for heroes
    (fun hero_data =>
       tick ;;
       item <- lift (parse_hero_content L hero_data) ;;
       ret (Some item)).

(** The body of [for series in series_data], lines 120-132. *)
Definition series_entry (url : string)
    (brand_title brand_thumb brand_fanart brand_description : json)
    (series : json) : M json :=
  tick ;;
  title <- lift (subscript series "title") ;;
  series_idx <- lift (subscript series "seriesNumber") ;;
  title' <- lift (subscript series "title") ;;
  info_title <- lift (format_method (JStr "[B]{} - {}[/B]") [brand_title; title'] []) ;;
  count <- lift (subscript series "seriesAvailableEpisodeCount") ;;
  plot <- lift (format_method (JStr ("{}" ++ nl ++ nl ++ "{} - {} episodes"))
                  [brand_description; title; count] []) ;;
  eps <- lift (subscript series "episodes") ;;
  eps <- lift (py_iter eps) ;;
  parsed <- for_each eps
              (fun episode => tick ;; lift (parse_title L episode brand_fanart)) ;;
  ret (JDict [("label", title);
              ("art", JDict [("thumb", brand_thumb); ("fanart", brand_fanart)]);
              ("info", JDict [("title", info_title); ("plot", plot)]);
              ("params", JDict [("url", JStr url); ("series_idx", series_idx)]);
              ("episodes", JList parsed)]).

(** itvx.py, lines 101-133 *)
Definition episodes (url : string) : M json :=
  page <- get_page_data url ;;
  title <- lift (subscript page "title") ;;
  brand_data <- lift (subscript title "brand") ;;
  brand_title <- lift (subscript brand_data "title") ;;
  t <- lift (subscript brand_data "title") ;;
  brand_thumb <- lift (format_method t [JDict (IMG_PROPS_THUMB L)] []) ;;
  t <- lift (subscript brand_data "title") ;;
  brand_fanart <- lift (format_method t [JDict (IMG_PROPS_FANART L)] []) ;;
  synopses <- lift (subscript brand_data "synopses") ;;
  brand_description <- lift (dict_get synopses "ninety" (JStr "")) ;;
  series_data <- lift (subscript brand_data "series") ;;
  if negb (truthy series_data) then ret (JList [])
  else
    series <- lift (py_iter series_data) ;;
    series_list <- for_each series
                     (series_entry url brand_title brand_thumb brand_fanart
                        brand_description) ;;
    ret (JList series_list).

(** itvx.py, lines 136-140. The page is fetched and the item list found
    when [categories] is called; the items are built as the returned
    generator expression is iterated. *)
Definition categories : Gen :=
  data <~ get_page_data "https://www.itv.com/watch/categories" ;;
  subnav <~ lift (subscript data "subnav") ;;
  cat_list <~ lift (subscript subnav "items") ;;
  cats <~ lift (py_iter cat_list) ;;
  gen_for cats
    (fun cat =>
       tick ;;
       name <- lift (subscript cat "name") ;;
       url <- lift (subscript cat "url") ;;
       ret (Some (JDict [("label", name);
                         ("params", JDict [("path", url)])]))).

Definition premium_marker : string := "[COLOR yellow]X premium[/COLOR]".

(** Lines 161-183: the item of a programme, once its plot is known. *)
Definition programme_item (category prog content_info title plot : json)
    (is_playable : bool) : M (option json) :=
  sort_title <- lift (lower_method title) ;;
  template <- lift (subscript prog "imageTemplate") ;;
  thumb <- lift (format_method template [] (IMG_PROPS_THUMB L)) ;;
  template <- lift (subscript prog "imageTemplate") ;;
  fanart <- lift (format_method template [] (IMG_PROPS_FANART L)) ;;
  info_title <-
    (if is_playable then ret title
     else lift (format_method (JStr "[B]{}[/B] {}") [title; content_info] [])) ;;
  let art := [("thumb", thumb); ("fanart", fanart)] in
  let info := [("title", info_title);
               ("plot", plot);
               ("sorttitle", JStr (if startswith "the " sort_title
                                   then drop 4 sort_title else sort_title))] in
  art <-
    (if py_eq category (JStr "films") then
       template <- lift (subscript prog "imageTemplate") ;;
       poster <- lift (format_method template [] (IMG_PROPS_POSTER L)) ;;
       ret (store "poster" poster art)
     else ret art) ;;
  if is_playable then
    duration <- lift (duration_2_seconds L content_info) ;;
    prog_id <- lift (subscript prog "encodedProgrammeId") ;;
    letter_a <- lift (subscript prog_id "letterA") ;;
    url <- lift (build_url L title letter_a None) ;;
    ret (Some (JDict [("playable", JBool true);
                      ("show", JDict [("label", title);
                                      ("art", JDict art);
                                      ("info", JDict (store "duration" duration info));
                                      ("params", JDict [("url", url)])])]))
  else
    prog_id <- lift (subscript prog "encodedProgrammeId") ;;
    letter_a <- lift (subscript prog_id "letterA") ;;
    ep_id <- lift (subscript prog "encodedEpisodeId") ;;
    ep_letter_a <- lift (subscript ep_id "letterA") ;;
    url <- lift (build_url L title letter_a (Some ep_letter_a)) ;;
    ret (Some (JDict [("playable", JBool false);
                      ("show", JDict [("label", title);
                                      ("art", JDict art);
                                      ("info", JDict info);
                                      ("params", JDict [("url", url)])])])).

(** The body of [for prog in progr_list], lines 150-183. *)
Definition category_entry (category : json) (hide_payed : bool) (prog : json)
    : M (option json) :=
  tick ;;
  content_info <- lift (subscript prog "contentInfo") ;;
  lowered <- lift (lower_method content_info) ;;
  let is_playable := negb (startswith "series" lowered) in
  title <- lift (subscript prog "title") ;;
  tier <- lift (subscript prog "tier") ;;
  free <- lift (py_in "FREE" tier) ;;
  if free then
    plot <- lift (subscript prog "description") ;;
    programme_item category prog content_info title plot is_playable
  else if hide_payed then ret None
  else
    description <- lift (subscript prog "description") ;;
    plot <- lift (join2 (nl ++ nl) description (JStr premium_marker)) ;;
    programme_item category prog content_info title plot is_playable.

(** itvx.py, lines 143-183 *)
Definition category_content (url : string) (hide_payed : bool) : Gen :=
  cat_data <~ get_page_data url ;;
  cat <~ lift (subscript cat_data "category") ;;
  category <~ lift (subscript cat "pathSegment") ;;
  progr_list <~ lift (dict_get cat_data "programmes" JNull) ;;
  progs <~ lift (py_iter progr_list) ;;
  gen_for progs (category_entry category hide_payed).

(** itvx.py, lines 190-209 *)
Definition get_playlist_url_from_episode_page (page_url : string)
    : M (string * string) :=
  logger Info "Get playlist from episode page - url=%s" [JStr page_url] ;;
  html_doc <- fetch_get_document page_url ;;
  logger Debug "successfully retrieved page %s" [JStr page_url] ;;
  let name := "" in
  match search_video_id html_doc with
  | Some play_list_url => ret (play_list_url, name)
  | None => lift (throw TypeError)
  end.

Definition image_size : dict :=
  [("width", JInt 960); ("height", JInt 540); ("quality", JInt 80);
   ("blur", JInt 0); ("bg", JStr "false")].

(** Lines 229-244 *)
Definition parse_programme (prg_data : json) : M json :=
  prog_name <- lift (subscript prg_data "programmeTitle") ;;
  latest <- lift (subscript prg_data "latestAvailableEpisode") ;;
  img_url <- lift (subscript latest "imageHref") ;;
  thumb <- lift (format_method img_url [] image_size) ;;
  plot <- lift (dict_get prg_data "synopsis" JNull) ;;
  total <- lift (dict_get prg_data "totalAvailableEpisodes" (JStr "")) ;;
  title <- lift (format_method (JStr "[B]{}[/B] - {} episodes") [prog_name; total] []) ;;
  legacy <- lift (subscript prg_data "legacyId") ;;
  api_encoded <- lift (subscript legacy "apiEncoded") ;;
  url <- lift (format_method
                 (JStr ("https://discovery.hubsvc.itv.com/platform/itvonline/dotcom/productions?programmeId={}&"
                        ++ "features=aes,clearkey,fairplay,hls,mpeg-dash,outband-webvtt,playready,"
                        ++ "widevine&broadcaster=itv"))
                 [api_encoded] []) ;;
  ret (JDict [("entity_type", JStr "programme");
              ("label", prog_name);
              ("art", JDict [("thumb", thumb)]);
              ("info", JDict [("plot", plot); ("title", title)]);
              ("params", JDict [("url", url); ("name", prog_name)])]).

(** Lines 246-262. The body reads the title and the image from
    [program_data], the variable of the enclosing loop, and the rest from
    its parameter. *)
Definition parse_special (program_data prg_data : json) : M json :=
  prog_name <- lift (subscript program_data "specialTitle") ;;
  img_url <- lift (subscript program_data "imageHref") ;;
  production_id <- lift (subscript prg_data "productionId") ;;
  replaced <- lift (replace_method "/" "_" production_id) ;;
  api_prod_id <- lift (replace_method "#" "." replaced) ;;
  thumb <- lift (format_method img_url [] image_size) ;;
  plot <- lift (dict_get prg_data "synopsis" JNull) ;;
  url <- lift (concat_str "https://magni.itv.com/playlist/itvonline/ITV/" api_prod_id) ;;
  ret (JDict [("entity_type", JStr "special");
              ("label", prog_name);
              ("art", JDict [("thumb", thumb)]);
              ("info", JDict [("plot", plot); ("title", prog_name)]);
              ("params", JDict [("url", url); ("name", prog_name)])]).

(** The body of [for result in results], lines 265-274. *)
Definition search_entry (search_term : string) (result : json) : M (option json) :=
  tick ;;
  program_data <- lift (subscript result "data") ;;
  entity_type <- lift (subscript result "entityType") ;;
  if py_eq entity_type (JStr "programme") then
    item <- parse_programme program_data ;;
    ret (Some item)
  else if py_eq entity_type (JStr "special") then
    item <- parse_special program_data program_data ;;
    ret (Some item)
  else
    logger Warning "Unknown search result item entityType %s on search term %s"
      [entity_type; JStr search_term] ;;
    ret None.

Definition search_url : string := "https://textsearch.prd.oasvc.itv.com/search".

Definition query_params (search_term : string) : list (string * string) :=
  [("broadcaster", "itv");
   ("featureSet", "clearkey,outband-webvtt,hls,aes,playready,widevine,fairplay,bbts,progressive,hd,rtmpe");
   ("onlyFree", "true");
   ("platform", "dotcom");
   ("query", search_term)].

(** itvx.py, lines 213-274 *)
Definition search (search_term : string) : Gen :=
  data <~ fetch_get_json search_url (query_params search_term) ;;
  match data with
  | JNull => gen_done
  | _ =>
      results <~ lift (dict_get data "results" JNull) ;;
      results <~ lift (py_iter results) ;;
      gen_for results (search_entry search_term)
  end.

End Functions.

End Itvx.
Export Itvx.

(* ===================================================================== *)
(** * The fetched object of [get_live_channels]                           *)
(* ===================================================================== *)

(** [get_live_channels] does not build new dictionaries for the channels:
    lines 59, 60, 68 and 91 assign to the channel dictionaries of the
    fetched now/next object, and line 92 returns the list that object
    holds. Above, the changed dictionary is passed from statement to
    statement as a value, which gives what a run returns. Here the same
    lines are run on the object itself, which also gives what becomes of
    the object that [fetch.get_json] handed over, whether the run returns
    or raises. *)
Module InPlace.

(** A statement sequence that works on one object: a run gives the
    outcome, the object as the statements leave it, and the state. *)
Definition B (A : Type) : Type := json -> State -> (result A * json) * State.

Definition seq {A C} (m : B A) (k : A -> B C) : B C :=
  fun o s =>
    match m o s with
    | ((inr a, o'), s') => k a o' s'
    | ((inl e, o'), s') => ((inl e, o'), s')
    end.

(** Statements that leave the object alone. *)
Definition here {A} (m : M A) : B A :=
  fun o s => match m s with (r, s') => ((r, o), s') end.

(** [o[k]] and [o.get(k, default)] *)
Definition item (k : string) : B json := fun o s => ((subscript o k, o), s).

Definition get (k : string) (default : json) : B json :=
  fun o s => ((dict_get o k default, o), s).

(** [o[k] = v] *)
Definition assign (k : string) (v : json) : B unit :=
  fun o s =>
    match setitem o k v with
    | inr o' => ((ok tt, o'), s)
    | inl e => ((inl e, o), s)
    end.

(** [o.pop(k)] *)
Definition pop (k : string) : B json :=
  fun o s =>
    match dict_pop o k with
    | inr (v, o') => ((ok v, o'), s)
    | inl e => ((inl e, o), s)
    end.

(** The call into the fetch layer that handed the object over. *)
Definition requested (q : request) : M unit := fun s => (ok tt, issue q s).

Declare Scope place_scope.
Notation "x <- m ;; k" := (seq m (fun x => k))
  (at level 61, m at next level, right associativity) : place_scope.
Notation "m ;; k" := (seq m (fun _ => k))
  (at level 61, right associativity) : place_scope.
Local Open Scope place_scope.

Section Functions.

Variable L : Lib.
Variable W : World.

(** [for main_chan in main_schedule], lines 65-69, on the dictionary of
    the channel. *)
Fixpoint find_main (main_schedule : list json) (chan_id : json) : B unit :=
  match main_schedule with
  | [] => here (ret tt)
  | main_chan :: rest =>
      here tick ;;
      c <- here (lift (subscript main_chan "channel")) ;;
      name <- here (lift (subscript c "name")) ;;
      if py_eq name chan_id then
        slot <- here (lift (subscript main_chan "slot")) ;;
        assign "slot" slot
      else find_main rest chan_id
  end.

(** Lines 74-91, on the dictionary of the channel. *)
Definition now_next (local_tz : Z -> Z) (slots : json) : B unit :=
  now <- here (lift (subscript slots "now")) ;;
  next <- here (lift (subscript slots "next")) ;;
  programs_list <- here (for_each [now; next] (programme_entry L local_tz)) ;;
  assign "slot" (JList programs_list).

(** The body of [for channel in channels], lines 59-91, on the dictionary
    that [channel] names. *)
Definition channel_entry (local_tz : Z -> Z) (fanart_url main_schedule : json)
    : B unit :=
  here tick ;;
  assign "backdrop" fanart_url ;;
  slots <- pop "slots" ;;
  ctype <- item "channelType" ;;
  if py_eq ctype (JStr "simulcast") then
    chan_id <- item "id" ;;
    main_chans <- here (lift (py_iter main_schedule)) ;;
    find_main main_chans chan_id ;;
    slot <- get "slot" JNull ;;
    if truthy slot then here (ret tt)
    else now_next local_tz slots
  else now_next local_tz slots.

(** [for channel in channels] on the elements of the list where they are:
    the list holds the changed dictionaries, also those changed before an
    exception ended the loop. *)
Fixpoint each_in_place (elements : list json) (body : B unit)
    : State -> (result unit * list json) * State :=
  fun s =>
    match elements with
    | [] => ((ok tt, []), s)
    | channel :: rest =>
        match body channel s with
        | ((inl e, channel'), s') => ((inl e, channel' :: rest), s')
        | ((inr _, channel'), s') =>
            match each_in_place rest body s' with
            | ((r, rest'), s'') => ((r, channel' :: rest'), s'')
            end
        end
    end.

(** The loop of line 58 on the object [live_data]: a list under
    [channels] is the list the loop changes. Iterating over anything else
    visits keys or characters, which the body cannot change. *)
Definition in_channels (elements : list json) (body : B unit) : B unit :=
  fun o s =>
    match each_in_place elements body s with
    | ((r, elements'), s') =>
        match o, subscript o "channels" with
        | JDict d, inr (JList _) =>
            ((r, JDict (store "channels" (JList elements') d)), s')
        | _, _ => ((r, o), s')
        end
    end.

(** itvx.py, lines 40-92, on the object [live_data] that [fetch.get_json]
    handed over. *)
Definition get_live_channels : B json :=
  let local_tz := get_localzone W in
  feature_set <- here (read FEATURE_SET) ;;
  platform_tag <- here (read PLATFORM_TAG) ;;
  here (requested (GetJson "https://nownext.oasvc.itv.com/channels"
                     [("broadcaster", "itv");
                      ("featureSet", feature_set);
                      ("platformTag", platform_tag)])) ;;
  images <- item "images" ;;
  fanart_url <- here (lift (subscript images "backdrop")) ;;
  main_schedule <- here (itv_get_live_schedule W) ;;
  channels <- item "channels" ;;
  elements <- here (lift (py_iter channels)) ;;
  in_channels elements (channel_entry local_tz fanart_url main_schedule) ;;
  item "channels".

End Functions.

End InPlace.

(* ===================================================================== *)
(** * A concrete environment                                              *)
(* ===================================================================== *)

Module Demo.

(** Stand-ins for what lies outside itvx.py, on which the functions can be
    run: a formatter for the templates the module uses, a reader of the
    timestamps the now/next data carries, helpers that hand back what they
    are given, and a site with a few pages. *)

Definition obj (d : dict) : json := JDict d.
Definition str (s : string) : json := JStr s.

Definition digit_value (c : ascii) : option Z :=
  let n := nat_of_ascii c in
  if ((48 <=? n) && (n <=? 57))%nat then Some (Z.of_nat (n - 48)) else None.

Fixpoint digits (s : string) (acc : Z) : option Z :=
  match s with
  | EmptyString => Some acc
  | String c r =>
      match digit_value c with
      | Some d => digits r (10 * acc + d)
      | None => None
      end
  end.

(** The number written in the [len] characters of [s] from [from] on. *)
Definition field (from len : nat) (s : string) : option Z :=
  let f := substring from len s in
  if Nat.eqb (String.length f) len then digits f 0 else None.

(** Days from 1970-01-01 to the given day of the Gregorian calendar. *)
Definition days_from_civil (y m d : Z) : Z :=
  let y := if (m <=? 2)%Z then (y - 1)%Z else y in
  let era := (y / 400)%Z in
  let yoe := (y - era * 400)%Z in
  let mp := ((m + 9) mod 12)%Z in
  let doy := ((153 * mp + 2) / 5 + d - 1)%Z in
  let doe := (yoe * 365 + yoe / 4 - yoe / 100 + doy)%Z in
  (era * 146097 + doe - 719468)%Z.

Definition separators (s : string) : bool :=
  String.eqb (substring 4 1 s) "-" && String.eqb (substring 7 1 s) "-" &&
  String.eqb (substring 10 1 s) "T" && String.eqb (substring 13 1 s) ":" &&
  String.eqb (substring 16 1 s) ":" && Nat.eqb (String.length s) 19.

(** Reads [YYYY-MM-DDTHH:MM:SS], every field at its full width, as a time
    in UTC. *)
Definition iso_seconds (v : json) : result Z :=
  match v with
  | JStr s =>
      match field 0 4 s, field 5 2 s, field 8 2 s with
      | Some y, Some mo, Some d =>
          match field 11 2 s, field 14 2 s, field 17 2 s with
          | Some h, Some mi, Some sec =>
              if (separators s &&
                  (1 <=? mo) && (mo <=? 12) && (1 <=? d) && (d <=? 31) &&
                  (h <=? 23) && (mi <=? 59) && (sec <=? 59))%Z
              then ok (days_from_civil y mo d * 86400
                       + h * 3600 + mi * 60 + sec)%Z
              else throw ValueError
          | _, _, _ => throw ValueError
          end
      | _, _, _ => throw ValueError
      end
  | _ => throw TypeError
  end.

Definition render (v : json) : string :=
  match v with
  | JStr s => s
  | JInt n => NilZero.string_of_int (Z.to_int n)
  | JBool true => "True"
  | JBool false => "False"
  | JNull => "None"
  | JFloat _ => "..."
  | JList _ => "[...]"
  | JDict _ => "{...}"
  end.

(** The name between the braces of a replacement field, and what follows
    the closing brace. *)
Fixpoint field_name (s : string) : option (string * string) :=
  match s with
  | EmptyString => None
  | String c r =>
      if Ascii.eqb c "}" then Some (EmptyString, r)
      else match field_name r with
           | Some (n, rest) => Some (String c n, rest)
           | None => None
           end
  end.

(** [str.format] for templates whose fields are [{}] or [{name}], without
    conversions or format specifications. [fuel] bounds the characters
    read. *)
Fixpoint format_with (fuel : nat) (t : string) (args : list json) (kwargs : dict)
    : result string :=
  match fuel with
  | O => ok EmptyString
  | S fuel' =>
      match t with
      | EmptyString => ok EmptyString
      | String c r =>
          if Ascii.eqb c "{" then
            match field_name r with
            | None => throw ValueError
            | Some (EmptyString, rest) =>
                match args with
                | [] => throw IndexError
                | a :: args' =>
                    match format_with fuel' rest args' kwargs with
                    | inr out => ok (render a ++ out)
                    | inl e => throw e
                    end
                end
            | Some (name, rest) =>
                match lookup name kwargs with
                | None => throw (KeyError name)
                | Some a =>
                    match format_with fuel' rest args kwargs with
                    | inr out => ok (render a ++ out)
                    | inl e => throw e
                    end
                end
            end
          else
            match format_with fuel' r args kwargs with
            | inr out => ok (String c out)
            | inl e => throw e
            end
      end
  end.

Definition categories_page : json :=
  obj [("subnav",
        obj [("items",
              JList [obj [("name", str "Drama & Soaps");
                          ("url", str "/watch/categories/drama-soaps")];
                     obj [("name", str "Films");
                          ("url", str "/watch/categories/films")]])])].

Definition free_programme : json :=
  obj [("title", str "The Chase");
       ("contentInfo", str "Series 1 - 14");
       ("tier", JList [str "FREE"]);
       ("description", str "Quiz show");
       ("imageTemplate", str "https://img/chase/{width}x{height}");
       ("encodedProgrammeId", obj [("letterA", str "1a7842")]);
       ("encodedEpisodeId", obj [("letterA", str "")])].

Definition paid_programme : json :=
  obj [("title", str "Vera");
       ("contentInfo", str "1h 30m");
       ("tier", JList [str "PAID"]);
       ("description", str "Crime drama");
       ("imageTemplate", str "https://img/vera/{width}x{height}");
       ("encodedProgrammeId", obj [("letterA", str "2a4760")]);
       ("encodedEpisodeId", obj [("letterA", str "")])].

Definition drama_page : json :=
  obj [("category", obj [("pathSegment", str "drama-soaps")]);
       ("programmes", JList [free_programme; paid_programme])].

Definition series_page : json :=
  obj [("title",
        obj [("brand",
              obj [("title", str "Marple");
                   ("synopses", obj [("ninety", str "Miss Marple investigates")]);
                   ("series",
                    JList [obj [("title", str "Series 1");
                                ("seriesNumber", JInt 1);
                                ("seriesAvailableEpisodeCount", JInt 2);
                                ("episodes", JList [str "ep1"; str "ep2"])]])])])].

Definition programme_result : json :=
  obj [("entityType", str "programme");
       ("data", obj [("programmeTitle", str "The Chase");
                     ("latestAvailableEpisode",
                      obj [("imageHref", str "https://img/chase/{width}")]);
                     ("synopsis", str "Quiz show");
                     ("totalAvailableEpisodes", JInt 12);
                     ("legacyId", obj [("apiEncoded", str "1_7842")])])].

Definition special_result : json :=
  obj [("entityType", str "special");
       ("data", obj [("specialTitle", str "Chasing Gold");
                     ("imageHref", str "https://img/gold/{width}");
                     ("synopsis", str "Documentary");
                     ("productionId", str "10/1234/0001#001")])].

Definition video_result : json :=
  obj [("entityType", str "video"); ("data", obj [])].

(** A result of an unknown entity type that has no [data] entry. *)
Definition bare_video_result : json :=
  obj [("entityType", str "video")].

Definition results_of (l : list json) : json := obj [("results", JList l)].

Definition search_results : json :=
  results_of [programme_result; video_result; special_result].

Definition slot_of (title detail start : string) : json :=
  obj [("displayTitle", str title);
       ("detailedDisplayTitle", str detail);
       ("start", str start)].

Definition now_next_data : json :=
  obj [("images", obj [("backdrop", str "https://img/backdrop.jpg")]);
       ("channels",
        JList [obj [("id", str "ITV");
                    ("channelType", str "simulcast");
                    ("slots", obj [("now", slot_of "News" "" "2022-11-01T18:00:00Z");
                                   ("next", slot_of "Emmerdale" "" "2022-11-01T19:00:00Z")])];
               obj [("id", str "fast1");
                    ("channelType", str "fast");
                    ("slots", obj [("now", slot_of "Vera" "Series 2" "2022-11-01T18:30:00Z");
                                   ("next", slot_of "Vera" "" "2022-11-01T20:00:00Z")])]])].

Definition live_schedule : json :=
  JList [obj [("channel", obj [("name", str "ITV")]);
              ("slot", JList [obj [("programmeTitle", str "News");
                                   ("orig_start", str "2022-11-01T18:00:00Z")]])]].

Definition lib : Lib := {|
  scrape_json := fun doc =>
    if String.eqb doc "categories" then ok categories_page
    else if String.eqb doc "drama" then ok drama_page
    else if String.eqb doc "marple" then ok series_page
    else throw ValueError;
  parse_hero_content := fun hero => ok hero;
  parse_title := fun episode _ => ok (obj [("label", episode)]);
  build_url := fun title prog_id _ => ok prog_id;
  duration_2_seconds := fun _ => ok (JInt 5400);
  IMG_PROPS_THUMB := [("width", JInt 960); ("height", JInt 540)];
  IMG_PROPS_FANART := [("width", JInt 1280); ("height", JInt 720)];
  IMG_PROPS_POSTER := [("width", JInt 1000); ("height", JInt 1500)];
  str_format := fun t => format_with (S (String.length t)) t;
  strptime := iso_seconds
|}.

(** A site that serves three pages, a search endpoint that always answers
    [search_results], and a host on UTC+1. *)
Definition world : World := {|
  get_document := fun url =>
    if String.eqb url "https://www.itv.com/watch/categories" then ok "categories"
    else if String.eqb url "https://www.itv.com/watch/categories/drama-soaps" then ok "drama"
    else if String.eqb url "https://www.itv.com/watch/marple" then ok "marple"
    else throw (OtherError "HttpError");
  get_json := fun url _ =>
    if String.eqb url search_url then ok search_results
    else if String.eqb url "https://nownext.oasvc.itv.com/channels" then ok now_next_data
    else throw (OtherError "HttpError");
  get_live_schedule := ok live_schedule;
  get_localzone := fun _ => 3600%Z;
  clock := 0
|}.

(** A site that is down. *)
Definition offline : World := {|
  get_document := fun _ => throw (OtherError "FetchError");
  get_json := fun _ _ => throw (OtherError "FetchError");
  get_live_schedule := throw (OtherError "FetchError");
  get_localzone := fun _ => 0%Z;
  clock := 0
|}.

(** A host whose JSON endpoints answer [data] whatever is asked, whose
    live schedule is [schedule], and whose pages cannot be fetched. *)
Definition answering (data schedule : json) : World := {|
  get_document := fun _ => throw (OtherError "HttpError");
  get_json := fun _ _ => ok data;
  get_live_schedule := ok schedule;
  get_localzone := fun _ => 0%Z;
  clock := 0
|}.

(** The now/next endpoint answers, the live schedule cannot be fetched. *)
Definition no_schedule : World := {|
  get_document := fun _ => throw (OtherError "HttpError");
  get_json := fun _ _ => ok now_next_data;
  get_live_schedule := throw (OtherError "HttpError");
  get_localzone := fun _ => 0%Z;
  clock := 0
|}.

(** A simulcast channel, as fetched, that carries a [slot] entry of its
    own and is not in [live_schedule]. *)
Definition own_slot_channel : json :=
  obj [("id", str "ITV9");
       ("channelType", str "simulcast");
       ("slot", JList [obj [("programmeTitle", str "Kept")]]);
       ("slots", obj [("now", slot_of "News" "" "2022-11-01T18:00:00Z");
                      ("next", slot_of "Emmerdale" "" "2022-11-01T19:00:00Z")])].

Definition own_slot_data : json :=
  obj [("images", obj [("backdrop", str "https://img/backdrop.jpg")]);
       ("channels", JList [own_slot_channel])].

Definition own_slot_world : World := answering own_slot_data live_schedule.

(** The channels [get_live_channels] returns in [world], and the state it
    leaves. *)
Definition live_outputs : list json :=
  match fst (get_live_channels lib world initial) with
  | inr (JList l) => l
  | _ => []
  end.

Definition live_state : State := snd (get_live_channels lib world initial).

(** The search endpoint answers with the three results, or with the two
    of them whose entity type the module lists. *)
Definition three_results : World := answering search_results JNull.

Definition two_results : World :=
  answering (results_of [programme_result; special_result]) JNull.

(** The search endpoint answers with a result of an unknown type that has
    no [data] entry, followed by a programme. *)
Definition bare_then_programme : World :=
  answering (results_of [bare_video_result; programme_result]) JNull.

Definition programme_alone : World :=
  answering (results_of [programme_result]) JNull.

(** The search endpoint answers with [None]. *)
Definition no_data : World := answering JNull JNull.

Definition drama_url : string := "/watch/categories/drama-soaps".

(** What [category_content] yields first for the drama page. *)
Definition first_drama_item : json :=
  hd JNull (yields (category_content lib world drama_url true) initial).

(** What [search] yields first for the search response. *)
Definition first_search_item : json :=
  hd JNull (yields (search lib world "chase") initial).

(** What [categories] yields first. *)
Definition first_category : json :=
  hd JNull (yields (categories lib world) initial).

(** An episode page, as far as the playlist link goes. *)
Definition episode_page : string :=
  "<div id=" ++ String dquote ("video" ++ String dquote
  (" data-video-id=" ++ String dquote
  ("https://magni.itv.com/playlist/itvonline/ITV/10_1234_0001.001"
   ++ String dquote (" data-video-title=" ++ String dquote
  ("Chasing Gold" ++ String dquote ">"))))).

Definition episode_site : World := {|
  get_document := fun _ => ok episode_page;
  get_json := fun _ _ => throw (OtherError "HttpError");
  get_live_schedule := throw (OtherError "HttpError");
  get_localzone := fun _ => 0%Z;
  clock := 0
|}.

(** A main page with two entries, a scraper that finds it in any document
    and a parser that keeps the title of an entry. *)
Definition main_page : json :=
  obj [("heroContent",
        JList [obj [("title", str "Vera")]; obj [("title", str "Marple")]])].

Definition home_lib : Lib := {|
  scrape_json := fun _ => ok main_page;
  parse_hero_content := fun hero =>
    match subscript hero "title" with
    | inr title => ok (obj [("label", title)])
    | inl e => inl e
    end;
  parse_title := parse_title lib;
  build_url := build_url lib;
  duration_2_seconds := duration_2_seconds lib;
  IMG_PROPS_THUMB := IMG_PROPS_THUMB lib;
  IMG_PROPS_FANART := IMG_PROPS_FANART lib;
  IMG_PROPS_POSTER := IMG_PROPS_POSTER lib;
  str_format := str_format lib;
  strptime := strptime lib
|}.

(** What [search] yields for the special among the search results. *)
Definition special_item : json :=
  nth 1 (yields (search lib world "chase") initial) JNull.

(** What [episodes] returns for the series page, and the state it leaves. *)
Definition marple_listing : json :=
  match fst (episodes lib world "/watch/marple" initial) with
  | inr v => v
  | inl _ => JNull
  end.

Definition marple_state : State :=
  snd (episodes lib world "/watch/marple" initial).

(** The page of a brand of which no series is left, and a scraper that
    finds it in any document. *)
Definition ended_brand : json :=
  obj [("title", str "Bad Girls");
       ("synopses", obj []);
       ("series", JNull)].

Definition ended_page : json :=
  obj [("title", obj [("brand", ended_brand)])].

Definition ended_lib : Lib := {|
  scrape_json := fun _ => ok ended_page;
  parse_hero_content := parse_hero_content lib;
  parse_title := parse_title lib;
  build_url := build_url lib;
  duration_2_seconds := duration_2_seconds lib;
  IMG_PROPS_THUMB := IMG_PROPS_THUMB lib;
  IMG_PROPS_FANART := IMG_PROPS_FANART lib;
  IMG_PROPS_POSTER := IMG_PROPS_POSTER lib;
  str_format := str_format lib;
  strptime := strptime lib
|}.

(** Now/next data of a single channel that is not simulcast. *)
Definition fast_data : json :=
  obj [("images", obj [("backdrop", str "https://img/backdrop.jpg")]);
       ("channels",
        JList [obj [("id", str "ITV");
                    ("channelType", str "fast");
                    ("slots", obj [("now", slot_of "Vera" "Series 2" "2022-11-01T18:30:00Z");
                                   ("next", slot_of "Vera" "" "2022-11-01T20:00:00Z")])]])].

Definition fast_world : World := answering fast_data live_schedule.

(** A scraper that finds in any document the page of a category without
    a list of programmes. *)
Definition bare_lib : Lib := {|
  scrape_json := fun _ =>
    ok (obj [("category", obj [("pathSegment", str "news")])]);
  parse_hero_content := parse_hero_content lib;
  parse_title := parse_title lib;
  build_url := build_url lib;
  duration_2_seconds := duration_2_seconds lib;
  IMG_PROPS_THUMB := IMG_PROPS_THUMB lib;
  IMG_PROPS_FANART := IMG_PROPS_FANART lib;
  IMG_PROPS_POSTER := IMG_PROPS_POSTER lib;
  str_format := str_format lib;
  strptime := strptime lib
|}.

(** A simulcast channel that the live schedule does not list, and an
    answer of [n] such channels with a live schedule of [n] entries of
    another channel. *)
Definition unlisted_channel : json :=
  obj [("id", str "ITV2");
       ("channelType", str "simulcast");
       ("slots", obj [("now", slot_of "News" "" "2022-11-01T18:00:00Z");
                      ("next", slot_of "Emmerdale" "" "2022-11-01T19:00:00Z")])].

Definition crowded_data (n : nat) : json :=
  obj [("images", obj [("backdrop", str "https://img/backdrop.jpg")]);
       ("channels", JList (repeat unlisted_channel n))].

Definition other_entry : json :=
  obj [("channel", obj [("name", str "ITV")]);
       ("slot", JList [obj [("programmeTitle", str "News")]])].

Definition crowded_schedule (n : nat) : json :=
  JList (repeat other_entry n).

Definition crowded (n : nat) : World :=
  answering (crowded_data n) (crowded_schedule n).

(** Two calls for the same page, one second apart. *)
Definition first_call : State :=
  snd (get_page_data lib (at_time world 0) "/watch/categories" initial).

Definition second_call : State :=
  snd (get_page_data lib (at_time world 1) "/watch/categories" first_call).

End Demo.


(* ===================================================================== *)
(** * Vocabulary of the specification                                     *)
(* ===================================================================== *)

Module Spec.

(** The listitem schema of the host framework: a dictionary with the keys
    [label], [art], [info] and [params]. *)
Definition listitem (v : json) : bool :=
  has_key "label" v && has_key "art" v && has_key "info" v && has_key "params" v.

(** The URL [get_page_data] asks the fetch layer for. *)
Definition page_url (url : string) : string :=
  if startswith "https://" url then url else "https://www.itv.com" ++ url.

(** The parameters of the now/next request (lines 47-50). *)
Definition live_params (g : Globals) : list (string * string) :=
  [("broadcaster", "itv");
   ("featureSet", FEATURE_SET g);
   ("platformTag", PLATFORM_TAG g)].

Definition live_url : string := "https://nownext.oasvc.itv.com/channels".

(** A run that ended with exception [e] after issuing the requests [qs]
    and no other. *)
Definition raised {A} (run : result A * State) (s : State) (e : exn)
    (qs : list request) : Prop :=
  fst run = inl e /\ requests (snd run) = (requests s ++ qs)%list.

(** A drained generator that yielded nothing and ended with exception [e]
    after issuing the requests [qs] and no other. *)
Definition gen_raised (run : (list json * option exn) * State) (s : State)
    (e : exn) (qs : list request) : Prop :=
  fst run = ([], Some e) /\ requests (snd run) = (requests s ++ qs)%list.

(** A statement sequence that leaves the module-level variables as they
    were. *)
Definition keeps_globals {A} (m : M A) : Prop :=
  forall s, globals (snd (m s)) = globals s.

Definition gen_keeps_globals (g : Gen) : Prop :=
  forall s, globals (snd (g s)) = globals s.

(** The module-level variables other than [cached_programs] have the same
    values in [s'] as in [s]. *)
Definition same_but_cache (s s' : State) : Prop :=
  FEATURE_SET (globals s') = FEATURE_SET (globals s) /\
  PLATFORM_TAG (globals s') = PLATFORM_TAG (globals s) /\
  CACHE_TIME (globals s') = CACHE_TIME (globals s).

(** A statement sequence that runs at most [n] loop iterations. *)
Definition costs {A} (m : M A) (n : nat) : Prop :=
  forall s, steps (snd (m s)) <= steps s + n.

Definition gen_costs (g : Gen) (n : nat) : Prop :=
  forall s, steps (snd (g s)) <= steps s + n.

(** The size of a fetched value: its nodes, and the characters of its
    strings and keys. *)
Fixpoint size (v : json) : nat :=
  match v with
  | JNull | JBool _ | JInt _ | JFloat _ => 1
  | JStr s => S (String.length s)
  | JList l =>
      S ((fix total (l : list json) : nat :=
            match l with
            | [] => 0
            | x :: r => size x + total r
            end) l)
  | JDict d =>
      S ((fix total (d : dict) : nat :=
            match d with
            | [] => 0
            | (k, x) :: r => S (String.length k) + size x + total r
            end) d)
  end.

(** How many elements [for x in v] visits. *)
Definition iter_len (v : json) : nat :=
  match py_iter v with
  | inr l => List.length l
  | inl _ => 0
  end.

(** The loop iterations one series takes: itself and its episodes. *)
Definition series_cost (series : json) : nat :=
  S (match subscript series "episodes" with
     | inr eps => iter_len eps
     | inl _ => 0
     end).

(** The size of what a fetch or a page scrape answered; nothing when it
    raised. *)
Definition answer_size (r : result json) : nat :=
  match r with
  | inr v => size v
  | inl _ => 0
  end.

(** The page [get_page_data] gives for a URL. *)
Definition page (L : Lib) (W : World) (url : string) : result json :=
  match get_document W (page_url url) with
  | inr doc => scrape_json L doc
  | inl e => inl e
  end.

(** Two environments that answer every request alike and share the time
    zone; their clocks may differ. *)
Definition same_answers (W1 W2 : World) : Prop :=
  (forall url, get_document W1 url = get_document W2 url) /\
  (forall url params, get_json W1 url params = get_json W2 url params) /\
  get_live_schedule W1 = get_live_schedule W2 /\
  get_localzone W1 = get_localzone W2.

(** [main_chan] is the entry of the main live schedule for [chan_id]
    (line 67). *)
Definition matches (chan_id main_chan : json) : bool :=
  match subscript main_chan "channel" with
  | inr c => match subscript c "name" with
             | inr name => py_eq name chan_id
             | inl _ => false
             end
  | inl _ => false
  end.

Definition is_simulcast (channel : json) : bool :=
  match subscript channel "channelType" with
  | inr t => py_eq t (JStr "simulcast")
  | inl _ => false
  end.

(** No entry of the main live schedule is the one of this channel. *)
Definition unmatched (main_schedule channel : json) : bool :=
  match subscript channel "id", py_iter main_schedule with
  | inr chan_id, inr entries => negb (existsb (matches chan_id) entries)
  | _, _ => false
  end.

(** The fetched channel has a [slot] entry that counts as true. *)
Definition own_slot (channel : json) : bool :=
  match dict_get channel "slot" JNull with
  | inr v => truthy v
  | inl _ => false
  end.

(** A slot list of exactly two programme entries, each with [orig_start]
    equal to [None]. *)
Definition two_entries (channel : json) : Prop :=
  exists p1 p2,
    subscript channel "slot" = ok (JList [p1; p2]) /\
    subscript p1 "orig_start" = ok JNull /\
    subscript p2 "orig_start" = ok JNull.

(** The entity type of a search result is one the module lists. *)
Definition known_type (t : json) : bool :=
  py_eq t (JStr "programme") || py_eq t (JStr "special").

(** The tier of a programme contains [FREE]. *)
Definition free_tier (prog : json) : bool :=
  match subscript prog "tier" with
  | inr tier => match py_in "FREE" tier with
                | inr b => b
                | inl _ => false
                end
  | inl _ => false
  end.

(** [item['show']['info']['plot']] of an item of [category_content]. *)
Definition plot_of (item : json) : result json :=
  match subscript item "show" with
  | inr show => match subscript show "info" with
                | inr info => subscript info "plot"
                | inl e => inl e
                end
  | inl e => inl e
  end.

(** [item['show']['label']] *)
Definition label_of (item : json) : result json :=
  match subscript item "show" with
  | inr show => subscript show "label"
  | inl e => inl e
  end.

(** An item of [category_content]: [playable] and, under [show], a
    listitem. *)
Definition wrapped_listitem (item : json) : Prop :=
  exists playable show,
    item = JDict [("playable", JBool playable); ("show", show)] /\
    listitem show = true.

(** An item of [categories]: a label and the path of the category. *)
Definition category_link (item : json) : Prop :=
  exists name path,
    item = JDict [("label", name); ("params", JDict [("path", path)])].

(** The item shows the programme under its title. *)
Definition item_of (prog item : json) : Prop :=
  exists title,
    subscript prog "title" = ok title /\ label_of item = ok title.

(** The plot of the item is the description of the programme. *)
Definition plain_plot (prog item : json) : Prop :=
  exists plot,
    subscript prog "description" = ok plot /\ plot_of item = ok plot.

(** The plot of the item is the description of the programme, a blank
    line and the premium marker. *)
Definition premium_plot (prog item : json) : Prop :=
  exists description,
    subscript prog "description" = ok (JStr description) /\
    plot_of item = ok (JStr (description ++ nl ++ nl ++ premium_marker)).

(** A statement sequence whose outcome does not depend on the state it
    starts from. *)
Definition stateless {A} (m : M A) : Prop :=
  forall s s', fst (m s) = fst (m s').

End Spec.
Export Spec.

(* ===================================================================== *)
(** * Vocabulary of further properties                                    *)
(* ===================================================================== *)

Module Props.

(** A statement sequence that calls the fetch layer for [qs], in that
    order, and for nothing else. *)
Definition asks {A} (m : M A) (qs : list request) : Prop :=
  forall s, requests (snd (m s)) = (requests s ++ qs)%list.

Definition gen_asks (g : Gen) (qs : list request) : Prop :=
  forall s, requests (snd (g s)) = (requests s ++ qs)%list.

(** A character does not occur in a string. *)
Fixpoint lacks (c : ascii) (s : string) : bool :=
  match s with
  | EmptyString => true
  | String a r => negb (Ascii.eqb a c) && lacks c r
  end.

(** The now/next answer lets [get_live_channels] get as far as the live
    schedule: it has a backdrop image under [images]. *)
Definition reaches_schedule (answer : result json) : bool :=
  match answer with
  | inr live_data =>
      match subscript live_data "images" with
      | inr images =>
          match subscript images "backdrop" with
          | inr _ => true
          | inl _ => false
          end
      | inl _ => false
      end
  | inl _ => false
  end.

(** The records [get_playlist_url_from_episode_page] hands to the logger
    before and after the fetch. *)
Definition playlist_info (page_url : string) : log_record :=
  (Info, "Get playlist from episode page - url=%s", [JStr page_url]).

Definition playlist_debug (page_url : string) : log_record :=
  (Debug, "successfully retrieved page %s", [JStr page_url]).

(** The items made of the elements of a list, in order, up to the first
    element of which none can be made, and the exception that one gave. *)
Fixpoint collect (f : json -> result json) (xs : list json)
    : list json * option exn :=
  match xs with
  | [] => ([], None)
  | x :: r =>
      match f x with
      | inl e => ([], Some e)
      | inr y => let (ys, e) := collect f r in (y :: ys, e)
      end
  end.

(** The item of a category (line 140). *)
Definition category_item (cat : json) : result json :=
  match subscript cat "name" with
  | inr name =>
      match subscript cat "url" with
      | inr url => ok (JDict [("label", name);
                              ("params", JDict [("path", url)])])
      | inl e => inl e
      end
  | inl e => inl e
  end.

(** The warning [search] logs for a result of an entity type it does not
    list (line 273). *)
Definition unknown_type_warning (entity_type : json) (search_term : string)
    : log_record :=
  (Warning, "Unknown search result item entityType %s on search term %s",
   [entity_type; JStr search_term]).

(** A record is the warning about some entity type. *)
Definition is_type_warning (search_term : string) (w : log_record) : Prop :=
  exists entity_type,
    known_type entity_type = false /\
    w = unknown_type_warning entity_type search_term.

(** [item['params'][k]] *)
Definition param (item : json) (k : string) : result json :=
  match subscript item "params" with
  | inr params => subscript params k
  | inl e => inl e
  end.

(** The production id in the form the playlist URL takes (line 252). *)
Definition api_prod_id (production_id : string) : string :=
  replace "#" "." (replace "/" "_" production_id).

Definition playlist_base : string :=
  "https://magni.itv.com/playlist/itvonline/ITV/".

(** [k in item['show'][part]] for an item of [category_content]. *)
Definition show_has (part : string) (item : json) (k : string) : bool :=
  match subscript item "show" with
  | inr show =>
      match subscript show part with
      | inr d => has_key k d
      | inl _ => false
      end
  | inl _ => false
  end.

(** The content info of a programme says it is a series (line 151). *)
Definition is_series (prog : json) : bool :=
  match subscript prog "contentInfo" with
  | inr content_info =>
      match lower_method content_info with
      | inr lowered => startswith "series" lowered
      | inl _ => false
      end
  | inl _ => false
  end.

(** Of the items made of the programmes of a list, one each, those of the
    programmes whose tier contains [FREE]. *)
Fixpoint free_only (progs items : list json) : list json :=
  match progs, items with
  | prog :: progs', item :: items' =>
      if free_tier prog then item :: free_only progs' items'
      else free_only progs' items'
  | _, _ => []
  end.

(** [page['title']['brand']] *)
Definition brand_of (page : json) : result json :=
  match subscript page "title" with
  | inr title => subscript title "brand"
  | inl e => inl e
  end.

(** An entry of the list [episodes] returns stands for a series: it has
    the title of the series as label, the URL [episodes] was called with
    and the number of the series as parameters, the art of the brand, and
    what [parsex.parse_title] makes of each episode of the series with the
    fanart of the brand, in order. *)
Definition series_listed (L : Lib) (url : string) (thumb fanart : json)
    (series entry : json) : Prop :=
  exists title series_idx episodes_value eps parsed,
    subscript series "title" = ok title /\
    subscript entry "label" = ok title /\
    subscript series "seriesNumber" = ok series_idx /\
    param entry "series_idx" = ok series_idx /\
    param entry "url" = ok (JStr url) /\
    subscript entry "art" = ok (JDict [("thumb", thumb); ("fanart", fanart)]) /\
    subscript series "episodes" = ok episodes_value /\
    py_iter episodes_value = ok eps /\
    subscript entry "episodes" = ok (JList parsed) /\
    Forall2 (fun episode item => parse_title L episode fanart = ok item)
      eps parsed.

(** The entry of the main live schedule that [get_live_channels] takes
    for a channel: the first one whose channel name is the channel's id
    (lines 65-69). *)
Definition scheduled_entry (main_schedule channel : json) : option json :=
  match subscript channel "id", py_iter main_schedule with
  | inr chan_id, inr entries => find (matches chan_id) entries
  | _, _ => None
  end.

(** A key of a channel that [get_live_channels] neither sets nor
    removes. *)
Definition untouched (k : string) : bool :=
  negb (String.eqb k "backdrop") && negb (String.eqb k "slots")
  && negb (String.eqb k "slot").

(** The environment [W] with another answer of [get_live_schedule]. *)
Definition with_schedule (W : World) (schedule : result json) : World := {|
  get_document := get_document W;
  get_json := get_json W;
  get_live_schedule := schedule;
  get_localzone := get_localzone W;
  clock := clock W
|}.

(** [entry] is the slot entry lines 76-90 make of the now/next programme
    [prog]: its title is the display title, and its details are the
    display title, followed by a colon, a space and the detailed title
    when that one counts as true. *)
Definition shows (prog entry : json) : Prop :=
  exists title detailed,
    subscript prog "displayTitle" = ok title /\
    subscript prog "detailedDisplayTitle" = ok detailed /\
    subscript entry "programmeTitle" = ok title /\
    subscript entry "programme_details" =
      (if truthy detailed then join2 ": " title detailed else ok title).

(** [result] is a search result of entity type ['special'] whose data,
    the ones [parse_special] reads, carry the title [label] and the
    production id [production_id]. *)
Definition special_with (result label : json) (production_id : string) : Prop :=
  exists program_data entity_type,
    subscript result "data" = ok program_data /\
    subscript result "entityType" = ok entity_type /\
    py_eq entity_type (JStr "special") = true /\
    subscript program_data "specialTitle" = ok label /\
    subscript program_data "productionId" = ok (JStr production_id).

(** The state [s] after [k] more loop iterations. *)
Definition later (k : nat) (s : State) : State :=
  {| globals := globals s; requests := requests s; records := records s;
     steps := k + steps s |}.

(** Two states of the module in which [get_live_channels] reads the same
    settings. Whatever else the states hold may differ: the cache, the
    requests made and the records logged so far, the iterations run. *)
Definition same_settings (s1 s2 : State) : Prop :=
  FEATURE_SET (globals s1) = FEATURE_SET (globals s2) /\
  PLATFORM_TAG (globals s1) = PLATFORM_TAG (globals s2).

(** Two statement sequences that end alike, with the same value or
    exception, whenever they start with the same settings, and leave the
    settings the same. *)
Definition alike {A} (m1 m2 : M A) : Prop :=
  forall s1 s2, same_settings s1 s2 ->
    fst (m1 s1) = fst (m2 s2) /\ same_settings (snd (m1 s1)) (snd (m2 s2)).

Definition gen_alike (g1 g2 : Gen) : Prop :=
  forall s1 s2, same_settings s1 s2 ->
    fst (g1 s1) = fst (g2 s2) /\ same_settings (snd (g1 s1)) (snd (g2 s2)).

(** What statements run on an object give when the object is passed on as
    a value: the object they leave if they end normally, else the
    exception. *)
Definition outcome {A} (x : (result unit * A) * State) : result A * State :=
  (match fst (fst x) with
   | inr _ => inr (snd (fst x))
   | inl e => inl e
   end, snd x).

End Props.
Export Props.

(* ===================================================================== *)
(** * Reasoning about runs                                                *)
(* ===================================================================== *)

Section Inversion.

Context {A B : Type}.

Lemma bind_ok (m : M A) (k : A -> M B) s b s' :
  bind m k s = (inr b, s') ->
  exists a s1, m s = (inr a, s1) /\ k a s1 = (inr b, s').
Proof.
  unfold bind. destruct (m s) as [[e | a] s1]; intros H.
  - discriminate H.
  - exists a, s1. split; [reflexivity | exact H].
Qed.

Lemma lift_ok (r : result A) s a s' :
  lift r s = (inr a, s') -> r = inr a /\ s' = s.
Proof. unfold lift. intros H. inversion H. split; reflexivity. Qed.

Lemma ret_ok (a a' : A) s s' :
  ret a s = (inr a', s') -> a' = a /\ s' = s.
Proof. unfold ret, ok. intros H. inversion H. split; reflexivity. Qed.

Lemma gen_bind_yields (m : M A) (k : A -> Gen) s y :
  In y (fst (fst (gen_bind m k s))) ->
  exists a s1, m s = (inr a, s1) /\ In y (fst (fst (k a s1))).
Proof.
  unfold gen_bind. destruct (m s) as [[e | a] s1]; simpl; intros H.
  - contradiction.
  - exists a, s1. split; [reflexivity | exact H].
Qed.

Lemma gen_bind_completes (m : M A) (k : A -> Gen) s :
  snd (fst (gen_bind m k s)) = None ->
  exists a s1, m s = (inr a, s1) /\ gen_bind m k s = k a s1.
Proof.
  unfold gen_bind. destruct (m s) as [[e | a] s1]; simpl; intros H.
  - discriminate H.
  - exists a, s1. split; reflexivity.
Qed.

End Inversion.

Lemma gen_for_yields (body : json -> M (option json)) (P : json -> Prop) xs :
  (forall x s y s', In x xs -> body x s = (inr (Some y), s') -> P y) ->
  forall s y, In y (yields (gen_for xs body) s) -> P y.
Proof.
  unfold yields. induction xs as [| x r IH]; intros Hb s y Hy.
  - contradiction.
  - simpl in Hy.
    destruct (body x s) as [[e | [y0 |]] s1] eqn:E.
    + contradiction.
    + destruct (gen_for r body s1) as [[ys e] s2] eqn:G. simpl in Hy.
      destruct Hy as [<- | Hy].
      * apply (Hb x s y0 s1); [left; reflexivity | exact E].
      * apply (IH (fun x0 s0 y1 s0' Hin => Hb x0 s0 y1 s0' (or_intror Hin)) s1).
        rewrite G. exact Hy.
    + apply (IH (fun x0 s0 y1 s0' Hin => Hb x0 s0 y1 s0' (or_intror Hin)) s1).
      exact Hy.
Qed.

(* ===================================================================== *)
(** * Fetching a page                                                     *)
(* ===================================================================== *)

Lemma get_page_data_run (L : Lib) (W : World) (url : string) (s : State) :
  get_page_data L W url s = (page L W url, issue (GetDocument (page_url url)) s).
Proof.
  unfold get_page_data, page, page_url, bind, fetch_get_document, lift.
  destruct (startswith "https://" url); simpl;
    destruct (get_document W _); reflexivity.
Qed.

(** C10. For every URL argument, [get_page_data] asks the fetch layer for
    ['https://www.itv.com' + url] when [url] does not start with
    ['https://'] and for [url] itself when it does, once; what it returns
    is what [parsex.scrape_json] makes of the document fetched. *)
Theorem get_page_data_url (L : Lib) (W : World) (url : string) (s : State) :
  (startswith "https://" url = false ->
   get_page_data L W url s =
     (match get_document W ("https://www.itv.com" ++ url) with
      | inr html_doc => scrape_json L html_doc
      | inl e => inl e
      end,
      issue (GetDocument ("https://www.itv.com" ++ url)) s)) /\
  (startswith "https://" url = true ->
   get_page_data L W url s =
     (match get_document W url with
      | inr html_doc => scrape_json L html_doc
      | inl e => inl e
      end,
      issue (GetDocument url) s)).
Proof.
  split; intros H; rewrite get_page_data_run; unfold page, page_url;
    rewrite H; reflexivity.
Qed.

Lemma get_page_data_url_witness :
  get_page_data Demo.lib Demo.world "/watch/categories" initial =
    (ok Demo.categories_page,
     issue (GetDocument "https://www.itv.com/watch/categories") initial) /\
  get_page_data Demo.lib Demo.world "https://www.itv.com/watch/categories" initial =
    (ok Demo.categories_page,
     issue (GetDocument "https://www.itv.com/watch/categories") initial).
Proof.
  split.
  - exact (proj1 (get_page_data_url Demo.lib Demo.world "/watch/categories" initial)
             eq_refl).
  - exact (proj2 (get_page_data_url Demo.lib Demo.world
                    "https://www.itv.com/watch/categories" initial) eq_refl).
Defined.

(** C1, as the specification states it, fails: a second call for the same
    page one second after the first, well within [CACHE_TIME], asks the
    fetch layer again. *)
Lemma second_call_fetches_again :
  (clock (at_time Demo.world 1) - clock (at_time Demo.world 0)
     < CACHE_TIME (globals Demo.first_call))%Z /\
  requests Demo.first_call =
    [GetDocument "https://www.itv.com/watch/categories"] /\
  requests Demo.second_call =
    [GetDocument "https://www.itv.com/watch/categories";
     GetDocument "https://www.itv.com/watch/categories"] /\
  cached_programs (globals Demo.second_call) = [].
Proof. repeat split. Qed.

(** C1, amended. [get_page_data] keeps no cache: every call asks the fetch
    layer for the page, however short or long the time since an earlier
    call for the same URL, returns what that fetch gave, and leaves
    [cached_programs] as it was. *)
Theorem get_page_data_fetches_every_time (L : Lib) (W : World) (url : string)
    (s : State) (t1 t2 : Z) :
  let first := get_page_data L (at_time W t1) url s in
  let second := get_page_data L (at_time W t2) url (snd first) in
  requests (snd second) =
    (requests s ++ [GetDocument (page_url url); GetDocument (page_url url)])%list /\
  fst second = page L W url /\
  cached_programs (globals (snd second)) = cached_programs (globals s).
Proof.
  cbv zeta. rewrite !get_page_data_run. simpl.
  rewrite <- app_assoc. repeat split.
Qed.

(* ===================================================================== *)
(** * Fetch failures                                                      *)
(* ===================================================================== *)

Section FetchFailure.

Variable L : Lib.
Variable W : World.
Variable s : State.
Variable e : exn.

Lemma page_failure (url : string) :
  get_document W (page_url url) = inl e -> page L W url = inl e.
Proof. unfold page. intros ->. reflexivity. Qed.

Lemma get_page_data_failure (url : string) :
  get_document W (page_url url) = inl e ->
  raised (get_page_data L W url s) s e [GetDocument (page_url url)].
Proof.
  intros H. rewrite get_page_data_run, (page_failure url H).
  split; reflexivity.
Qed.

Lemma episodes_failure (url : string) :
  get_document W (page_url url) = inl e ->
  raised (episodes L W url s) s e [GetDocument (page_url url)].
Proof.
  intros H. unfold episodes, bind.
  rewrite get_page_data_run, (page_failure url H). split; reflexivity.
Qed.

Lemma main_page_items_failure :
  get_document W "https://www.itv.com" = inl e ->
  gen_raised (main_page_items L W s) s e [GetDocument "https://www.itv.com"].
Proof.
  intros H. unfold main_page_items, gen_bind.
  rewrite get_page_data_run, (page_failure "https://www.itv.com" H).
  split; reflexivity.
Qed.

Lemma categories_failure :
  get_document W "https://www.itv.com/watch/categories" = inl e ->
  gen_raised (categories L W s) s e
    [GetDocument "https://www.itv.com/watch/categories"].
Proof.
  intros H. unfold categories, gen_bind.
  rewrite get_page_data_run,
    (page_failure "https://www.itv.com/watch/categories" H).
  split; reflexivity.
Qed.

Lemma category_content_failure (url : string) (hide_payed : bool) :
  get_document W (page_url url) = inl e ->
  gen_raised (category_content L W url hide_payed s) s e
    [GetDocument (page_url url)].
Proof.
  intros H. unfold category_content, gen_bind.
  rewrite get_page_data_run, (page_failure url H). split; reflexivity.
Qed.

Lemma search_failure (search_term : string) :
  get_json W search_url (query_params search_term) = inl e ->
  gen_raised (search L W search_term s) s e
    [GetJson search_url (query_params search_term)].
Proof.
  intros H. unfold search, gen_bind, fetch_get_json. rewrite H.
  split; reflexivity.
Qed.

Lemma playlist_failure (url : string) :
  get_document W url = inl e ->
  raised (get_playlist_url_from_episode_page W url s) s e [GetDocument url].
Proof.
  intros H. unfold get_playlist_url_from_episode_page, bind, logger,
    fetch_get_document. simpl. rewrite H. split; reflexivity.
Qed.

Lemma live_channels_failure :
  get_json W live_url (live_params (globals s)) = inl e ->
  raised (get_live_channels L W s) s e
    [GetJson live_url (live_params (globals s))].
Proof.
  intros H. unfold get_live_channels, bind, read, fetch_get_json. simpl.
  unfold live_url, live_params in H. rewrite H. split; reflexivity.
Qed.

Lemma live_schedule_failure (live_data images fanart_url : json) :
  get_json W live_url (live_params (globals s)) = inr live_data ->
  subscript live_data "images" = inr images ->
  subscript images "backdrop" = inr fanart_url ->
  get_live_schedule W = inl e ->
  raised (get_live_channels L W s) s e
    [GetJson live_url (live_params (globals s)); GetLiveSchedule].
Proof.
  intros H Hi Hb Hs.
  unfold get_live_channels, bind, read, fetch_get_json, lift,
    itv_get_live_schedule. simpl.
  unfold live_url, live_params in H. rewrite H, Hi, Hb, Hs.
  split; simpl; [reflexivity | rewrite <- app_assoc; reflexivity].
Qed.

End FetchFailure.

(** C3. When the fetch an operation relies on raises, the operation ends
    with that very exception, having called the fetch layer once for that
    request and not again; a generator has then yielded nothing. This
    holds for [get_page_data], [get_live_channels] (for the now/next
    request and for the live schedule), [episodes], [categories],
    [category_content], [search] and
    [get_playlist_url_from_episode_page], and for [main_page_items] as
    well. *)
Theorem fetch_failure_propagates (L : Lib) (W : World) (s : State) (e : exn) :
  (forall url,
     get_document W (page_url url) = inl e ->
     raised (get_page_data L W url s) s e [GetDocument (page_url url)]) /\
  (get_json W live_url (live_params (globals s)) = inl e ->
   raised (get_live_channels L W s) s e
     [GetJson live_url (live_params (globals s))]) /\
  (forall live_data images fanart_url,
     get_json W live_url (live_params (globals s)) = inr live_data ->
     subscript live_data "images" = inr images ->
     subscript images "backdrop" = inr fanart_url ->
     get_live_schedule W = inl e ->
     raised (get_live_channels L W s) s e
       [GetJson live_url (live_params (globals s)); GetLiveSchedule]) /\
  (forall url,
     get_document W (page_url url) = inl e ->
     raised (episodes L W url s) s e [GetDocument (page_url url)]) /\
  (get_document W "https://www.itv.com/watch/categories" = inl e ->
   gen_raised (categories L W s) s e
     [GetDocument "https://www.itv.com/watch/categories"]) /\
  (forall url hide_payed,
     get_document W (page_url url) = inl e ->
     gen_raised (category_content L W url hide_payed s) s e
       [GetDocument (page_url url)]) /\
  (forall search_term,
     get_json W search_url (query_params search_term) = inl e ->
     gen_raised (search L W search_term s) s e
       [GetJson search_url (query_params search_term)]) /\
  (forall url,
     get_document W url = inl e ->
     raised (get_playlist_url_from_episode_page W url s) s e
       [GetDocument url]) /\
  (get_document W "https://www.itv.com" = inl e ->
   gen_raised (main_page_items L W s) s e [GetDocument "https://www.itv.com"]).
Proof.
  repeat match goal with |- _ /\ _ => split end; intros.
  - apply get_page_data_failure; assumption.
  - apply live_channels_failure; assumption.
  - apply (live_schedule_failure L W s e live_data images fanart_url); assumption.
  - apply episodes_failure; assumption.
  - apply categories_failure; assumption.
  - apply category_content_failure; assumption.
  - apply search_failure; assumption.
  - apply playlist_failure; assumption.
  - apply main_page_items_failure; assumption.
Qed.

Lemma fetch_failure_propagates_witness :
  raised (get_page_data Demo.lib Demo.offline "/watch" initial) initial
    (OtherError "FetchError") [GetDocument "https://www.itv.com/watch"] /\
  raised (get_live_channels Demo.lib Demo.offline initial) initial
    (OtherError "FetchError")
    [GetJson live_url (live_params module_globals)] /\
  raised (get_live_channels Demo.lib Demo.no_schedule initial) initial
    (OtherError "HttpError")
    [GetJson live_url (live_params module_globals); GetLiveSchedule] /\
  raised (episodes Demo.lib Demo.offline "/watch/marple" initial) initial
    (OtherError "FetchError") [GetDocument "https://www.itv.com/watch/marple"] /\
  gen_raised (categories Demo.lib Demo.offline initial) initial
    (OtherError "FetchError")
    [GetDocument "https://www.itv.com/watch/categories"] /\
  gen_raised (category_content Demo.lib Demo.offline "/watch/categories/films"
                true initial) initial
    (OtherError "FetchError")
    [GetDocument "https://www.itv.com/watch/categories/films"] /\
  gen_raised (search Demo.lib Demo.offline "chase" initial) initial
    (OtherError "FetchError") [GetJson search_url (query_params "chase")] /\
  raised (get_playlist_url_from_episode_page Demo.offline
            "https://www.itv.com/watch/marple/1a2803" initial) initial
    (OtherError "FetchError")
    [GetDocument "https://www.itv.com/watch/marple/1a2803"] /\
  gen_raised (main_page_items Demo.lib Demo.offline initial) initial
    (OtherError "FetchError") [GetDocument "https://www.itv.com"].
Proof.
  destruct (fetch_failure_propagates Demo.lib Demo.offline initial
              (OtherError "FetchError"))
    as (H1 & H2 & _ & H4 & H5 & H6 & H7 & H8 & H9).
  destruct (fetch_failure_propagates Demo.lib Demo.no_schedule initial
              (OtherError "HttpError"))
    as (_ & _ & H3 & _).
  repeat match goal with |- _ /\ _ => split end.
  - exact (H1 "/watch" eq_refl).
  - exact (H2 eq_refl).
  - exact (H3 Demo.now_next_data
             (Demo.obj [("backdrop", Demo.str "https://img/backdrop.jpg")])
             (Demo.str "https://img/backdrop.jpg")
             eq_refl eq_refl eq_refl eq_refl).
  - exact (H4 "/watch/marple" eq_refl).
  - exact (H5 eq_refl).
  - exact (H6 "/watch/categories/films" true eq_refl).
  - exact (H7 "chase" eq_refl).
  - exact (H8 "https://www.itv.com/watch/marple/1a2803" eq_refl).
  - exact (H9 eq_refl).
Defined.

(* ===================================================================== *)
(** * Module-level state                                                  *)
(* ===================================================================== *)

Section Frame.

Lemma keeps_ret {A} (a : A) : keeps_globals (ret a).
Proof. intros s. reflexivity. Qed.

Lemma keeps_lift {A} (r : result A) : keeps_globals (lift r).
Proof. intros s. reflexivity. Qed.

Lemma keeps_read {A} (f : Globals -> A) : keeps_globals (read f).
Proof. intros s. reflexivity. Qed.

Lemma keeps_tick : keeps_globals tick.
Proof. intros s. reflexivity. Qed.

Lemma keeps_logger lv msg args : keeps_globals (logger lv msg args).
Proof. intros s. reflexivity. Qed.

Lemma keeps_get_document W url : keeps_globals (fetch_get_document W url).
Proof. intros s. reflexivity. Qed.

Lemma keeps_get_json W url params : keeps_globals (fetch_get_json W url params).
Proof. intros s. reflexivity. Qed.

Lemma keeps_live_schedule W : keeps_globals (itv_get_live_schedule W).
Proof. intros s. reflexivity. Qed.

Lemma keeps_bind {A B} (m : M A) (k : A -> M B) :
  keeps_globals m -> (forall a, keeps_globals (k a)) -> keeps_globals (bind m k).
Proof.
  intros Hm Hk s. unfold bind. specialize (Hm s).
  destruct (m s) as [[e | a] s1]; simpl in *.
  - exact Hm.
  - rewrite Hk. exact Hm.
Qed.

Lemma keeps_for_each (body : json -> M json) xs :
  (forall x, keeps_globals (body x)) -> keeps_globals (for_each xs body).
Proof.
  intros Hb. induction xs as [| x r IH]; intros s.
  - reflexivity.
  - simpl. specialize (Hb x s).
    destruct (body x s) as [[e | y] s1]; simpl in *.
    + exact Hb.
    + specialize (IH s1).
      destruct (for_each r body s1) as [[e | ys] s2]; simpl in *;
        rewrite IH; exact Hb.
Qed.

Lemma gen_keeps_bind {A} (m : M A) (k : A -> Gen) :
  keeps_globals m -> (forall a, gen_keeps_globals (k a)) ->
  gen_keeps_globals (gen_bind m k).
Proof.
  intros Hm Hk s. unfold gen_bind. specialize (Hm s).
  destruct (m s) as [[e | a] s1]; simpl in *.
  - exact Hm.
  - rewrite Hk. exact Hm.
Qed.

Lemma gen_keeps_for (body : json -> M (option json)) xs :
  (forall x, keeps_globals (body x)) -> gen_keeps_globals (gen_for xs body).
Proof.
  intros Hb. induction xs as [| x r IH]; intros s.
  - reflexivity.
  - simpl. specialize (Hb x s).
    destruct (body x s) as [[e | [y |]] s1]; simpl in *.
    + exact Hb.
    + specialize (IH s1).
      destruct (gen_for r body s1) as [[ys e] s2]; simpl in *.
      rewrite IH. exact Hb.
    + rewrite IH. exact Hb.
Qed.

Lemma gen_keeps_done : gen_keeps_globals gen_done.
Proof. intros s. reflexivity. Qed.

End Frame.

(** Goes through a statement sequence, one statement at a time. *)
Ltac keeps :=
  repeat first
    [ apply keeps_ret | apply keeps_lift | apply keeps_read | apply keeps_tick
    | apply keeps_logger | apply keeps_get_document | apply keeps_get_json
    | apply keeps_live_schedule
    | apply keeps_bind; [ | intros ? ]
    | apply keeps_for_each; intros ?
    | apply gen_keeps_bind; [ | intros ? ]
    | apply gen_keeps_for; intros ?
    | apply gen_keeps_done
    | match goal with
      | |- keeps_globals (if ?b then _ else _) => destruct b
      | |- keeps_globals (match ?x with (_, _) => _ end) => destruct x
      | |- keeps_globals (match ?x with Some _ => _ | None => _ end) => destruct x
      | |- gen_keeps_globals (match ?x with JNull => _ | _ => _ end) => destruct x
      end
    | progress cbv zeta ].

Section FrameOfFunctions.

Variable L : Lib.
Variable W : World.

Lemma get_page_data_keeps url : keeps_globals (get_page_data L W url).
Proof. unfold get_page_data. keeps. Qed.

Lemma find_main_keeps main_schedule chan_id channel :
  keeps_globals (find_main main_schedule chan_id channel).
Proof.
  induction main_schedule as [| main_chan rest IH]; simpl.
  - keeps.
  - keeps. exact IH.
Qed.

Lemma get_live_channels_keeps : keeps_globals (get_live_channels L W).
Proof.
  unfold get_live_channels, channel_entry, now_next, programme_entry.
  keeps; apply find_main_keeps.
Qed.

Lemma main_page_items_keeps : gen_keeps_globals (main_page_items L W).
Proof.
  unfold main_page_items. keeps.
Qed.

Lemma episodes_keeps url : keeps_globals (episodes L W url).
Proof.
  unfold episodes, series_entry. keeps.
Qed.

Lemma categories_keeps : gen_keeps_globals (categories L W).
Proof. unfold categories. keeps. Qed.

Lemma category_content_keeps url hide_payed :
  gen_keeps_globals (category_content L W url hide_payed).
Proof.
  unfold category_content, category_entry, programme_item. keeps.
Qed.

Lemma playlist_keeps url :
  keeps_globals (get_playlist_url_from_episode_page W url).
Proof. unfold get_playlist_url_from_episode_page. keeps. Qed.

Lemma search_keeps search_term : gen_keeps_globals (search L W search_term).
Proof.
  unfold search, search_entry, parse_programme, parse_special. keeps.
Qed.

End FrameOfFunctions.

Lemma same_globals_but_cache (s s' : State) :
  globals s' = globals s -> same_but_cache s s'.
Proof. intros H. unfold same_but_cache. rewrite H. repeat split. Qed.

(** C5. No public operation of the module changes a module-level variable
    other than [cached_programs]: after any call, [FEATURE_SET],
    [PLATFORM_TAG] and [CACHE_TIME] hold the values they held before it. *)
Theorem globals_preserved (L : Lib) (W : World) (s : State) :
  (forall url, same_but_cache s (snd (get_page_data L W url s))) /\
  same_but_cache s (snd (get_live_channels L W s)) /\
  same_but_cache s (snd (main_page_items L W s)) /\
  (forall url, same_but_cache s (snd (episodes L W url s))) /\
  same_but_cache s (snd (categories L W s)) /\
  (forall url hide_payed,
     same_but_cache s (snd (category_content L W url hide_payed s))) /\
  (forall episode_page,
     same_but_cache s
       (snd (get_playlist_url_from_episode_page W episode_page s))) /\
  (forall search_term, same_but_cache s (snd (search L W search_term s))).
Proof.
  repeat match goal with |- _ /\ _ => split end; intros;
    apply same_globals_but_cache.
  - apply get_page_data_keeps.
  - apply get_live_channels_keeps.
  - apply main_page_items_keeps.
  - apply episodes_keeps.
  - apply categories_keeps.
  - apply category_content_keeps.
  - apply playlist_keeps.
  - apply search_keeps.
Qed.

(* ===================================================================== *)
(** * Loop iterations                                                     *)
(* ===================================================================== *)

Section Size.

Lemma size_list (l : list json) : size (JList l) = S (list_sum (map size l)).
Proof.
  induction l as [| x r IH]; simpl in *.
  - reflexivity.
  - injection IH as IH. rewrite IH. reflexivity.
Qed.

Lemma size_dict (d : dict) :
  size (JDict d) =
  S (list_sum (map (fun kv => S (String.length (fst kv) + size (snd kv))) d)).
Proof.
  induction d as [| [k x] r IH]; simpl in *.
  - reflexivity.
  - injection IH as IH. rewrite IH. reflexivity.
Qed.

Lemma size_pos (v : json) : 1 <= size v.
Proof. destruct v; simpl; lia. Qed.

Lemma lookup_size (k : string) (d : dict) (v : json) :
  lookup k d = Some v -> size v < size (JDict d).
Proof.
  rewrite size_dict. induction d as [| [k' x] r IH]; simpl; intros H.
  - discriminate H.
  - destruct (String.eqb k k').
    + injection H as ->. lia.
    + specialize (IH H). lia.
Qed.

Lemma subscript_size (v : json) (k : string) (x : json) :
  subscript v k = inr x -> size x < size v.
Proof.
  destruct v; simpl; try discriminate.
  destruct (lookup k d) eqn:E; [| discriminate].
  intros H. injection H as <-. exact (lookup_size k d j E).
Qed.

Lemma chars_cost (c : json -> nat) (s : string) :
  (forall t, c (JStr t) <= 1) ->
  list_sum (map c (chars s)) <= String.length s.
Proof.
  intros Hc. induction s as [| a r IH]; simpl.
  - lia.
  - specialize (Hc (String a EmptyString)). lia.
Qed.

(** A loop whose pass over an element costs no more than the element's
    size, and one iteration on a string, costs less than the size of what
    it iterates over. *)
Lemma iter_cost (c : json -> nat) (v : json) (l : list json) :
  (forall x, c x <= size x) ->
  (forall t, c (JStr t) <= 1) ->
  py_iter v = inr l ->
  list_sum (map c l) < size v.
Proof.
  intros Hsize Hstr.
  destruct v; unfold py_iter, throw, ok; try discriminate; intros H;
    injection H as <-.
  - pose proof (chars_cost c s Hstr). simpl. lia.
  - rewrite size_list.
    assert (list_sum (map c l0) <= list_sum (map size l0)); [| lia].
    induction l0 as [| x r IH]; simpl; [lia |].
    specialize (Hsize x). lia.
  - rewrite size_dict. rewrite map_map.
    assert (list_sum (map (fun kv => c (JStr (fst kv))) d) <=
            list_sum (map (fun kv => S (String.length (fst kv) + size (snd kv))) d));
      [| lia].
    induction d as [| [k x] r IH]; simpl; [lia |].
    specialize (Hstr k). lia.
Qed.

Lemma sum_ones {A} (l : list A) : list_sum (map (fun _ => 1) l) = List.length l.
Proof. induction l; simpl; congruence. Qed.

Lemma iter_size (v : json) (l : list json) :
  py_iter v = inr l -> List.length l < size v.
Proof.
  intros H. rewrite <- sum_ones.
  apply (iter_cost (fun _ => 1) v l); auto using size_pos.
Qed.

Lemma iter_len_size (v : json) : iter_len v < size v.
Proof.
  unfold iter_len. destruct (py_iter v) eqn:E.
  - pose proof (size_pos v). lia.
  - exact (iter_size v l E).
Qed.

Lemma series_cost_size (series : json) : series_cost series <= size series.
Proof.
  unfold series_cost. destruct (subscript series "episodes") eqn:E.
  - pose proof (size_pos series). lia.
  - pose proof (subscript_size _ _ _ E). pose proof (iter_len_size j). lia.
Qed.

End Size.

Section Cost.

Lemma costs_weaken {A} (m : M A) (a b : nat) : costs m a -> a <= b -> costs m b.
Proof. intros H Hab s. specialize (H s). lia. Qed.

Lemma costs_ret {A} (a : A) (n : nat) : costs (ret a) n.
Proof. intros s. simpl. lia. Qed.

Lemma costs_lift {A} (r : result A) (n : nat) : costs (lift r) n.
Proof. intros s. simpl. lia. Qed.

Lemma costs_logger lv msg args (n : nat) : costs (logger lv msg args) n.
Proof. intros s. simpl. lia. Qed.

Lemma costs_tick : costs tick 1.
Proof. intros s. simpl. lia. Qed.

Lemma costs_bind {A B} (m : M A) (k : A -> M B) (a b : nat) :
  costs m a -> (forall x, costs (k x) b) -> costs (bind m k) (a + b).
Proof.
  intros Hm Hk s. unfold bind. specialize (Hm s).
  destruct (m s) as [[e | x] s1]; simpl in *.
  - lia.
  - specialize (Hk x s1). lia.
Qed.

(** A statement that runs no loop adds nothing. *)
Lemma costs_then {A B} (m : M A) (k : A -> M B) (n : nat) :
  costs m 0 -> (forall x, costs (k x) n) -> costs (bind m k) n.
Proof. intros Hm Hk. exact (costs_bind m k 0 n Hm Hk). Qed.

(** After a built-in has given [a], the rest runs knowing so. *)
Lemma costs_after {A B} (r : result A) (k : A -> M B) (n : nat) :
  (forall a, r = inr a -> costs (k a) n) -> costs (bind (lift r) k) n.
Proof.
  intros Hk s. unfold bind, lift. destruct r as [e | a]; simpl.
  - lia.
  - exact (Hk a eq_refl s).
Qed.

Lemma costs_iteration {B} (k : M B) (n : nat) :
  costs k n -> costs (bind tick (fun _ => k)) (S n).
Proof. intros Hk. exact (costs_bind tick _ 1 n costs_tick (fun _ => Hk)). Qed.

Lemma costs_for_each (body : json -> M json) (c : json -> nat) xs :
  (forall x, costs (body x) (c x)) ->
  costs (for_each xs body) (list_sum (map c xs)).
Proof.
  intros Hb. induction xs as [| x r IH]; intros s.
  - simpl. lia.
  - simpl. specialize (Hb x s).
    destruct (body x s) as [[e | y] s1]; simpl in *.
    + lia.
    + specialize (IH s1).
      destruct (for_each r body s1) as [[e | ys] s2]; simpl in *; lia.
Qed.

Lemma gen_costs_weaken (g : Gen) (a b : nat) :
  gen_costs g a -> a <= b -> gen_costs g b.
Proof. intros H Hab s. specialize (H s). lia. Qed.

Lemma gen_costs_done : gen_costs gen_done 0.
Proof. intros s. simpl. lia. Qed.

Lemma gen_costs_after {A} (r : result A) (k : A -> Gen) (n : nat) :
  (forall a, r = inr a -> gen_costs (k a) n) -> gen_costs (gen_bind (lift r) k) n.
Proof.
  intros Hk s. unfold gen_bind, lift. destruct r as [e | a]; simpl.
  - lia.
  - exact (Hk a eq_refl s).
Qed.

Lemma gen_costs_for (body : json -> M (option json)) (c : json -> nat) xs :
  (forall x, costs (body x) (c x)) ->
  gen_costs (gen_for xs body) (list_sum (map c xs)).
Proof.
  intros Hb. induction xs as [| x r IH]; intros s.
  - simpl. lia.
  - simpl. specialize (Hb x s).
    destruct (body x s) as [[e | [y |]] s1]; simpl in *.
    + lia.
    + specialize (IH s1).
      destruct (gen_for r body s1) as [[ys e] s2]; simpl in *. lia.
    + specialize (IH s1). lia.
Qed.

End Cost.

(** For statement sequences without a loop. *)
Ltac quiet :=
  repeat first
    [ apply costs_ret | apply costs_lift | apply costs_logger
    | apply costs_then; [ | intros ? ]
    | match goal with
      | |- costs (if ?b then _ else _) _ => destruct b
      | |- costs (match ?x with (_, _) => _ end) _ => destruct x
      end
    | progress cbv zeta ].

Section CostOfFunctions.

Variable L : Lib.
Variable W : World.

Lemma sum_const {A} (n : nat) (l : list A) :
  list_sum (map (fun _ => n) l) = List.length l * n.
Proof. induction l; simpl; lia. Qed.

Lemma dict_get_iter_size (v : json) (k : string) (x : json) (l : list json) :
  dict_get v k JNull = inr x -> py_iter x = inr l -> List.length l < size v.
Proof.
  destruct v; unfold dict_get, throw, ok; try discriminate.
  destruct (lookup k d) eqn:E; intros H Hi; injection H as <-.
  - pose proof (lookup_size k d j E). pose proof (iter_size j l Hi). lia.
  - discriminate Hi.
Qed.

Lemma programme_entry_costs tz prog : costs (programme_entry L tz prog) 1.
Proof. unfold programme_entry. apply costs_iteration. quiet. Qed.

Lemma now_next_costs tz channel slots (n : nat) :
  costs (now_next L tz channel slots) (2 + n).
Proof.
  unfold now_next.
  apply costs_then; [quiet | intros now].
  apply costs_then; [quiet | intros next].
  apply costs_bind; [| intros; quiet].
  exact (costs_for_each (programme_entry L tz) (fun _ => 1) [now; next]
           (programme_entry_costs tz)).
Qed.

Lemma find_main_costs main_schedule chan_id channel (n : nat) :
  costs (find_main main_schedule chan_id channel) (List.length main_schedule + n).
Proof.
  induction main_schedule as [| main_chan rest IH]; simpl.
  - quiet.
  - apply costs_iteration. quiet. exact IH.
Qed.

Lemma channel_entry_costs tz fanart_url main_schedule channel :
  costs (channel_entry L tz fanart_url main_schedule channel)
    (3 + iter_len main_schedule).
Proof.
  unfold channel_entry. apply costs_iteration.
  apply costs_then; [quiet | intros channel'].
  apply costs_then; [quiet | intros [slots channel'']].
  apply costs_then; [quiet | intros ctype].
  destruct (py_eq ctype (JStr "simulcast")).
  - apply costs_then; [quiet | intros chan_id].
    apply costs_after. intros main_chans E.
    unfold iter_len. rewrite E.
    apply (costs_weaken _ (List.length main_chans + 2)); [| lia].
    apply costs_bind; [| intros found].
    + apply (costs_weaken _ (List.length main_chans + 0)); [| lia].
      apply find_main_costs.
    + apply costs_then; [quiet | intros slot].
      destruct (truthy slot); [quiet |].
      apply (now_next_costs tz found slots 0).
  - apply (costs_weaken _ (2 + 0)); [| lia]. apply now_next_costs.
Qed.

Lemma get_live_channels_costs (s : State) :
  steps (snd (get_live_channels L W s)) <=
  steps s +
  answer_size (get_json W live_url (live_params (globals s))) *
    (answer_size (get_live_schedule W) + 3).
Proof.
  unfold get_live_channels, bind, read, fetch_get_json, itv_get_live_schedule,
    lift, live_url, live_params. simpl.
  destruct (get_json W _ _) as [e | live_data]; simpl; [lia |].
  destruct (subscript live_data "images") as [e | images]; simpl; [lia |].
  destruct (subscript images "backdrop") as [e | fanart_url]; simpl; [lia |].
  destruct (get_live_schedule W) as [e | main_schedule]; simpl; [lia |].
  destruct (subscript live_data "channels") as [e | channels] eqn:Ec; simpl;
    [lia |].
  destruct (py_iter channels) as [e | elements] eqn:Ei; simpl; [lia |].
  match goal with
  | |- context [for_each elements ?body ?s0] =>
      pose proof (costs_for_each body (fun _ => 3 + iter_len main_schedule)
                    elements
                    (channel_entry_costs (get_localzone W) fanart_url
                       main_schedule) s0) as H;
      destruct (for_each elements body s0) as [[e | out] s1]
  end; simpl in *; rewrite sum_const in H;
    pose proof (subscript_size _ _ _ Ec);
    pose proof (iter_size _ _ Ei);
    pose proof (iter_len_size main_schedule);
    assert (List.length elements * (3 + iter_len main_schedule) <=
            size live_data * (size main_schedule + 3))
      by (apply Nat.mul_le_mono; lia);
    lia.
Qed.

Lemma series_entry_costs url brand_title brand_thumb brand_fanart
    brand_description series :
  costs (series_entry L url brand_title brand_thumb brand_fanart
           brand_description series)
    (series_cost series).
Proof.
  unfold series_entry, series_cost. apply costs_iteration.
  do 6 (apply costs_then; [quiet | intros ?]).
  apply costs_after. intros eps E. rewrite E.
  apply costs_after. intros eps' E'. unfold iter_len. rewrite E'.
  apply (costs_weaken _ (List.length eps' + 0)); [| lia].
  apply costs_bind; [| intros; quiet].
  rewrite <- sum_ones. apply costs_for_each. intros episode.
  apply costs_iteration. quiet.
Qed.

Lemma episodes_costs (url : string) (s : State) :
  steps (snd (episodes L W url s)) <= steps s + answer_size (page L W url).
Proof.
  unfold episodes. unfold bind at 1. rewrite get_page_data_run.
  destruct (page L W url) as [e | p]; simpl; [lia |].
  match goal with
  | |- steps (snd (?k ?s0)) <= _ =>
      assert (Hk : costs k (size p)); [| exact (Hk s0)]
  end.
  apply costs_after. intros title Et.
  apply costs_after. intros brand_data Eb.
  do 7 (apply costs_then; [quiet | intros ?]).
  apply costs_after. intros series_data Es.
  destruct (negb (truthy series_data)); [quiet |].
  apply costs_after. intros series Ei.
  pose proof (subscript_size _ _ _ Et).
  pose proof (subscript_size _ _ _ Eb).
  pose proof (subscript_size _ _ _ Es).
  assert (Hsum : list_sum (map series_cost series) < size series_data).
  { apply iter_cost; [exact series_cost_size | | exact Ei].
    intros t. unfold series_cost. simpl. lia. }
  apply (costs_weaken _ (list_sum (map series_cost series) + 0)); [| lia].
  apply costs_bind; [| intros; quiet].
  apply costs_for_each. intros one. apply series_entry_costs.
Qed.

(** A generator that starts by fetching a page. *)
Lemma gen_costs_page (url : string) (k : json -> Gen) :
  (forall p, page L W url = inr p -> gen_costs (k p) (size p)) ->
  gen_costs (gen_bind (get_page_data L W url) k) (answer_size (page L W url)).
Proof.
  intros Hk s. unfold gen_bind. rewrite get_page_data_run.
  destruct (page L W url) as [e | p]; simpl; [lia |].
  exact (Hk p eq_refl (issue (GetDocument (page_url url)) s)).
Qed.

Lemma gen_for_costs_one (body : json -> M (option json)) (xs : list json)
    (n : nat) :
  (forall x, costs (body x) 1) -> List.length xs <= n ->
  gen_costs (gen_for xs body) n.
Proof.
  intros Hb Hn.
  apply (gen_costs_weaken _ (list_sum (map (fun _ => 1) xs))).
  - apply gen_costs_for. exact Hb.
  - rewrite sum_ones. exact Hn.
Qed.

Lemma main_page_items_costs :
  gen_costs (main_page_items L W) (answer_size (page L W "https://www.itv.com")).
Proof.
  unfold main_page_items. apply gen_costs_page. intros p _.
  apply gen_costs_after. intros hero_content Eh.
  apply gen_costs_after. intros heroes Ei.
  pose proof (subscript_size _ _ _ Eh). pose proof (iter_size _ _ Ei).
  apply gen_for_costs_one; [| lia].
  intros hero_data. apply costs_iteration. quiet.
Qed.

Lemma categories_costs :
  gen_costs (categories L W)
    (answer_size (page L W "https://www.itv.com/watch/categories")).
Proof.
  unfold categories. apply gen_costs_page. intros p _.
  apply gen_costs_after. intros subnav Es.
  apply gen_costs_after. intros cat_list Ec.
  apply gen_costs_after. intros cats Ei.
  pose proof (subscript_size _ _ _ Es). pose proof (subscript_size _ _ _ Ec).
  pose proof (iter_size _ _ Ei).
  apply gen_for_costs_one; [| lia].
  intros cat. apply costs_iteration. quiet.
Qed.

Lemma category_entry_costs category hide_payed prog :
  costs (category_entry L category hide_payed prog) 1.
Proof.
  unfold category_entry, programme_item. apply costs_iteration. quiet.
Qed.

Lemma category_content_costs (url : string) (hide_payed : bool) :
  gen_costs (category_content L W url hide_payed) (answer_size (page L W url)).
Proof.
  unfold category_content. apply gen_costs_page. intros p _.
  apply gen_costs_after. intros cat _.
  apply gen_costs_after. intros category _.
  apply gen_costs_after. intros progr_list Ep.
  apply gen_costs_after. intros progs Ei.
  pose proof (dict_get_iter_size _ _ _ _ Ep Ei).
  apply gen_for_costs_one; [| lia].
  apply category_entry_costs.
Qed.

Lemma search_entry_costs search_term result :
  costs (search_entry L search_term result) 1.
Proof.
  unfold search_entry, parse_programme, parse_special.
  apply costs_iteration. quiet.
Qed.

Lemma search_costs (search_term : string) :
  gen_costs (search L W search_term)
    (answer_size (get_json W search_url (query_params search_term))).
Proof.
  intros s. unfold search, gen_bind at 1, fetch_get_json.
  destruct (get_json W search_url (query_params search_term)) as [e | data];
    simpl; [lia |].
  assert (Hk : gen_costs
                 (gen_bind (lift (dict_get data "results" JNull))
                    (fun results =>
                       gen_bind (lift (py_iter results))
                         (fun results' =>
                            gen_for results' (search_entry L search_term))))
                 (size data)).
  { apply gen_costs_after. intros results Er.
    apply gen_costs_after. intros results' Ei.
    pose proof (dict_get_iter_size _ _ _ _ Er Ei).
    apply gen_for_costs_one; [| lia].
    apply search_entry_costs. }
  destruct data; exact (Hk _).
Qed.

Lemma get_page_data_costs (url : string) : costs (get_page_data L W url) 0.
Proof. intros s. rewrite get_page_data_run. simpl. lia. Qed.

Lemma playlist_costs (url : string) :
  costs (get_playlist_url_from_episode_page W url) 0.
Proof.
  intros s. unfold get_playlist_url_from_episode_page, bind, logger,
    fetch_get_document, lift, ret. simpl.
  destruct (get_document W url) as [e | html_doc]; simpl; [lia |].
  destruct (search_video_id html_doc); simpl; lia.
Qed.

End CostOfFunctions.

Section Crowded.

Lemma later_zero (s : State) : later 0 s = s.
Proof. destruct s. reflexivity. Qed.

Lemma later_later (a b : nat) (s : State) : later a (later b s) = later (a + b) s.
Proof. unfold later. simpl. rewrite Nat.add_assoc. reflexivity. Qed.

Lemma later_issue (k : nat) (q : request) (s : State) :
  steps (later k (issue q s)) = k + steps s.
Proof. reflexivity. Qed.

(** The search of a schedule that does not list the channel visits every
    entry. *)
Lemma find_main_unlisted (m : nat) (channel : json) (s : State) :
  find_main (repeat Demo.other_entry m) (JStr "ITV2") channel s
  = (inr channel, later m s).
Proof.
  revert s. induction m as [| m IH]; intros s.
  - simpl. rewrite later_zero. reflexivity.
  - simpl repeat. unfold find_main; fold find_main.
    unfold bind, tick, lift. simpl. rewrite IH.
    unfold later. simpl. rewrite Nat.add_succ_r. reflexivity.
Qed.

Lemma unlisted_entry (tz : Z -> Z) (fanart_url : json) :
  exists out, forall m s,
    channel_entry Demo.lib tz fanart_url (Demo.crowded_schedule m)
      Demo.unlisted_channel s
    = (inr out, later (m + 3) s).
Proof.
  eexists. intros m s. unfold channel_entry, bind, tick, lift.
  simpl. rewrite find_main_unlisted. simpl.
  unfold later. simpl. rewrite !Nat.add_succ_r, Nat.add_0_r. reflexivity.
Qed.

Lemma for_each_repeat (body : json -> M json) (x y : json) (k n : nat) :
  (forall s, body x s = (inr y, later k s)) ->
  forall s, for_each (repeat x n) body s = (inr (repeat y n), later (n * k) s).
Proof.
  intros Hb. induction n as [| n IH]; intros s.
  - simpl. rewrite later_zero. reflexivity.
  - simpl. rewrite Hb, IH, later_later.
    rewrite (Nat.add_comm (n * k) k). reflexivity.
Qed.

Lemma crowded_run (n : nat) (s : State) :
  exists out,
    fst (get_live_channels Demo.lib (Demo.crowded n) s) = ok (JList (repeat out n)) /\
    steps (snd (get_live_channels Demo.lib (Demo.crowded n) s))
    = n * (n + 3) + steps s.
Proof.
  destruct (unlisted_entry (fun _ => 0%Z) (Demo.str "https://img/backdrop.jpg"))
    as (out & Hout).
  exists out.
  unfold get_live_channels, bind, read, fetch_get_json, itv_get_live_schedule,
    lift.
  simpl.
  rewrite (for_each_repeat _ Demo.unlisted_channel out (n + 3) n (Hout n)).
  simpl. split; reflexivity.
Qed.

Lemma list_sum_repeat (k n : nat) : list_sum (repeat k n) = n * k.
Proof. induction n; simpl; [reflexivity | rewrite IHn; reflexivity]. Qed.

Lemma crowded_size (n : nat) :
  size (Demo.crowded_data n) + size (Demo.crowded_schedule n) = 234 * n + 54.
Proof.
  unfold Demo.crowded_data, Demo.crowded_schedule, Demo.obj.
  rewrite size_dict. cbn [map fst snd list_sum]. rewrite !size_list.
  rewrite !map_repeat, !list_sum_repeat.
  cbn -[Nat.mul]. lia.
Qed.

End Crowded.




(* ===================================================================== *)
(** * The shape of what the listings produce                              *)
(* ===================================================================== *)

Lemma tick_ok (u : unit) (s s' : State) :
  tick s = (inr u, s') ->
  s' = {| globals := globals s; requests := requests s;
          records := records s; steps := S (steps s) |}.
Proof. unfold tick. intros H. inversion H. reflexivity. Qed.

Lemma logger_ok lv msg args (u : unit) (s s' : State) :
  logger lv msg args s = (inr u, s') ->
  s' = {| globals := globals s; requests := requests s;
          records := (records s ++ [(lv, msg, args)])%list; steps := steps s |}.
Proof. unfold logger. intros H. inversion H. reflexivity. Qed.

Lemma for_each_ok (body : json -> M json) xs :
  forall s ys s',
    for_each xs body s = (inr ys, s') ->
    Forall2 (fun x y => exists s1 s2, body x s1 = (inr y, s2)) xs ys.
Proof.
  induction xs as [| x r IH]; simpl; intros s ys s' H.
  - apply ret_ok in H. destruct H as [-> _]. constructor.
  - destruct (body x s) as [[e | y] s1] eqn:E; [discriminate H |].
    destruct (for_each r body s1) as [[e | ys'] s2] eqn:G; [discriminate H |].
    inversion H; subst. constructor.
    + exists s, s1. exact E.
    + exact (IH s1 ys' s' G).
Qed.

Lemma read_ok {A} (f : Globals -> A) (a : A) (s s' : State) :
  read f s = (inr a, s') -> a = f (globals s) /\ s' = s.
Proof. unfold read, ok. intros H. inversion H. split; reflexivity. Qed.

Lemma fetch_get_json_ok W url params (a : json) (s s' : State) :
  fetch_get_json W url params s = (inr a, s') ->
  get_json W url params = ok a /\ s' = issue (GetJson url params) s.
Proof. unfold fetch_get_json. intros H. inversion H. split; [assumption | reflexivity]. Qed.

Lemma itv_get_live_schedule_ok W (a : json) (s s' : State) :
  itv_get_live_schedule W s = (inr a, s') ->
  get_live_schedule W = ok a /\ s' = issue GetLiveSchedule s.
Proof.
  unfold itv_get_live_schedule. intros H. inversion H.
  split; [assumption | reflexivity].
Qed.

Lemma Forall2_right {A B} (R : A -> B -> Prop) (P : B -> Prop) xs ys :
  Forall2 R xs ys -> (forall x y, R x y -> P y) -> Forall P ys.
Proof.
  intros H HP. induction H; constructor; eauto.
Qed.

Lemma Forall2_weaken {A B} (R R' : A -> B -> Prop) xs ys :
  Forall2 R xs ys -> (forall x y, R x y -> R' x y) -> Forall2 R' xs ys.
Proof.
  intros H HR. induction H; constructor; eauto.
Qed.

(** Splits a successful run into the successful runs of its statements,
    down to the built-ins. *)
Ltac runs H :=
  cbv beta zeta in H;
  lazymatch type of H with
  | bind _ _ _ = (inr _, _) =>
      let a := fresh "a" in
      let s1 := fresh "s" in
      let H1 := fresh "R" in
      let H2 := fresh "R" in
      apply bind_ok in H; destruct H as (a & s1 & H1 & H2);
      runs H1; runs H2
  | lift _ _ = (inr _, _) =>
      let E := fresh "E" in
      apply lift_ok in H; destruct H as [E ->]
  | ret _ _ = (inr _, _) =>
      let E := fresh "E" in
      apply ret_ok in H; destruct H as [E ->];
      try (injection E as E); try subst
  | tick _ = (inr _, _) => apply tick_ok in H; try subst
  | logger _ _ _ _ = (inr _, _) => apply logger_ok in H; try subst
  | read _ _ = (inr _, _) =>
      let E := fresh "E" in
      apply read_ok in H; destruct H as [E ->]; try subst
  | fetch_get_json _ _ _ _ = (inr _, _) =>
      let E := fresh "E" in
      apply fetch_get_json_ok in H; destruct H as [E ->]
  | itv_get_live_schedule _ _ = (inr _, _) =>
      let E := fresh "E" in
      apply itv_get_live_schedule_ok in H; destruct H as [E ->]
  | (match ?x with (_, _) => _ end) _ = (inr _, _) => destruct x; runs H
  | (if ?b then _ else _) _ = (inr _, _) =>
      let B := fresh "B" in destruct b eqn:B; runs H
  | _ => idtac
  end.

Section Shapes.

Variable L : Lib.
Variable W : World.

Lemma series_entry_shape url bt bth bf bd series s y s' :
  series_entry L url bt bth bf bd series s = (inr y, s') -> listitem y = true.
Proof. unfold series_entry. intros H. runs H. reflexivity. Qed.

Lemma episodes_shape url s v s' :
  episodes L W url s = (inr v, s') ->
  exists l, v = JList l /\ Forall (fun y => listitem y = true) l.
Proof.
  unfold episodes. intros H. runs H.
  - exists []. split; [reflexivity | constructor].
  - match goal with
    | F : for_each _ _ _ = (inr ?ys, _) |- _ =>
        exists ys; split; [reflexivity |]; apply for_each_ok in F; rename F into F2
    end.
    apply (Forall2_right _ _ _ _ F2).
    intros x y (s2 & s3 & Hx).
    exact (series_entry_shape _ _ _ _ _ _ _ _ _ Hx).
Qed.

Lemma parse_programme_shape prg_data s y s' :
  parse_programme L prg_data s = (inr y, s') ->
  listitem y = true /\ subscript y "entity_type" = ok (JStr "programme").
Proof. unfold parse_programme. intros H. runs H. split; reflexivity. Qed.

Lemma parse_special_shape program_data prg_data s y s' :
  parse_special L program_data prg_data s = (inr y, s') ->
  listitem y = true /\ subscript y "entity_type" = ok (JStr "special").
Proof. unfold parse_special. intros H. runs H. split; reflexivity. Qed.

Lemma search_entry_shape search_term result s y s' :
  search_entry L search_term result s = (inr (Some y), s') ->
  listitem y = true /\
  exists program_data entity_type,
    subscript result "data" = ok program_data /\
    subscript result "entityType" = ok entity_type /\
    known_type entity_type = true /\
    subscript y "entity_type" = ok entity_type.
Proof.
  unfold search_entry. intros H. runs H.
  - match goal with
    | P : parse_programme _ ?d _ = _, T : py_eq ?t _ = true |- _ =>
        apply parse_programme_shape in P; destruct P as [Hl Ht];
        split; [exact Hl |]; exists d, t; unfold known_type; rewrite T;
        repeat split; try assumption;
        rewrite Ht; destruct t; try discriminate T; simpl in T;
        apply String.eqb_eq in T; rewrite T; reflexivity
    end.
  - match goal with
    | P : parse_special _ ?d _ _ = _, T : py_eq ?t (JStr "special") = true
      |- _ =>
        apply parse_special_shape in P; destruct P as [Hl Ht];
        split; [exact Hl |]; exists d, t; unfold known_type; rewrite T;
        rewrite orb_true_r;
        repeat split; try assumption;
        rewrite Ht; destruct t; try discriminate T; simpl in T;
        apply String.eqb_eq in T; rewrite T; reflexivity
    end.
  - congruence.
Qed.

Lemma categories_shape s y :
  In y (yields (categories L W) s) -> category_link y.
Proof.
  unfold categories, yields. intros H.
  apply gen_bind_yields in H. destruct H as (data & s1 & _ & H).
  apply gen_bind_yields in H. destruct H as (subnav & s2 & _ & H).
  apply gen_bind_yields in H. destruct H as (cat_list & s3 & _ & H).
  apply gen_bind_yields in H. destruct H as (cats & s4 & _ & H).
  revert H. apply gen_for_yields. clear. intros cat s y s' _ H.
  runs H. eexists. eexists. reflexivity.
Qed.

Lemma programme_item_shape category prog content_info title plot is_playable
    s r s' :
  programme_item L category prog content_info title plot is_playable s
    = (inr r, s') ->
  exists y,
    r = Some y /\ wrapped_listitem y /\
    label_of y = ok title /\ plot_of y = ok plot.
Proof.
  unfold programme_item. intros H. runs H;
    (eexists; split; [reflexivity |]; split;
     [eexists; eexists; split; reflexivity | split; reflexivity]).
Qed.

(** What one pass of the loop of [category_content] does with a
    programme. *)
Lemma category_entry_shape category hide_payed prog s r s' :
  category_entry L category hide_payed prog s = (inr r, s') ->
  (free_tier prog = true /\
   exists y, r = Some y /\ wrapped_listitem y /\ item_of prog y /\
             plain_plot prog y) \/
  (free_tier prog = false /\ hide_payed = true /\ r = None) \/
  (free_tier prog = false /\ hide_payed = false /\
   exists y, r = Some y /\ wrapped_listitem y /\ item_of prog y /\
             premium_plot prog y).
Proof.
  unfold category_entry. intros H. runs H.
  - left.
    match goal with
    | P : programme_item _ _ _ _ _ _ _ _ = _ |- _ =>
        apply programme_item_shape in P;
        destruct P as (y & -> & Hw & Hl & Hp)
    end.
    split.
    + unfold free_tier.
      repeat match goal with E : _ = inr _ |- _ => rewrite E end.
      reflexivity.
    + exists y. repeat split; try assumption.
      * eexists. split; eassumption.
      * eexists. split; eassumption.
  - right. left. unfold free_tier.
    repeat match goal with E : _ = inr _ |- _ => rewrite E end.
    repeat split.
  - right. right.
    match goal with
    | P : programme_item _ _ _ _ _ _ _ _ = _ |- _ =>
        apply programme_item_shape in P;
        destruct P as (y & -> & Hw & Hl & Hp)
    end.
    split; [| split; [reflexivity |]].
    + unfold free_tier.
      repeat match goal with E : _ = inr _ |- _ => rewrite E end.
      reflexivity.
    + exists y. repeat split; try assumption.
      * eexists. split; eassumption.
      * match goal with
        | J : join2 _ ?d _ = inr _ |- _ =>
            destruct d; try discriminate J; injection J as <-
        end.
        eexists. split; eassumption.
Qed.

End Shapes.

(** C2, as the specification states it, fails: the items of [categories]
    have a label and parameters but neither [art] nor [info], and the items
    of [category_content] keep the listitem one level down, under [show]. *)
Lemma category_items_are_not_listitems :
  ending (categories Demo.lib Demo.world) initial = None /\
  In Demo.first_category (yields (categories Demo.lib Demo.world) initial) /\
  has_key "art" Demo.first_category = false /\
  has_key "info" Demo.first_category = false /\
  listitem Demo.first_category = false /\
  ending (category_content Demo.lib Demo.world Demo.drama_url true) initial
    = None /\
  In Demo.first_drama_item
    (yields (category_content Demo.lib Demo.world Demo.drama_url true) initial) /\
  has_key "label" Demo.first_drama_item = false /\
  listitem Demo.first_drama_item = false.
Proof.
  repeat split; try reflexivity; vm_compute; left; reflexivity.
Qed.

(** C2, amended. On every input on which they succeed, [episodes] and
    [search] produce only dictionaries with the keys [label], [art], [info]
    and [params]; [categories] produces dictionaries with the two keys
    [label] and [params]; [category_content] produces dictionaries with
    the keys [playable] and [show], where [show] holds a dictionary with
    the keys [label], [art], [info] and [params]. *)
Theorem listing_shapes (L : Lib) (W : World) (s : State) :
  (forall url v s',
     episodes L W url s = (inr v, s') ->
     exists l, v = JList l /\ Forall (fun y => listitem y = true) l) /\
  (forall search_term y,
     In y (yields (search L W search_term) s) -> listitem y = true) /\
  (forall y, In y (yields (categories L W) s) -> category_link y) /\
  (forall url hide_payed y,
     In y (yields (category_content L W url hide_payed) s) ->
     wrapped_listitem y).
Proof.
  repeat match goal with |- _ /\ _ => split end.
  - intros url v s'. apply episodes_shape.
  - intros search_term y. unfold search, yields. intros H.
    apply gen_bind_yields in H. destruct H as (data & s1 & _ & H).
    assert (K : In y (fst (fst
                  (gen_bind (lift (dict_get data "results" JNull))
                     (fun results =>
                        gen_bind (lift (py_iter results))
                          (fun results' =>
                             gen_for results' (search_entry L search_term)))
                     s1)))).
    { destruct data; exact H. }
    clear H.
    apply gen_bind_yields in K. destruct K as (results & s2 & _ & K).
    apply gen_bind_yields in K. destruct K as (results' & s3 & _ & K).
    refine (gen_for_yields _ (fun y => listitem y = true) _ _ s3 y K).
    intros x s0 y0 s0' _ Hx.
    apply search_entry_shape in Hx. exact (proj1 Hx).
  - intros y. apply categories_shape.
  - intros url hide_payed y. unfold category_content, yields. intros H.
    apply gen_bind_yields in H. destruct H as (cat_data & s1 & _ & H).
    apply gen_bind_yields in H. destruct H as (cat & s2 & _ & H).
    apply gen_bind_yields in H. destruct H as (category & s3 & _ & H).
    apply gen_bind_yields in H. destruct H as (progr_list & s4 & _ & H).
    apply gen_bind_yields in H. destruct H as (progs & s5 & _ & H).
    revert H. apply gen_for_yields. intros x s0 y0 s0' _ Hx.
    apply category_entry_shape in Hx.
    destruct Hx as [(_ & y1 & E & Hw & _) | [(_ & _ & E) | (_ & _ & y1 & E & Hw & _)]];
      try discriminate E; injection E as <-; exact Hw.
Qed.

Lemma listing_shapes_witness :
  (exists l,
     fst (episodes Demo.lib Demo.world "/watch/marple" initial) = inr (JList l) /\
     Forall (fun y => listitem y = true) l) /\
  listitem Demo.first_search_item = true /\
  category_link Demo.first_category /\
  wrapped_listitem Demo.first_drama_item.
Proof.
  destruct (listing_shapes Demo.lib Demo.world initial) as (He & Hs & Hc & Hd).
  repeat match goal with |- _ /\ _ => split end.
  - destruct (episodes Demo.lib Demo.world "/watch/marple" initial)
      as [[e | v] s'] eqn:E.
    + vm_compute in E. discriminate E.
    + destruct (He "/watch/marple" v s' E) as (l & -> & Hl).
      exists l. split; [reflexivity | exact Hl].
  - apply (Hs "chase"). vm_compute. left. reflexivity.
  - apply Hc. vm_compute. left. reflexivity.
  - apply (Hd Demo.drama_url true). vm_compute. left. reflexivity.
Defined.

(* ===================================================================== *)
(** * Free and premium programmes                                         *)
(* ===================================================================== *)

Lemma gen_for_complete (body : json -> M (option json)) xs :
  (forall x s s', In x xs -> body x s <> (inr None, s')) ->
  forall s,
    ending (gen_for xs body) s = None ->
    Forall2 (fun x y => exists s1 s2, body x s1 = (inr (Some y), s2))
      xs (yields (gen_for xs body) s).
Proof.
  unfold ending, yields. induction xs as [| x r IH]; intros Hb s H.
  - constructor.
  - simpl in *.
    destruct (body x s) as [[e | [y |]] s1] eqn:E.
    + discriminate H.
    + destruct (gen_for r body s1) as [[ys e] s2] eqn:G. simpl in *.
      constructor.
      * exists s, s1. exact E.
      * specialize (IH (fun x0 s0 s0' Hin => Hb x0 s0 s0' (or_intror Hin)) s1).
        rewrite G in IH. exact (IH H).
    + exfalso. exact (Hb x s s1 (or_introl eq_refl) E).
Qed.

Section Tiers.

Variable L : Lib.
Variable W : World.
Variable url : string.
Variable s : State.

Lemma page_of_run (cat_data : json) (s1 : State) :
  get_page_data L W url s = (inr cat_data, s1) -> page L W url = ok cat_data.
Proof. rewrite get_page_data_run. intros H. inversion H. assumption. Qed.

Lemma hidden_premium (y : json) :
  In y (yields (category_content L W url true) s) ->
  exists cat_data progr_list progs prog,
    page L W url = ok cat_data /\
    dict_get cat_data "programmes" JNull = ok progr_list /\
    py_iter progr_list = ok progs /\
    In prog progs /\ free_tier prog = true /\ item_of prog y.
Proof.
  unfold category_content, yields. intros H.
  apply gen_bind_yields in H. destruct H as (cat_data & s1 & Hpage & H).
  apply gen_bind_yields in H. destruct H as (cat & s2 & _ & H).
  apply gen_bind_yields in H. destruct H as (category & s3 & _ & H).
  apply gen_bind_yields in H. destruct H as (progr_list & s4 & Hget & H).
  apply gen_bind_yields in H. destruct H as (progs & s5 & Hiter & H).
  apply lift_ok in Hget. destruct Hget as [Hget _].
  apply lift_ok in Hiter. destruct Hiter as [Hiter _].
  exists cat_data, progr_list, progs.
  refine (gen_for_yields (category_entry L category true)
            (fun y => exists prog, _ /\ _ /\ _ /\ In prog progs /\
                                   free_tier prog = true /\ item_of prog y)
            progs _ s5 y H).
  intros prog s0 y0 s0' Hin Hx. exists prog.
  apply category_entry_shape in Hx.
  destruct Hx as [(Hf & y1 & E & _ & Hi & _)
                 | [(_ & _ & E) | (_ & E & _)]]; try discriminate E.
  injection E as <-.
  repeat split; try assumption. exact (page_of_run cat_data s1 Hpage).
Qed.

Lemma shown_premium :
  ending (category_content L W url false) s = None ->
  exists cat_data progr_list progs,
    page L W url = ok cat_data /\
    dict_get cat_data "programmes" JNull = ok progr_list /\
    py_iter progr_list = ok progs /\
    Forall2 (fun prog y =>
               item_of prog y /\
               (free_tier prog = true -> plain_plot prog y) /\
               (free_tier prog = false -> premium_plot prog y))
      progs (yields (category_content L W url false) s).
Proof.
  unfold category_content, ending, yields. intros H.
  destruct (gen_bind_completes _ _ _ H) as (cat_data & s1 & Hpage & R).
  rewrite R in *. clear R. cbv beta in *.
  destruct (gen_bind_completes _ _ _ H) as (cat & s2 & _ & R).
  rewrite R in *. clear R. cbv beta in *.
  destruct (gen_bind_completes _ _ _ H) as (category & s3 & _ & R).
  rewrite R in *. clear R. cbv beta in *.
  destruct (gen_bind_completes _ _ _ H) as (progr_list & s4 & Hget & R).
  rewrite R in *. clear R. cbv beta in *.
  destruct (gen_bind_completes _ _ _ H) as (progs & s5 & Hiter & R).
  rewrite R in *. clear R. cbv beta in *.
  apply lift_ok in Hget. destruct Hget as [Hget _].
  apply lift_ok in Hiter. destruct Hiter as [Hiter _].
  exists cat_data, progr_list, progs.
  repeat split; try assumption; [exact (page_of_run cat_data s1 Hpage) |].
  apply (Forall2_weaken
           (fun x y => exists s1 s2,
              category_entry L category false x s1 = (inr (Some y), s2))).
  - apply gen_for_complete; [| exact H].
    intros prog s6 s7 _ Hx.
    apply category_entry_shape in Hx.
    destruct Hx as [(_ & y1 & E & _) | [(_ & E & _) | (_ & _ & y1 & E & _)]];
      discriminate E.
  - intros prog y (s6 & s7 & Hx).
    apply category_entry_shape in Hx.
    destruct Hx as [(Hf & y1 & E & _ & Hi & Hp)
                   | [(_ & E & _) | (Hf & _ & y1 & E & _ & Hi & Hp)]];
      try discriminate E; injection E as <-;
      (split; [exact Hi |]); rewrite Hf; split; intros K;
      try discriminate K; assumption.
Qed.

End Tiers.



(* ===================================================================== *)
(** * Search results                                                      *)
(* ===================================================================== *)

Section Stateless.

Lemma stateless_ret {A} (a : A) : stateless (ret a).
Proof. intros s s'. reflexivity. Qed.

Lemma stateless_lift {A} (r : result A) : stateless (lift r).
Proof. intros s s'. reflexivity. Qed.

Lemma stateless_tick : stateless tick.
Proof. intros s s'. reflexivity. Qed.

Lemma stateless_logger lv msg args : stateless (logger lv msg args).
Proof. intros s s'. reflexivity. Qed.

Lemma stateless_bind {A B} (m : M A) (k : A -> M B) :
  stateless m -> (forall a, stateless (k a)) -> stateless (bind m k).
Proof.
  intros Hm Hk s s'. unfold bind. specialize (Hm s s').
  destruct (m s) as [[e | a] s1], (m s') as [[e' | a'] s1']; simpl in Hm;
    try discriminate Hm.
  - injection Hm as ->. reflexivity.
  - injection Hm as ->. apply Hk.
Qed.

Lemma stateless_gen_for (body : json -> M (option json)) xs :
  (forall x, stateless (body x)) ->
  forall s s', fst (gen_for xs body s) = fst (gen_for xs body s').
Proof.
  intros Hb. induction xs as [| x r IH]; intros s s'.
  - reflexivity.
  - simpl. specialize (Hb x s s').
    destruct (body x s) as [[e | [y |]] s1],
             (body x s') as [[e' | [y' |]] s1']; simpl in Hb;
      try discriminate Hb.
    + injection Hb as ->. reflexivity.
    + injection Hb as ->. specialize (IH s1 s1').
      destruct (gen_for r body s1) as [[ys e] s2],
               (gen_for r body s1') as [[ys' e'] s2']; simpl in *.
      injection IH as -> ->. reflexivity.
    + apply IH.
Qed.

(** An element on which the body reaches [continue] leaves the items and
    the ending of the loop as they are without it. *)
Lemma gen_for_skip (body : json -> M (option json)) before x after :
  (forall y, stateless (body y)) ->
  (forall s, fst (body x s) = inr None) ->
  forall s,
    fst (gen_for (before ++ x :: after) body s) =
    fst (gen_for (before ++ after) body s).
Proof.
  intros Hb Hx. induction before as [| b r IH]; intros s.
  - simpl. specialize (Hx s).
    destruct (body x s) as [[e | [y |]] s1]; simpl in Hx; try discriminate Hx.
    apply stateless_gen_for. exact Hb.
  - simpl.
    destruct (body b s) as [[e | [y |]] s1].
    + reflexivity.
    + specialize (IH s1).
      destruct (gen_for (r ++ x :: after) body s1) as [[ys e] s2],
               (gen_for (r ++ after) body s1) as [[ys' e'] s2']; simpl in *.
      injection IH as -> ->. reflexivity.
    + apply IH.
Qed.

End Stateless.

Ltac stateless_run :=
  repeat first
    [ apply stateless_ret | apply stateless_lift | apply stateless_tick
    | apply stateless_logger
    | apply stateless_bind; [ | intros ? ]
    | match goal with
      | |- stateless (if ?b then _ else _) => destruct b
      end
    | progress cbv zeta ].

Section SearchResults.

Variable L : Lib.

Lemma search_entry_stateless search_term result :
  stateless (search_entry L search_term result).
Proof.
  unfold search_entry, parse_programme, parse_special. stateless_run.
Qed.

Lemma search_entry_skips search_term result program_data entity_type s :
  subscript result "data" = ok program_data ->
  subscript result "entityType" = ok entity_type ->
  known_type entity_type = false ->
  fst (search_entry L search_term result s) = inr None.
Proof.
  unfold known_type. intros Hd Ht Hk.
  apply orb_false_elim in Hk. destruct Hk as [Hp Hs].
  unfold search_entry, bind, tick, lift, logger, ret. simpl.
  rewrite Hd, Ht. simpl. rewrite Hp, Hs. reflexivity.
Qed.

Variables W W' : World.
Variable search_term : string.
Variable s : State.

Lemma search_kinds (y : json) :
  In y (yields (search L W search_term) s) ->
  exists data results rs result entity_type,
    get_json W search_url (query_params search_term) = ok data /\
    dict_get data "results" JNull = ok results /\
    py_iter results = ok rs /\
    In result rs /\
    subscript result "entityType" = ok entity_type /\
    known_type entity_type = true /\
    subscript y "entity_type" = ok entity_type.
Proof.
  unfold search, yields. intros H.
  apply gen_bind_yields in H. destruct H as (data & s1 & Hfetch & H).
  assert (K : In y (fst (fst
                (gen_bind (lift (dict_get data "results" JNull))
                   (fun results =>
                      gen_bind (lift (py_iter results))
                        (fun results' =>
                           gen_for results' (search_entry L search_term)))
                   s1)))).
  { destruct data; exact H. }
  clear H.
  apply gen_bind_yields in K. destruct K as (results & s2 & Hget & K).
  apply gen_bind_yields in K. destruct K as (rs & s3 & Hiter & K).
  apply lift_ok in Hget. destruct Hget as [Hget _].
  apply lift_ok in Hiter. destruct Hiter as [Hiter _].
  unfold fetch_get_json in Hfetch. injection Hfetch as Hfetch _.
  exists data, results, rs.
  refine (gen_for_yields (search_entry L search_term)
            (fun y => exists result entity_type, _ /\ _ /\ _ /\ In result rs /\
                        subscript result "entityType" = ok entity_type /\
                        known_type entity_type = true /\
                        subscript y "entity_type" = ok entity_type)
            rs _ s3 y K).
  intros result s0 y0 s0' Hin Hx.
  apply search_entry_shape in Hx.
  destruct Hx as (_ & program_data & entity_type & _ & Ht & Hk & Hy).
  exists result, entity_type. repeat split; assumption.
Qed.

Lemma search_skips (d d' : dict) (before after : list json)
    (result program_data entity_type : json) :
  get_json W search_url (query_params search_term) = ok (JDict d) ->
  lookup "results" d = Some (JList (before ++ result :: after)) ->
  get_json W' search_url (query_params search_term) = ok (JDict d') ->
  lookup "results" d' = Some (JList (before ++ after)) ->
  subscript result "data" = ok program_data ->
  subscript result "entityType" = ok entity_type ->
  known_type entity_type = false ->
  fst (search L W search_term s) = fst (search L W' search_term s).
Proof.
  intros Hw Hr Hw' Hr' Hd Ht Hk.
  unfold search, gen_bind, fetch_get_json, lift, dict_get, py_iter.
  rewrite Hw, Hw'. simpl. rewrite Hr, Hr'. simpl.
  apply gen_for_skip.
  - intros y. apply search_entry_stateless.
  - intros s0.
    exact (search_entry_skips search_term result program_data entity_type s0
             Hd Ht Hk).
Qed.

Lemma search_none :
  get_json W search_url (query_params search_term) = ok JNull ->
  search L W search_term s =
    (([], None), issue (GetJson search_url (query_params search_term)) s).
Proof.
  intros H. unfold search, gen_bind, fetch_get_json. rewrite H. reflexivity.
Qed.

End SearchResults.

(** C9. A result of an unknown entity type that has no [data] entry is not
    skipped, as the [else] branch of lines 272-274 means it to be: the loop
    reads [result['data']] before it looks at the entity type (line 265),
    so the search ends with [KeyError] there and the programme that follows
    is never yielded, though alone it would be. *)
Lemma result_without_data_aborts_search :
  subscript Demo.bare_video_result "entityType" = ok (JStr "video") /\
  known_type (JStr "video") = false /\
  fst (search Demo.lib Demo.bare_then_programme "chase" initial) =
    ([], Some (KeyError "data")) /\
  List.length (yields (search Demo.lib Demo.programme_alone "chase") initial) = 1.
Proof. repeat split. Qed.

(** Apart from a result without [data], [search] treats entity types as
    described. It yields only items of results whose entity type
    is ['programme'] or ['special'], each carrying that type; a result of
    any other entity type that has a [data] entry is skipped, and the
    search yields the same items and ends the same way as it does without
    that result; when the fetch returns [None], [search] yields nothing
    and ends normally. *)
Theorem search_entity_types (L : Lib) (W : World) (search_term : string)
    (s : State) :
  (forall y,
     In y (yields (search L W search_term) s) ->
     exists data results rs result entity_type,
       get_json W search_url (query_params search_term) = ok data /\
       dict_get data "results" JNull = ok results /\
       py_iter results = ok rs /\
       In result rs /\
       subscript result "entityType" = ok entity_type /\
       known_type entity_type = true /\
       subscript y "entity_type" = ok entity_type) /\
  (forall W' d d' before after result program_data entity_type,
     get_json W search_url (query_params search_term) = ok (JDict d) ->
     lookup "results" d = Some (JList (before ++ result :: after)) ->
     get_json W' search_url (query_params search_term) = ok (JDict d') ->
     lookup "results" d' = Some (JList (before ++ after)) ->
     subscript result "data" = ok program_data ->
     subscript result "entityType" = ok entity_type ->
     known_type entity_type = false ->
     fst (search L W search_term s) = fst (search L W' search_term s)) /\
  (get_json W search_url (query_params search_term) = ok JNull ->
   search L W search_term s =
     (([], None), issue (GetJson search_url (query_params search_term)) s)).
Proof.
  repeat match goal with |- _ /\ _ => split end.
  - intros y. apply search_kinds.
  - intros W' d d' before after result program_data entity_type.
    apply search_skips.
  - apply search_none.
Qed.

Lemma search_entity_types_witness :
  (exists data results rs result entity_type,
     get_json Demo.world search_url (query_params "chase") = ok data /\
     dict_get data "results" JNull = ok results /\
     py_iter results = ok rs /\
     In result rs /\
     subscript result "entityType" = ok entity_type /\
     known_type entity_type = true /\
     subscript Demo.first_search_item "entity_type" = ok entity_type) /\
  fst (search Demo.lib Demo.world "chase" initial) =
    fst (search Demo.lib Demo.two_results "chase" initial) /\
  search Demo.lib Demo.no_data "chase" initial =
    (([], None), issue (GetJson search_url (query_params "chase")) initial).
Proof.
  destruct (search_entity_types Demo.lib Demo.world "chase" initial)
    as (Hkinds & Hskip & _).
  destruct (search_entity_types Demo.lib Demo.no_data "chase" initial)
    as (_ & _ & Hnone).
  repeat match goal with |- _ /\ _ => split end.
  - apply Hkinds. vm_compute. left. reflexivity.
  - apply (Hskip Demo.two_results
             [("results", JList [Demo.programme_result; Demo.video_result;
                                 Demo.special_result])]
             [("results", JList [Demo.programme_result; Demo.special_result])]
             [Demo.programme_result] [Demo.special_result]
             Demo.video_result (Demo.obj []) (Demo.str "video"));
      reflexivity.
  - apply Hnone. reflexivity.
Defined.

(* ===================================================================== *)
(** * Live channels                                                       *)
(* ===================================================================== *)

Section Dictionaries.

Lemma lookup_store_same (k : string) (v : json) (d : dict) :
  lookup k (store k v d) = Some v.
Proof.
  induction d as [| [k' v'] r IH]; simpl.
  - rewrite String.eqb_refl. reflexivity.
  - destruct (String.eqb k k') eqn:E; simpl; rewrite E; [reflexivity | exact IH].
Qed.

Lemma lookup_store_other (k k' : string) (v : json) (d : dict) :
  String.eqb k k' = false -> lookup k (store k' v d) = lookup k d.
Proof.
  intros Hk. induction d as [| [k0 v0] r IH]; simpl.
  - rewrite Hk. reflexivity.
  - destruct (String.eqb k' k0) eqn:E; simpl.
    + apply String.eqb_eq in E. subst k0. rewrite Hk. reflexivity.
    + rewrite IH. reflexivity.
Qed.

Lemma lookup_remove_other (k k' : string) (d : dict) :
  String.eqb k k' = false -> lookup k (remove k' d) = lookup k d.
Proof.
  intros Hk. induction d as [| [k0 v0] r IH]; simpl.
  - reflexivity.
  - destruct (String.eqb k' k0) eqn:E; simpl.
    + apply String.eqb_eq in E. subst k0. rewrite Hk. exact IH.
    + rewrite IH. reflexivity.
Qed.

End Dictionaries.

Section LiveChannels.

Variable L : Lib.

Lemma programme_entry_shape tz prog s y s' :
  programme_entry L tz prog s = (inr y, s') ->
  subscript y "orig_start" = ok JNull.
Proof. unfold programme_entry. intros H. runs H; reflexivity. Qed.

Lemma now_next_shape tz channel slots s out s' :
  now_next L tz channel slots s = (inr out, s') ->
  exists d p1 p2,
    channel = JDict d /\
    out = JDict (store "slot" (JList [p1; p2]) d) /\
    subscript p1 "orig_start" = ok JNull /\
    subscript p2 "orig_start" = ok JNull.
Proof.
  unfold now_next. intros H. runs H.
  match goal with
  | F : for_each _ _ _ = _ |- _ => apply for_each_ok in F; rename F into F2
  end.
  inversion F2 as [| ? p1 ? ? (? & ? & H1) F1]; subst.
  inversion F1 as [| ? p2 ? ? (? & ? & H2) F0]; subst.
  inversion F0; subst.
  destruct channel; try discriminate.
  match goal with
  | S : setitem _ _ _ = inr _ |- _ => injection S as <-
  end.
  exists d, p1, p2. repeat split.
  - exact (programme_entry_shape _ _ _ _ _ H1).
  - exact (programme_entry_shape _ _ _ _ _ H2).
Qed.

Lemma find_main_shape main_schedule chan_id channel s out s' :
  find_main main_schedule chan_id channel s = (inr out, s') ->
  (existsb (matches chan_id) main_schedule = false /\ out = channel) \/
  (existsb (matches chan_id) main_schedule = true /\
   exists slot, setitem channel "slot" slot = ok out).
Proof.
  revert s. induction main_schedule as [| main_chan rest IH]; simpl; intros s H.
  - runs H. left. split; reflexivity.
  - runs H.
    + right. unfold matches.
      repeat match goal with
             | E : subscript _ _ = inr _ |- _ => rewrite E
             | E : py_eq _ _ = _ |- _ => rewrite E
             end.
      split; [reflexivity | eexists; eassumption].
    + match goal with
      | F : find_main _ _ _ _ = _ |- _ => apply IH in F; rename F into F2
      end.
      unfold matches.
      repeat match goal with
             | E : subscript _ _ = inr _ |- _ => rewrite E
             | E : py_eq _ _ = _ |- _ => rewrite E
             end.
      exact F2.
Qed.

End LiveChannels.

Lemma popped_lookup (k : string) (fanart_url : json) (d : dict) :
  String.eqb k "slots" = false -> String.eqb k "backdrop" = false ->
  lookup k (remove "slots" (store "backdrop" fanart_url d)) = lookup k d.
Proof.
  intros H1 H2. rewrite lookup_remove_other, lookup_store_other by assumption.
  reflexivity.
Qed.

Lemma popped_backdrop (fanart_url : json) (d : dict) :
  lookup "backdrop" (remove "slots" (store "backdrop" fanart_url d))
  = Some fanart_url.
Proof.
  rewrite lookup_remove_other by reflexivity. apply lookup_store_same.
Qed.

Lemma two_entries_stored (d : dict) (p1 p2 : json) :
  subscript p1 "orig_start" = ok JNull ->
  subscript p2 "orig_start" = ok JNull ->
  two_entries (JDict (store "slot" (JList [p1; p2]) d)).
Proof.
  intros H1 H2. exists p1, p2. unfold subscript at 1.
  rewrite lookup_store_same. repeat split; assumption.
Qed.

(** Looks entries up through the updates the loop body has made. *)
Ltac looked_up :=
  unfold subscript, dict_get, has_key in *;
  repeat first
    [ rewrite lookup_store_same in *
    | rewrite lookup_store_other in * by reflexivity
    | rewrite popped_backdrop in *
    | rewrite popped_lookup in * by reflexivity ].

Lemma channel_entry_shape (L : Lib) tz fanart_url main_schedule channel s out s' :
  channel_entry L tz fanart_url main_schedule channel s = (inr out, s') ->
  subscript out "backdrop" = ok fanart_url /\
  has_key "slot" out = true /\
  (is_simulcast channel = false \/
   (unmatched main_schedule channel = true /\ own_slot channel = false) ->
   two_entries out).
Proof.
  unfold channel_entry. intros H. runs H.
  all: destruct channel as [| | | | | | d]; try discriminate.
  all: match goal with
       | S : setitem (JDict _) "backdrop" _ = inr _ |- _ => injection S as <-
       end.
  all: match goal with
       | P : dict_pop _ "slots" = inr _ |- _ =>
           unfold dict_pop in P;
           destruct (lookup "slots" (store "backdrop" fanart_url d));
           [injection P as <- <- | discriminate P]
       end.
  - (* simulcast, and a slot is there after the search of the schedule *)
    assert (Hsim : is_simulcast (JDict d) = true).
    { unfold is_simulcast. looked_up.
      repeat match goal with E : _ = inr _ |- _ => rewrite E end.
      assumption. }
    match goal with
    | F : find_main _ _ _ _ = _ |- _ =>
        apply find_main_shape in F;
        destruct F as [(Hnone & ->) | (Hsome & slot & Hset)]
    end.
    + assert (Hown : own_slot (JDict d) = true).
      { unfold own_slot. looked_up.
        repeat match goal with E : _ = inr _ |- _ => rewrite E end.
        assumption. }
      looked_up. split; [reflexivity |]. split.
      * destruct (lookup "slot" d); [reflexivity |].
        match goal with
        | E : ok JNull = inr ?v, T : truthy ?v = true |- _ =>
            injection E as <-; discriminate T
        end.
      * intros [K | [_ K]]; congruence.
    + injection Hset as <-.
      assert (Hmatch : unmatched main_schedule (JDict d) = false).
      { unfold unmatched. looked_up.
        repeat match goal with E : _ = inr _ |- _ => rewrite E end.
        rewrite Hsome. reflexivity. }
      looked_up. split; [reflexivity |]. split; [reflexivity |].
      intros [K | [K _]]; congruence.
  - (* simulcast, and no slot after the search of the schedule *)
    match goal with
    | N : now_next _ _ _ _ _ = _ |- _ =>
        apply now_next_shape in N;
        destruct N as (d' & p1 & p2 & -> & -> & H1 & H2)
    end.
    split; [| split; [| intros _; apply two_entries_stored; assumption]].
    + match goal with
      | F : find_main _ _ _ _ = _ |- _ =>
          apply find_main_shape in F;
          destruct F as [(_ & Hsame) | (_ & slot & Hset)]
      end.
      * injection Hsame as ->. looked_up. reflexivity.
      * injection Hset as <-. looked_up. reflexivity.
    + looked_up. reflexivity.
  - (* not simulcast *)
    match goal with
    | N : now_next _ _ _ _ _ = _ |- _ =>
        apply now_next_shape in N;
        destruct N as (d' & p1 & p2 & Hd & -> & H1 & H2)
    end.
    injection Hd as <-.
    split; [| split; [| intros _; apply two_entries_stored; assumption]];
      looked_up; reflexivity.
Qed.

(** C7. A simulcast channel that has no matching entry in the main live
    schedule but arrives with a [slot] entry of its own is not given the
    two now/next entries: line 70 tests [channel.get('slot')], not whether
    the search of the schedule set one, finds the fetched entry and goes on
    to the next channel (line 71: on to the next channel if adding full
    schedule succeeded). The slot list is then the fetched one, where every
    other path overwrites a fetched [slot]. *)
Lemma fetched_slot_is_kept :
  exists out,
    fst (get_live_channels Demo.lib Demo.own_slot_world initial)
      = ok (JList [out]) /\
    is_simulcast Demo.own_slot_channel = true /\
    unmatched Demo.live_schedule Demo.own_slot_channel = true /\
    subscript out "slot"
      = ok (JList [Demo.obj [("programmeTitle", Demo.str "Kept")]]) /\
    ~ two_entries out.
Proof.
  eexists. split; [vm_compute; reflexivity |].
  repeat split.
  intros (p1 & p2 & H & _). vm_compute in H. discriminate H.
Qed.

(** Apart from a fetched [slot] of a simulcast channel,
    [get_live_channels] shapes the channels as described. Every channel
    dictionary in the list it returns has a [backdrop] key set to the
    backdrop image URL
    of the now/next data and a [slot] key; for every non-simulcast channel,
    and for every simulcast channel that has no matching entry in the main
    live schedule and arrived without a [slot] entry of its own, the slot
    list has exactly two programme entries, each with [orig_start] equal to
    [None]. *)
Theorem live_channels_slots (L : Lib) (W : World) (s : State)
    (outputs : list json) (s' : State) :
  get_live_channels L W s = (inr (JList outputs), s') ->
  exists live_data images fanart_url main_schedule inputs,
    get_json W live_url (live_params (globals s)) = ok live_data /\
    subscript live_data "images" = ok images /\
    subscript images "backdrop" = ok fanart_url /\
    get_live_schedule W = ok main_schedule /\
    subscript live_data "channels" = ok (JList inputs) /\
    Forall2 (fun channel out =>
               subscript out "backdrop" = ok fanart_url /\
               has_key "slot" out = true /\
               (is_simulcast channel = false \/
                (unmatched main_schedule channel = true /\
                 own_slot channel = false) ->
                two_entries out))
      inputs outputs.
Proof.
  unfold get_live_channels. intros H. runs H.
  match goal with
  | U : JList outputs = updated ?channels _ |- _ =>
      destruct channels as [| | | | | inputs |]; try discriminate U;
      injection U as ->
  end.
  match goal with
  | I : py_iter (JList inputs) = inr _ |- _ => injection I as <-
  end.
  match goal with
  | F : for_each _ _ _ = _ |- _ => apply for_each_ok in F; rename F into F2
  end.
  do 5 eexists.
  repeat match goal with |- _ /\ _ => split end; try eassumption.
  apply (Forall2_weaken _ _ _ _ F2).
  intros channel out (s1 & s2 & Hc).
  exact (channel_entry_shape _ _ _ _ _ _ _ _ Hc).
Qed.

Lemma live_channels_slots_witness :
  exists live_data images fanart_url main_schedule inputs,
    get_json Demo.world live_url (live_params (globals initial)) = ok live_data /\
    subscript live_data "images" = ok images /\
    subscript images "backdrop" = ok fanart_url /\
    get_live_schedule Demo.world = ok main_schedule /\
    subscript live_data "channels" = ok (JList inputs) /\
    Forall2 (fun channel out =>
               subscript out "backdrop" = ok fanart_url /\
               has_key "slot" out = true /\
               (is_simulcast channel = false \/
                (unmatched main_schedule channel = true /\
                 own_slot channel = false) ->
                two_entries out))
      inputs Demo.live_outputs.
Proof.
  apply (live_channels_slots Demo.lib Demo.world initial Demo.live_outputs
           Demo.live_state).
  vm_compute. reflexivity.
Defined.

(* ===================================================================== *)
(** * Runs on the concrete environment                                    *)
(* ===================================================================== *)

(** As in [test_search_result_with_unknown_entitytype]: of three results,
    one of an entity type the module does not list, two are yielded, and
    the third leaves a warning in the log. *)
Example search_drops_the_unknown_result :
  List.length (yields (search Demo.lib Demo.world "chase") initial) = 2 /\
  ending (search Demo.lib Demo.world "chase") initial = None /\
  records (snd (search Demo.lib Demo.world "chase" initial)) =
    [(Warning, "Unknown search result item entityType %s on search term %s",
      [JStr "video"; JStr "chase"])].
Proof. repeat split. Qed.

(** As in [test_search_with_no_results]. *)
Example search_without_data_yields_nothing :
  fst (search Demo.lib Demo.no_data "chase" initial) = ([], None).
Proof. reflexivity. Qed.

Example hidden_and_shown_programmes :
  List.length (yields (category_content Demo.lib Demo.world Demo.drama_url true)
                 initial) = 1 /\
  List.length (yields (category_content Demo.lib Demo.world Demo.drama_url false)
                 initial) = 2.
Proof. split; reflexivity. Qed.

Example fast_channel_start_times :
  map (fun channel =>
         match subscript channel "slot" with
         | inr (JList [now; next]) =>
             (subscript now "startTime", subscript next "startTime")
         | _ => (throw ValueError, throw ValueError)
         end)
      (skipn 1 Demo.live_outputs)
  = [(ok (JStr "19:30"), ok (JStr "21:00"))].
Proof. vm_compute. reflexivity. Qed.

Example playlist_of_episode_page :
  fst (get_playlist_url_from_episode_page Demo.episode_site
         "https://www.itv.com/watch/chasing-gold/10a1234" initial)
  = ok ("https://magni.itv.com/playlist/itvonline/ITV/10_1234_0001.001", "").
Proof. vm_compute. reflexivity. Qed.

Example playlist_missing_from_page :
  search_video_id "<html><body>Not found</body></html>" = None.
Proof. reflexivity. Qed.

(* ===================================================================== *)
(** * Further properties: the address of a page                           *)
(* ===================================================================== *)

Lemma page_url_absolute (url : string) :
  startswith "https://" url = false ->
  page_url ("https://www.itv.com" ++ url) = page_url url.
Proof.
  intros H. unfold page_url at 2. rewrite H. reflexivity.
Qed.

Lemma page_url_fixed (url : string) : page_url (page_url url) = page_url url.
Proof.
  destruct (startswith "https://" url) eqn:E.
  - unfold page_url. rewrite E, E. reflexivity.
  - rewrite <- (page_url_absolute url E) at 2.
    unfold page_url at 2. rewrite E. reflexivity.
Qed.

(** X1. A path and the absolute URL made of it fetch the same page with the
    same request: [get_page_data] of ['https://www.itv.com' + url] does what
    [get_page_data] of [url] does, for every [url] that does not itself
    start with ['https://']. Nothing but that exact prefix counts as
    absolute: a URL that starts with ['http://'] is taken for a path and
    asked for as ['https://www.itv.comhttp://...']. *)
Theorem get_page_data_absolute (L : Lib) (W : World) (url : string) (s : State) :
  startswith "https://" url = false ->
  get_page_data L W ("https://www.itv.com" ++ url) s = get_page_data L W url s /\
  forall rest,
    snd (get_page_data L W ("http://" ++ rest) s) =
    issue (GetDocument ("https://www.itv.comhttp://" ++ rest)) s.
Proof.
  intros H. split.
  - rewrite !get_page_data_run. unfold page.
    rewrite (page_url_absolute url H). reflexivity.
  - intros rest. rewrite get_page_data_run. reflexivity.
Qed.

Lemma get_page_data_absolute_witness :
  get_page_data Demo.lib Demo.world
    ("https://www.itv.com" ++ "/watch/categories") initial =
  get_page_data Demo.lib Demo.world "/watch/categories" initial /\
  forall rest,
    snd (get_page_data Demo.lib Demo.world ("http://" ++ rest) initial) =
    issue (GetDocument ("https://www.itv.comhttp://" ++ rest)) initial.
Proof.
  exact (get_page_data_absolute Demo.lib Demo.world "/watch/categories" initial
           eq_refl).
Defined.

(* ===================================================================== *)
(** * Further properties: requests                                        *)
(* ===================================================================== *)

Section Asks.

Lemma asks_ret {A} (a : A) : asks (ret a) [].
Proof. intros s. simpl. rewrite app_nil_r. reflexivity. Qed.

Lemma asks_lift {A} (r : result A) : asks (lift r) [].
Proof. intros s. simpl. rewrite app_nil_r. reflexivity. Qed.

Lemma asks_read {A} (f : Globals -> A) : asks (read f) [].
Proof. intros s. simpl. rewrite app_nil_r. reflexivity. Qed.

Lemma asks_tick : asks tick [].
Proof. intros s. simpl. rewrite app_nil_r. reflexivity. Qed.

Lemma asks_logger lv msg args : asks (logger lv msg args) [].
Proof. intros s. simpl. rewrite app_nil_r. reflexivity. Qed.

(** Statements that ask for nothing, one after the other. *)
Lemma asks_bind {A B} (m : M A) (k : A -> M B) :
  asks m [] -> (forall a, asks (k a) []) -> asks (bind m k) [].
Proof.
  intros Hm Hk s. unfold bind. specialize (Hm s).
  destruct (m s) as [[e | a] s1]; simpl in *.
  - exact Hm.
  - rewrite Hk, Hm, !app_nil_r. reflexivity.
Qed.

(** A statement that asks, followed by statements that do not. *)
Lemma asks_first {A B} (m : M A) (k : A -> M B) (qs : list request) :
  asks m qs -> (forall a, asks (k a) []) -> asks (bind m k) qs.
Proof.
  intros Hm Hk s. unfold bind. specialize (Hm s).
  destruct (m s) as [[e | a] s1]; simpl in *.
  - exact Hm.
  - rewrite Hk, Hm, app_nil_r. reflexivity.
Qed.

Lemma asks_for_each (body : json -> M json) xs :
  (forall x, asks (body x) []) -> asks (for_each xs body) [].
Proof.
  intros Hb. induction xs as [| x r IH]; intros s.
  - simpl. rewrite app_nil_r. reflexivity.
  - simpl. specialize (Hb x s).
    destruct (body x s) as [[e | y] s1]; simpl in *.
    + exact Hb.
    + specialize (IH s1).
      destruct (for_each r body s1) as [[e | ys] s2]; simpl in *;
        rewrite IH, Hb, !app_nil_r; reflexivity.
Qed.

Lemma gen_asks_first {A} (m : M A) (k : A -> Gen) (qs : list request) :
  asks m qs -> (forall a, gen_asks (k a) []) -> gen_asks (gen_bind m k) qs.
Proof.
  intros Hm Hk s. unfold gen_bind. specialize (Hm s).
  destruct (m s) as [[e | a] s1]; simpl in *.
  - exact Hm.
  - rewrite Hk, Hm, app_nil_r. reflexivity.
Qed.

Lemma gen_asks_for (body : json -> M (option json)) xs :
  (forall x, asks (body x) []) -> gen_asks (gen_for xs body) [].
Proof.
  intros Hb. induction xs as [| x r IH]; intros s.
  - simpl. rewrite app_nil_r. reflexivity.
  - simpl. specialize (Hb x s).
    destruct (body x s) as [[e | [y |]] s1]; simpl in *.
    + exact Hb.
    + specialize (IH s1).
      destruct (gen_for r body s1) as [[ys e] s2]; simpl in *.
      rewrite IH, Hb, !app_nil_r. reflexivity.
    + rewrite IH, Hb, !app_nil_r. reflexivity.
Qed.

Lemma gen_asks_done : gen_asks gen_done [].
Proof. intros s. simpl. rewrite app_nil_r. reflexivity. Qed.

End Asks.

(** Goes through statements that call the fetch layer for nothing. *)
Ltac asks_nothing :=
  repeat first
    [ apply asks_ret | apply asks_lift | apply asks_read | apply asks_tick
    | apply asks_logger
    | apply asks_bind; [ | intros ? ]
    | apply asks_for_each; intros ?
    | apply (gen_asks_first _ _ []); [ | intros ? ]
    | apply gen_asks_for; intros ?
    | apply gen_asks_done
    | match goal with
      | |- asks (if ?b then _ else _) _ => destruct b
      | |- asks (match ?x with (_, _) => _ end) _ => destruct x
      | |- asks (match ?x with Some _ => _ | None => _ end) _ => destruct x
      | |- gen_asks (match ?x with JNull => _ | _ => _ end) _ => destruct x
      end
    | progress cbv zeta ].

Section RequestsOfFunctions.

Variable L : Lib.
Variable W : World.

Lemma get_page_data_asks url :
  asks (get_page_data L W url) [GetDocument (page_url url)].
Proof. intros s. rewrite get_page_data_run. reflexivity. Qed.

Lemma fetch_get_json_asks url params :
  asks (fetch_get_json W url params) [GetJson url params].
Proof. intros s. reflexivity. Qed.

Lemma fetch_get_document_asks url :
  asks (fetch_get_document W url) [GetDocument url].
Proof. intros s. reflexivity. Qed.

Lemma find_main_asks main_schedule chan_id channel :
  asks (find_main main_schedule chan_id channel) [].
Proof.
  induction main_schedule as [| main_chan rest IH]; simpl.
  - asks_nothing.
  - asks_nothing. exact IH.
Qed.

Lemma channel_entry_asks tz fanart_url main_schedule channel :
  asks (channel_entry L tz fanart_url main_schedule channel) [].
Proof.
  unfold channel_entry, now_next, programme_entry.
  asks_nothing; apply find_main_asks.
Qed.

Lemma episodes_asks url :
  asks (episodes L W url) [GetDocument (page_url url)].
Proof.
  unfold episodes, series_entry.
  apply asks_first; [apply get_page_data_asks | intros page].
  asks_nothing.
Qed.

Lemma main_page_items_asks :
  gen_asks (main_page_items L W) [GetDocument "https://www.itv.com"].
Proof.
  unfold main_page_items.
  apply gen_asks_first;
    [exact (get_page_data_asks "https://www.itv.com") | intros page].
  asks_nothing.
Qed.

Lemma categories_asks :
  gen_asks (categories L W)
    [GetDocument "https://www.itv.com/watch/categories"].
Proof.
  unfold categories.
  apply gen_asks_first;
    [exact (get_page_data_asks "https://www.itv.com/watch/categories")
    | intros page].
  asks_nothing.
Qed.

Lemma category_content_asks url hide_payed :
  gen_asks (category_content L W url hide_payed) [GetDocument (page_url url)].
Proof.
  unfold category_content, category_entry, programme_item.
  apply gen_asks_first; [apply get_page_data_asks | intros page].
  asks_nothing.
Qed.

Lemma search_asks search_term :
  gen_asks (search L W search_term)
    [GetJson search_url (query_params search_term)].
Proof.
  unfold search, search_entry, parse_programme, parse_special.
  apply gen_asks_first; [apply fetch_get_json_asks | intros data].
  asks_nothing.
Qed.

Lemma playlist_asks url :
  asks (get_playlist_url_from_episode_page W url) [GetDocument url].
Proof.
  intros s.
  unfold get_playlist_url_from_episode_page, bind, logger, fetch_get_document,
    lift, ret. simpl.
  destruct (get_document W url) as [e | html_doc]; simpl; [reflexivity |].
  destruct (search_video_id html_doc); reflexivity.
Qed.

Lemma get_live_channels_asks (s : State) :
  requests (snd (get_live_channels L W s)) =
  (requests s ++
   GetJson live_url (live_params (globals s)) ::
   (if reaches_schedule (get_json W live_url (live_params (globals s)))
    then [GetLiveSchedule] else []))%list.
Proof.
  unfold get_live_channels, bind, read, fetch_get_json, itv_get_live_schedule,
    lift, live_url, live_params, reaches_schedule. simpl.
  destruct (get_json W _ _) as [e | live_data]; simpl; [reflexivity |].
  destruct (subscript live_data "images") as [e | images]; simpl;
    [reflexivity |].
  destruct (subscript images "backdrop") as [e | fanart_url]; simpl;
    [reflexivity |].
  assert (Htwo : forall l : list request, forall a b,
             ((l ++ [a]) ++ [b] = l ++ [a; b])%list).
  { intros l a b. rewrite <- app_assoc. reflexivity. }
  destruct (get_live_schedule W) as [e | main_schedule]; simpl;
    [apply Htwo |].
  destruct (subscript live_data "channels") as [e | channels]; simpl;
    [apply Htwo |].
  destruct (py_iter channels) as [e | elements]; simpl; [apply Htwo |].
  match goal with
  | |- context [for_each elements ?body ?s0] =>
      pose proof (asks_for_each body elements
                    (channel_entry_asks (get_localzone W) fanart_url
                       main_schedule) s0) as H;
      destruct (for_each elements body s0) as [[e | out] s1]
  end; simpl in *; rewrite H, app_nil_r; apply Htwo.
Qed.

End RequestsOfFunctions.

(** X2. A listing costs one request however many items it has: [episodes],
    [categories], [category_content], [main_page_items] and [search] call
    the fetch layer once, for their page or for the search, and never again
    while they go through the series, episodes, programmes or results, also
    when they end with an exception. [get_playlist_url_from_episode_page]
    asks once for the episode page. [get_live_channels] asks for the
    now/next data and, only if that has arrived with a backdrop image under
    [images], once for the live schedule, whatever the number of
    channels. *)
Theorem one_request_per_listing (L : Lib) (W : World) (s : State) :
  (forall url,
     requests (snd (episodes L W url s)) =
     (requests s ++ [GetDocument (page_url url)])%list) /\
  requests (snd (categories L W s)) =
    (requests s ++ [GetDocument "https://www.itv.com/watch/categories"])%list /\
  (forall url hide_payed,
     requests (snd (category_content L W url hide_payed s)) =
     (requests s ++ [GetDocument (page_url url)])%list) /\
  requests (snd (main_page_items L W s)) =
    (requests s ++ [GetDocument "https://www.itv.com"])%list /\
  (forall search_term,
     requests (snd (search L W search_term s)) =
     (requests s ++ [GetJson search_url (query_params search_term)])%list) /\
  (forall episode_page,
     requests (snd (get_playlist_url_from_episode_page W episode_page s)) =
     (requests s ++ [GetDocument episode_page])%list) /\
  requests (snd (get_live_channels L W s)) =
    (requests s ++
     GetJson live_url (live_params (globals s)) ::
     (if reaches_schedule (get_json W live_url (live_params (globals s)))
      then [GetLiveSchedule] else []))%list.
Proof.
  repeat match goal with |- _ /\ _ => split end; intros.
  - apply episodes_asks.
  - apply categories_asks.
  - apply category_content_asks.
  - apply main_page_items_asks.
  - apply search_asks.
  - apply playlist_asks.
  - apply get_live_channels_asks.
Qed.

(* ===================================================================== *)
(** * Further properties: the playlist of an episode page                 *)
(* ===================================================================== *)

Section VideoId.

Lemma prefix_drop (p s : string) :
  prefix p s = true -> s = p ++ drop (String.length p) s.
Proof.
  revert s. induction p as [| a p IH]; intros s H.
  - reflexivity.
  - destruct s as [| b s]; simpl in H; [discriminate H |].
    destruct (ascii_dec a b) as [<- |]; [| discriminate H].
    simpl. f_equal. exact (IH s H).
Qed.

Lemma until_quote_found (s g : string) :
  until_quote s = Some g ->
  exists after,
    s = g ++ String dquote after /\
    lacks newline g = true /\ lacks dquote g = true.
Proof.
  revert g. induction s as [| c r IH]; simpl; intros g H.
  - discriminate H.
  - destruct (Ascii.eqb c dquote) eqn:Eq.
    + injection H as <-. apply Ascii.eqb_eq in Eq. subst c.
      exists r. repeat split.
    + destruct (Ascii.eqb c newline) eqn:En; [discriminate H |].
      destruct (until_quote r) as [g' |]; [| discriminate H].
      injection H as <-.
      destruct (IH g' eq_refl) as (after & -> & Hn & Hq).
      exists after. simpl. rewrite En, Eq, Hn, Hq. repeat split.
Qed.

Lemma group_at_found (s g : string) :
  group_at s = Some g ->
  exists c tail after,
    g = String c tail /\
    s = g ++ String dquote after /\
    lacks newline g = true /\ lacks dquote tail = true.
Proof.
  destruct s as [| c r]; simpl; intros H.
  - discriminate H.
  - destruct (Ascii.eqb c newline) eqn:En; [discriminate H |].
    destruct (until_quote r) as [g' |] eqn:E; [| discriminate H].
    injection H as <-.
    destruct (until_quote_found r g' E) as (after & -> & Hn & Hq).
    exists c, g', after. simpl. rewrite En, Hn. repeat split. exact Hq.
Qed.

Lemma search_video_id_found (s g : string) :
  search_video_id s = Some g ->
  exists before rest,
    s = before ++ video_id_key ++ rest /\ group_at rest = Some g.
Proof.
  induction s as [| c r IH]; intros H.
  - discriminate H.
  - cbn [search_video_id] in H.
    assert (Later : search_video_id r = Some g ->
            exists before rest,
              String c r = before ++ video_id_key ++ rest /\
              group_at rest = Some g).
    { intros Hr. destruct (IH Hr) as (before & rest & -> & Hg).
      exists (String c before), rest. split; [reflexivity | exact Hg]. }
    destruct (prefix video_id_key (String c r)) eqn:P; [| exact (Later H)].
    destruct (group_at (drop (String.length video_id_key) (String c r)))
      as [g' |] eqn:G; [| exact (Later H)].
    injection H as <-.
    exists EmptyString, (drop (String.length video_id_key) (String c r)).
    split; [| exact G].
    exact (prefix_drop _ _ P).
Qed.

Lemma search_video_id_absent (s : string) :
  occurs video_id_key s = false -> search_video_id s = None.
Proof.
  induction s as [| c r IH]; intros H.
  - reflexivity.
  - cbn [occurs] in H. apply orb_false_elim in H. destruct H as [P O].
    cbn [search_video_id]. rewrite P. exact (IH O).
Qed.

End VideoId.





(** X5. [get_playlist_url_from_episode_page] logs what it is about to do
    before it fetches, and logs the retrieval only when the fetch has
    returned: after a failed fetch the log has gained the one record of
    level info, after a successful one that record and the record of level
    debug, whether or not a playlist is then found in the page. *)
Theorem playlist_log (W : World) (episode_page : string) (s : State) :
  records (snd (get_playlist_url_from_episode_page W episode_page s)) =
  (records s ++
   playlist_info episode_page ::
   match get_document W episode_page with
   | inr _ => [playlist_debug episode_page]
   | inl _ => []
   end)%list.
Proof.
  unfold get_playlist_url_from_episode_page, bind, logger, fetch_get_document,
    lift, ret, playlist_info, playlist_debug. simpl.
  destruct (get_document W episode_page) as [e | html_doc]; simpl;
    [reflexivity |].
  destruct (search_video_id html_doc); simpl; rewrite <- app_assoc; reflexivity.
Qed.

(* ===================================================================== *)
(** * Further properties: items in page order                             *)
(* ===================================================================== *)

Section Collect.

Lemma gen_for_collect (body : json -> M (option json))
    (f : json -> result json) xs :
  (forall x s,
     fst (body x s) =
     match f x with inr y => inr (Some y) | inl e => inl e end) ->
  forall s, fst (gen_for xs body s) = collect f xs.
Proof.
  intros Hb. induction xs as [| x r IH]; intros s.
  - reflexivity.
  - simpl. specialize (Hb x s).
    destruct (body x s) as [[e | [y |]] s1]; simpl in Hb;
      destruct (f x) as [e' | y']; try discriminate Hb.
    + injection Hb as ->. reflexivity.
    + injection Hb as ->. specialize (IH s1).
      destruct (gen_for r body s1) as [[ys e] s2]. simpl in IH.
      rewrite <- IH. reflexivity.
Qed.

Lemma collect_all (f : json -> result json) xs :
  Forall (fun x => exists y, f x = inr y) xs ->
  snd (collect f xs) = None /\
  List.length (fst (collect f xs)) = List.length xs.
Proof.
  induction 1 as [| x r (y & Hy) _ IH]; simpl.
  - split; reflexivity.
  - rewrite Hy. destruct (collect f r) as [ys e]. simpl in *.
    destruct IH as [-> ->]. split; reflexivity.
Qed.

Lemma collect_bounded (f : json -> result json) xs :
  List.length (fst (collect f xs)) <= List.length xs.
Proof.
  induction xs as [| x r IH]; simpl.
  - lia.
  - destruct (f x); simpl; [lia |].
    destruct (collect f r) as [ys e]. simpl in *. lia.
Qed.

End Collect.

(** X6. [categories] lists the categories in the order of the page, one
    item per entry of [subnav.items] with the entry's [name] as label and
    its [url] as path; at the first entry that lacks one of the two it ends
    with that [KeyError], having yielded the items of the entries before
    it. When every entry has both, it ends normally with as many items as
    the page has entries. *)
Theorem categories_in_page_order (L : Lib) (W : World) (s : State)
    (data subnav cat_list : json) (cats : list json) :
  page L W "https://www.itv.com/watch/categories" = ok data ->
  subscript data "subnav" = ok subnav ->
  subscript subnav "items" = ok cat_list ->
  py_iter cat_list = ok cats ->
  fst (categories L W s) = collect category_item cats /\
  (Forall (fun cat => exists y, category_item cat = inr y) cats ->
   ending (categories L W) s = None /\
   List.length (yields (categories L W) s) = List.length cats).
Proof.
  intros Hp Hs Hi Hc.
  assert (E : fst (categories L W s) = collect category_item cats).
  { unfold categories, gen_bind. rewrite get_page_data_run, Hp. simpl.
    unfold lift. rewrite Hs. simpl. rewrite Hi. simpl. rewrite Hc.
    apply gen_for_collect. intros cat s0.
    unfold bind, tick, lift, ret, category_item. simpl.
    destruct (subscript cat "name"); simpl; [reflexivity |].
    destruct (subscript cat "url"); reflexivity. }
  split; [exact E |].
  intros Hall. unfold ending, yields. rewrite E.
  exact (collect_all _ _ Hall).
Qed.

Lemma categories_in_page_order_witness :
  fst (categories Demo.lib Demo.world initial) =
    collect category_item
      [Demo.obj [("name", Demo.str "Drama & Soaps");
                 ("url", Demo.str "/watch/categories/drama-soaps")];
       Demo.obj [("name", Demo.str "Films");
                 ("url", Demo.str "/watch/categories/films")]] /\
  (Forall (fun cat => exists y, category_item cat = inr y)
     [Demo.obj [("name", Demo.str "Drama & Soaps");
                ("url", Demo.str "/watch/categories/drama-soaps")];
      Demo.obj [("name", Demo.str "Films");
                ("url", Demo.str "/watch/categories/films")]] ->
   ending (categories Demo.lib Demo.world) initial = None /\
   List.length (yields (categories Demo.lib Demo.world) initial) = 2).
Proof.
  apply (categories_in_page_order Demo.lib Demo.world initial
           Demo.categories_page
           (Demo.obj [("items",
              JList [Demo.obj [("name", Demo.str "Drama & Soaps");
                               ("url", Demo.str "/watch/categories/drama-soaps")];
                     Demo.obj [("name", Demo.str "Films");
                               ("url", Demo.str "/watch/categories/films")]])])
           (JList [Demo.obj [("name", Demo.str "Drama & Soaps");
                             ("url", Demo.str "/watch/categories/drama-soaps")];
                   Demo.obj [("name", Demo.str "Films");
                             ("url", Demo.str "/watch/categories/films")]]));
    reflexivity.
Defined.

(** X7. [main_page_items] yields what [parsex.parse_hero_content] makes of
    the entries of [heroContent], in the order of the page; when the parser
    raises on an entry the generator ends with that exception, and the
    items of the entries before it have been yielded. It never yields more
    items than the page has entries. *)
Theorem main_page_items_in_page_order (L : Lib) (W : World) (s : State)
    (main_data hero_content : json) (heroes : list json) :
  page L W "https://www.itv.com" = ok main_data ->
  subscript main_data "heroContent" = ok hero_content ->
  py_iter hero_content = ok heroes ->
  fst (main_page_items L W s) = collect (parse_hero_content L) heroes /\
  List.length (yields (main_page_items L W) s) <= List.length heroes.
Proof.
  intros Hp Hh Hi.
  assert (E : fst (main_page_items L W s)
              = collect (parse_hero_content L) heroes).
  { unfold main_page_items, gen_bind.
    rewrite (get_page_data_run L W "https://www.itv.com" s), Hp. simpl.
    unfold lift. rewrite Hh. simpl. rewrite Hi.
    apply gen_for_collect. intros hero s0.
    unfold bind, tick, lift, ret. simpl.
    destruct (parse_hero_content L hero); reflexivity. }
  split; [exact E |].
  unfold yields. rewrite E. apply collect_bounded.
Qed.

Lemma main_page_items_in_page_order_witness :
  fst (main_page_items Demo.home_lib Demo.episode_site initial) =
    collect (parse_hero_content Demo.home_lib)
      [Demo.obj [("title", Demo.str "Vera")];
       Demo.obj [("title", Demo.str "Marple")]] /\
  List.length (yields (main_page_items Demo.home_lib Demo.episode_site) initial)
    <= 2.
Proof.
  apply (main_page_items_in_page_order Demo.home_lib Demo.episode_site initial
           Demo.main_page
           (JList [Demo.obj [("title", Demo.str "Vera")];
                   Demo.obj [("title", Demo.str "Marple")]]));
    reflexivity.
Defined.

(* ===================================================================== *)
(** * Further properties: search                                          *)
(* ===================================================================== *)

Section SearchLog.

Variable L : Lib.

Lemma parse_programme_state prg_data s y s' :
  parse_programme L prg_data s = (inr y, s') -> s' = s.
Proof. unfold parse_programme. intros H. runs H. reflexivity. Qed.

Lemma parse_special_state program_data prg_data s y s' :
  parse_special L program_data prg_data s = (inr y, s') -> s' = s.
Proof. unfold parse_special. intros H. runs H. reflexivity. Qed.

(** One pass of the loop either yields an item and logs nothing, or
    yields nothing and logs the warning. *)
Lemma search_entry_log search_term result s o s' :
  search_entry L search_term result s = (inr o, s') ->
  (exists y, o = Some y /\ records s' = records s) \/
  (o = None /\
   exists w, is_type_warning search_term w /\
             records s' = (records s ++ [w])%list).
Proof.
  unfold search_entry. intros H. runs H.
  - left.
    match goal with
    | P : parse_programme _ _ _ = _ |- _ =>
        apply parse_programme_state in P; subst
    end.
    eexists. split; reflexivity.
  - left.
    match goal with
    | P : parse_special _ _ _ _ = _ |- _ =>
        apply parse_special_state in P; subst
    end.
    eexists. split; reflexivity.
  - right. split; [reflexivity |].
    eexists. split; [| reflexivity].
    eexists. split; [| reflexivity].
    unfold known_type.
    repeat match goal with E : py_eq _ _ = false |- _ => rewrite E end.
    reflexivity.
Qed.

Lemma search_loop_log search_term rs :
  forall s,
    ending (gen_for rs (search_entry L search_term)) s = None ->
    exists warnings,
      records (snd (gen_for rs (search_entry L search_term) s)) =
        (records s ++ warnings)%list /\
      List.length (yields (gen_for rs (search_entry L search_term)) s)
        + List.length warnings = List.length rs /\
      Forall (is_type_warning search_term) warnings.
Proof.
  unfold ending, yields. induction rs as [| r rest IH]; intros s H.
  - exists []. simpl. rewrite app_nil_r. repeat split. constructor.
  - simpl in *.
    destruct (search_entry L search_term r s) as [[e | o] s1] eqn:E;
      [discriminate H |].
    apply search_entry_log in E.
    destruct E as [(y & -> & Hr) | (-> & w & Hw & Hr)].
    + specialize (IH s1).
      destruct (gen_for rest (search_entry L search_term) s1)
        as [[ys e] s2]. simpl in *.
      destruct (IH H) as (warnings & Hrec & Hlen & Hall).
      exists warnings. rewrite Hrec, Hr. repeat split; [lia | exact Hall].
    + destruct (IH s1 H) as (warnings & Hrec & Hlen & Hall).
      exists (w :: warnings). rewrite Hrec, Hr, <- app_assoc. simpl.
      repeat split; [lia | constructor; assumption].
Qed.

Lemma search_item_params search_term result s y s' :
  search_entry L search_term result s = (inr (Some y), s') ->
  exists label url,
    subscript y "label" = ok label /\
    param y "name" = ok label /\
    param y "url" = ok (JStr url).
Proof.
  unfold search_entry. intros H. runs H; try congruence.
  - match goal with
    | P : parse_programme _ _ _ = _ |- _ =>
        unfold parse_programme in P; runs P
    end.
    match goal with
    | F : format_method _ _ [_] [] = inr ?u |- _ =>
        unfold format_method in F;
        destruct (str_format L _ _ _); [discriminate F |];
        injection F as <-
    end.
    eexists. eexists. repeat split.
  - match goal with
    | P : parse_special _ _ _ _ = _ |- _ =>
        unfold parse_special in P; runs P
    end.
    match goal with
    | C : concat_str _ ?v = inr _ |- _ =>
        destruct v; try discriminate C; injection C as <-
    end.
    eexists. eexists. repeat split.
Qed.

End SearchLog.

(** X8. A search that runs to its end accounts for every result: each
    result either gives one item or is passed over with one warning in the
    log, so the items yielded and the warnings logged together are as many
    as the results; every warning is about an entity type other than
    ['programme'] and ['special'], and nothing else is logged. *)
Theorem search_accounts_for_results (L : Lib) (W : World)
    (search_term : string) (s : State) (data results : json)
    (rs : list json) :
  get_json W search_url (query_params search_term) = ok data ->
  dict_get data "results" JNull = ok results ->
  py_iter results = ok rs ->
  ending (search L W search_term) s = None ->
  exists warnings,
    records (snd (search L W search_term s)) = (records s ++ warnings)%list /\
    List.length (yields (search L W search_term) s) + List.length warnings
      = List.length rs /\
    Forall (is_type_warning search_term) warnings.
Proof.
  intros Hj Hr Hi.
  assert (E : search L W search_term s =
              gen_for rs (search_entry L search_term)
                (issue (GetJson search_url (query_params search_term)) s)).
  { unfold search, gen_bind, fetch_get_json. rewrite Hj. simpl.
    destruct data; try discriminate Hr.
    unfold lift. rewrite Hr. simpl. rewrite Hi. reflexivity. }
  unfold ending, yields. rewrite E. intros H.
  exact (search_loop_log L search_term rs _ H).
Qed.

Lemma search_accounts_for_results_witness :
  exists warnings,
    records (snd (search Demo.lib Demo.world "chase" initial))
      = (records initial ++ warnings)%list /\
    List.length (yields (search Demo.lib Demo.world "chase") initial)
      + List.length warnings = 3 /\
    Forall (is_type_warning "chase") warnings.
Proof.
  apply (search_accounts_for_results Demo.lib Demo.world "chase" initial
           Demo.search_results
           (JList [Demo.programme_result; Demo.video_result;
                   Demo.special_result])
           [Demo.programme_result; Demo.video_result; Demo.special_result]);
    reflexivity.
Defined.

(** X9. Every item [search] yields names itself in its parameters: the
    [name] under [params] is the item's [label], and the [url] under
    [params] is a string. *)
Theorem search_items_name_themselves (L : Lib) (W : World)
    (search_term : string) (s : State) (y : json) :
  In y (yields (search L W search_term) s) ->
  exists label url,
    subscript y "label" = ok label /\
    param y "name" = ok label /\
    param y "url" = ok (JStr url).
Proof.
  unfold search, yields. intros H.
  apply gen_bind_yields in H. destruct H as (data & s1 & _ & H).
  assert (K : In y (fst (fst
                (gen_bind (lift (dict_get data "results" JNull))
                   (fun results =>
                      gen_bind (lift (py_iter results))
                        (fun results' =>
                           gen_for results' (search_entry L search_term)))
                   s1)))).
  { destruct data; exact H. }
  clear H.
  apply gen_bind_yields in K. destruct K as (results & s2 & _ & K).
  apply gen_bind_yields in K. destruct K as (rs & s3 & _ & K).
  refine (gen_for_yields (search_entry L search_term)
            (fun y => exists label url,
               subscript y "label" = ok label /\
               param y "name" = ok label /\
               param y "url" = ok (JStr url))
            rs _ s3 y K).
  intros result s0 y0 s0' _ Hx.
  exact (search_item_params L _ _ _ _ _ Hx).
Qed.

Lemma search_items_name_themselves_witness :
  exists label url,
    subscript Demo.first_search_item "label" = ok label /\
    param Demo.first_search_item "name" = ok label /\
    param Demo.first_search_item "url" = ok (JStr url).
Proof.
  apply (search_items_name_themselves Demo.lib Demo.world "chase" initial).
  vm_compute. left. reflexivity.
Defined.

(** X10. Only an answer that is [None] counts as no data. An answer that
    is a dictionary without [results] is not taken for an empty result
    list: [search] goes on to iterate over the [None] that [get] gives and
    ends with [TypeError], having yielded nothing. *)
Theorem search_without_results_raises (L : Lib) (W : World)
    (search_term : string) (s : State) (d : dict) :
  get_json W search_url (query_params search_term) = ok (JDict d) ->
  lookup "results" d = None ->
  fst (search L W search_term s) = ([], Some TypeError).
Proof.
  intros Hj Hr. unfold search, gen_bind, fetch_get_json. rewrite Hj. simpl.
  rewrite Hr. reflexivity.
Qed.

Lemma search_without_results_raises_witness :
  fst (search Demo.lib (Demo.answering (Demo.obj []) JNull) "chase" initial)
  = ([], Some TypeError).
Proof.
  apply (search_without_results_raises Demo.lib
           (Demo.answering (Demo.obj []) JNull) "chase" initial []);
    reflexivity.
Defined.

Section ProductionId.

Lemma replace_lacks (a b : ascii) (s : string) :
  Ascii.eqb b a = false -> lacks a (replace a b s) = true.
Proof.
  intros Hab. induction s as [| c r IH]; simpl.
  - reflexivity.
  - rewrite IH. destruct (Ascii.eqb c a) eqn:E; simpl.
    + rewrite Hab. reflexivity.
    + rewrite E. reflexivity.
Qed.

Lemma replace_keeps_lacks (a b c : ascii) (s : string) :
  Ascii.eqb b c = false -> lacks c s = true -> lacks c (replace a b s) = true.
Proof.
  intros Hbc. induction s as [| x r IH]; simpl; intros H.
  - reflexivity.
  - apply andb_prop in H. destruct H as [Hx Hr]. rewrite (IH Hr).
    destruct (Ascii.eqb x a); [rewrite Hbc | rewrite Hx]; reflexivity.
Qed.

Lemma replace_length (a b : ascii) (s : string) :
  String.length (replace a b s) = String.length s.
Proof. induction s; simpl; congruence. Qed.

Lemma api_prod_id_clean (production_id : string) :
  lacks "/" (api_prod_id production_id) = true /\
  lacks "#" (api_prod_id production_id) = true /\
  String.length (api_prod_id production_id) = String.length production_id.
Proof.
  unfold api_prod_id. repeat split.
  - apply replace_keeps_lacks; [reflexivity |].
    apply replace_lacks. reflexivity.
  - apply replace_lacks. reflexivity.
  - rewrite !replace_length. reflexivity.
Qed.

End ProductionId.

(** What [search] makes of one result, when it is an item of entity type
    ['special']. *)
Lemma search_entry_special (L : Lib) search_term result s y s' :
  search_entry L search_term result s = (inr (Some y), s') ->
  subscript y "entity_type" = ok (JStr "special") ->
  exists label production_id,
    special_with result label production_id /\
    subscript y "label" = ok label /\
    param y "url" = ok (JStr (playlist_base ++ api_prod_id production_id)).
Proof.
  intros Hx. unfold search_entry in Hx. runs Hx; try congruence.
  - match goal with
    | P : parse_programme _ _ _ = _ |- _ =>
        unfold parse_programme in P; runs P
    end.
    intros Hs. discriminate Hs.
  - match goal with
    | P : parse_special _ _ _ _ = _ |- _ =>
        unfold parse_special in P; runs P
    end.
    intros _.
    repeat match goal with
           | R : replace_method _ _ ?v = inr _ |- _ =>
               destruct v; try discriminate R; injection R as <-
           end.
    match goal with
    | C : concat_str _ (JStr (replace _ _ (replace _ _ ?pid))) = inr _,
      T : subscript _ "specialTitle" = inr ?t |- _ =>
        injection C as <-; exists t, pid
    end.
    split; [| split; reflexivity].
    do 2 eexists.
    repeat match goal with |- _ /\ _ => split end; eassumption.
Qed.

(** X11. The playlist URL of a special is made of the production id of its
    search result: every item of entity type ['special'] that [search]
    yields comes from a result of the answer that is of that type, has the
    [specialTitle] of the result's data as label, and has as [url] the
    playlist address followed by the [productionId] of the result's data in
    which every ['/'] has become ['_'] and every ['#'] has become ['.'], so
    that what follows the address has neither ['/'] nor ['#'] and is as
    long as the production id. *)
Theorem special_playlist_url (L : Lib) (W : World) (search_term : string)
    (s : State) (y : json) :
  In y (yields (search L W search_term) s) ->
  subscript y "entity_type" = ok (JStr "special") ->
  exists data results rs result label production_id,
    get_json W search_url (query_params search_term) = ok data /\
    dict_get data "results" JNull = ok results /\
    py_iter results = ok rs /\
    In result rs /\
    special_with result label production_id /\
    subscript y "label" = ok label /\
    param y "url" = ok (JStr (playlist_base ++ api_prod_id production_id)) /\
    lacks "/" (api_prod_id production_id) = true /\
    lacks "#" (api_prod_id production_id) = true /\
    String.length (api_prod_id production_id) = String.length production_id.
Proof.
  unfold search, yields. intros H Hspecial.
  apply gen_bind_yields in H. destruct H as (data & s1 & Hdata & H).
  apply fetch_get_json_ok in Hdata. destruct Hdata as [Hdata _].
  assert (K : In y (fst (fst
                (gen_bind (lift (dict_get data "results" JNull))
                   (fun results =>
                      gen_bind (lift (py_iter results))
                        (fun results' =>
                           gen_for results' (search_entry L search_term)))
                   s1)))).
  { destruct data; exact H. }
  clear H.
  apply gen_bind_yields in K. destruct K as (results & s2 & Hres & K).
  apply lift_ok in Hres. destruct Hres as [Hres _].
  apply gen_bind_yields in K. destruct K as (rs & s3 & Hrs & K).
  apply lift_ok in Hrs. destruct Hrs as [Hrs _].
  assert (F : exists result label production_id,
            In result rs /\
            special_with result label production_id /\
            subscript y "label" = ok label /\
            param y "url"
              = ok (JStr (playlist_base ++ api_prod_id production_id))).
  { refine (gen_for_yields (search_entry L search_term)
              (fun y =>
                 subscript y "entity_type" = ok (JStr "special") ->
                 exists result label production_id,
                   In result rs /\
                   special_with result label production_id /\
                   subscript y "label" = ok label /\
                   param y "url"
                     = ok (JStr (playlist_base ++ api_prod_id production_id)))
              rs _ s3 y K Hspecial).
    intros result s0 y0 s0' Hin Hx Hs.
    destruct (search_entry_special L search_term result s0 y0 s0' Hx Hs)
      as (label & production_id & Hw & Hl & Hu).
    exists result, label, production_id.
    repeat match goal with |- _ /\ _ => split end; assumption. }
  destruct F as (result & label & production_id & Hin & Hw & Hl & Hu).
  exists data, results, rs, result, label, production_id.
  repeat match goal with |- _ /\ _ => split end; try assumption;
    apply api_prod_id_clean.
Qed.

Lemma special_playlist_url_witness :
  exists data results rs result label production_id,
    get_json Demo.world search_url (query_params "chase") = ok data /\
    dict_get data "results" JNull = ok results /\
    py_iter results = ok rs /\
    In result rs /\
    special_with result label production_id /\
    subscript Demo.special_item "label" = ok label /\
    param Demo.special_item "url"
      = ok (JStr (playlist_base ++ api_prod_id production_id)) /\
    lacks "/" (api_prod_id production_id) = true /\
    lacks "#" (api_prod_id production_id) = true /\
    String.length (api_prod_id production_id) = String.length production_id.
Proof.
  apply (special_playlist_url Demo.lib Demo.world "chase" initial).
  - vm_compute. right. left. reflexivity.
  - reflexivity.
Defined.

(* ===================================================================== *)
(** * Further properties: the programmes of a category                    *)
(* ===================================================================== *)

Section Programmes.

Variable L : Lib.

Lemma programme_item_fields category prog content_info title plot is_playable
    s y s' :
  programme_item L category prog content_info title plot is_playable s
    = (inr (Some y), s') ->
  subscript y "playable" = ok (JBool is_playable) /\
  show_has "info" y "duration" = is_playable /\
  show_has "art" y "poster" = py_eq category (JStr "films").
Proof.
  unfold programme_item. intros H. runs H; repeat split.
Qed.

Lemma category_entry_fields category hide_payed prog s y s' :
  category_entry L category hide_payed prog s = (inr (Some y), s') ->
  subscript y "playable" = ok (JBool (negb (is_series prog))) /\
  show_has "info" y "duration" = negb (is_series prog) /\
  show_has "art" y "poster" = py_eq category (JStr "films").
Proof.
  unfold category_entry. intros H. runs H; try congruence;
    match goal with
    | P : programme_item _ _ _ _ _ _ _ _ = _ |- _ =>
        apply programme_item_fields in P
    end;
    unfold is_series;
    repeat match goal with
           | E : subscript prog "contentInfo" = inr _ |- _ => rewrite E
           | E : lower_method _ = inr _ |- _ => rewrite E
           end;
    assumption.
Qed.

Lemma category_entry_stateless category hide_payed prog :
  stateless (category_entry L category hide_payed prog).
Proof. unfold category_entry, programme_item. stateless_run. Qed.

(** Hiding changes nothing for a programme whose tier contains [FREE]. *)
Lemma category_entry_free category prog s :
  free_tier prog = true ->
  category_entry L category true prog s = category_entry L category false prog s.
Proof.
  unfold free_tier, category_entry, bind, tick, lift. simpl. intros H.
  destruct (subscript prog "contentInfo"); simpl; [reflexivity |].
  destruct (lower_method j); simpl; [reflexivity |].
  destruct (subscript prog "title"); simpl; [reflexivity |].
  destruct (subscript prog "tier"); simpl; [reflexivity |].
  destruct (py_in "FREE" j1) as [e | b]; simpl; [reflexivity |].
  subst b. reflexivity.
Qed.

(** A programme of another tier that is shown without hiding is passed
    over with it. *)
Lemma category_entry_hidden category prog s r s' :
  free_tier prog = false ->
  category_entry L category false prog s = (inr r, s') ->
  fst (category_entry L category true prog s) = inr None.
Proof.
  unfold free_tier, category_entry, bind, tick, lift. simpl. intros H.
  destruct (subscript prog "contentInfo"); simpl; [discriminate |].
  destruct (lower_method j); simpl; [discriminate |].
  destruct (subscript prog "title"); simpl; [discriminate |].
  destruct (subscript prog "tier"); simpl; [discriminate |].
  destruct (py_in "FREE" j1) as [e | b]; simpl; [discriminate |].
  subst b. reflexivity.
Qed.

Lemma hidden_loop category progs :
  forall s,
    ending (gen_for progs (category_entry L category false)) s = None ->
    fst (gen_for progs (category_entry L category true) s) =
    (free_only progs
       (yields (gen_for progs (category_entry L category false)) s),
     None).
Proof.
  unfold ending, yields. induction progs as [| prog rest IH]; intros s H.
  - reflexivity.
  - simpl in *.
    destruct (category_entry L category false prog s) as [[e | o] s1] eqn:E;
      [discriminate H |].
    pose proof (category_entry_shape L category false prog s o s1 E) as Shape.
    destruct Shape as [(Hf & y & -> & _)
                      | [(_ & K & _) | (Hf & _ & y & -> & _)]];
      try discriminate K.
    + rewrite (category_entry_free category prog s Hf), E.
      specialize (IH s1).
      destruct (gen_for rest (category_entry L category false) s1)
        as [[ys e] s2]. simpl in *. subst e.
      destruct (gen_for rest (category_entry L category true) s1)
        as [[ys' e'] s2']. simpl in *.
      rewrite Hf. specialize (IH eq_refl). injection IH as -> ->. reflexivity.
    + pose proof (category_entry_hidden category prog s _ _ Hf E) as Hid.
      destruct (category_entry L category true prog s) as [[e | o] s1'];
        simpl in Hid; try discriminate Hid. injection Hid as ->.
      rewrite (stateless_gen_for (category_entry L category true) rest
                 (category_entry_stateless category true) s1' s1).
      specialize (IH s1).
      destruct (gen_for rest (category_entry L category false) s1)
        as [[ys e] s2]. simpl in *. subst e.
      rewrite Hf. exact (IH eq_refl).
Qed.

End Programmes.

(** X12. What an item of [category_content] says of itself follows from
    the programme it shows: it is [playable] unless the content info of the
    programme, in lower case, starts with ['series']; it has a [duration]
    in its info exactly when it is playable; and it has a [poster] in its
    art exactly when the category of the page is ['films']. *)
Theorem category_item_fields (L : Lib) (W : World) (url : string)
    (hide_payed : bool) (s : State) (y : json) :
  In y (yields (category_content L W url hide_payed) s) ->
  exists cat_data cat category progr_list progs prog,
    page L W url = ok cat_data /\
    subscript cat_data "category" = ok cat /\
    subscript cat "pathSegment" = ok category /\
    dict_get cat_data "programmes" JNull = ok progr_list /\
    py_iter progr_list = ok progs /\
    In prog progs /\
    item_of prog y /\
    subscript y "playable" = ok (JBool (negb (is_series prog))) /\
    show_has "info" y "duration" = negb (is_series prog) /\
    show_has "art" y "poster" = py_eq category (JStr "films").
Proof.
  unfold category_content, yields. intros H.
  apply gen_bind_yields in H. destruct H as (cat_data & s1 & Hpage & H).
  apply gen_bind_yields in H. destruct H as (cat & s2 & Hcat & H).
  apply gen_bind_yields in H. destruct H as (category & s3 & Hseg & H).
  apply gen_bind_yields in H. destruct H as (progr_list & s4 & Hget & H).
  apply gen_bind_yields in H. destruct H as (progs & s5 & Hiter & H).
  apply lift_ok in Hcat. destruct Hcat as [Hcat _].
  apply lift_ok in Hseg. destruct Hseg as [Hseg _].
  apply lift_ok in Hget. destruct Hget as [Hget _].
  apply lift_ok in Hiter. destruct Hiter as [Hiter _].
  exists cat_data, cat, category, progr_list, progs.
  refine (gen_for_yields (category_entry L category hide_payed)
            (fun y => exists prog, _ /\ _ /\ _ /\ _ /\ _ /\ In prog progs /\
               item_of prog y /\
               subscript y "playable" = ok (JBool (negb (is_series prog))) /\
               show_has "info" y "duration" = negb (is_series prog) /\
               show_has "art" y "poster" = py_eq category (JStr "films"))
            progs _ s5 y H).
  intros prog s0 y0 s0' Hin Hx. exists prog.
  pose proof (category_entry_fields L _ _ _ _ _ _ Hx) as (Hp & Hd & Ha).
  apply category_entry_shape in Hx.
  assert (Hi : item_of prog y0).
  { destruct Hx as [(_ & y1 & E & _ & Hi & _)
                   | [(_ & _ & E) | (_ & _ & y1 & E & _ & Hi & _)]];
      try discriminate E; injection E as <-; exact Hi. }
  repeat split; try assumption.
  exact (page_of_run L W url s cat_data s1 Hpage).
Qed.

Lemma category_item_fields_witness :
  exists cat_data cat category progr_list progs prog,
    page Demo.lib Demo.world Demo.drama_url = ok cat_data /\
    subscript cat_data "category" = ok cat /\
    subscript cat "pathSegment" = ok category /\
    dict_get cat_data "programmes" JNull = ok progr_list /\
    py_iter progr_list = ok progs /\
    In prog progs /\
    item_of prog Demo.first_drama_item /\
    subscript Demo.first_drama_item "playable"
      = ok (JBool (negb (is_series prog))) /\
    show_has "info" Demo.first_drama_item "duration" = negb (is_series prog) /\
    show_has "art" Demo.first_drama_item "poster"
      = py_eq category (JStr "films").
Proof.
  apply (category_item_fields Demo.lib Demo.world Demo.drama_url true initial).
  vm_compute. left. reflexivity.
Defined.

(** X13. Hiding only takes away: when [category_content] with
    [hide_payed=False] runs to its end, [category_content] with
    [hide_payed=True] on the same page runs to its end as well, and what it
    yields are the items of the other run that show a programme whose tier
    contains ['FREE'], the same items in the same order. *)
Theorem hiding_filters_the_listing (L : Lib) (W : World) (url : string)
    (s : State) :
  ending (category_content L W url false) s = None ->
  exists cat_data progr_list progs,
    page L W url = ok cat_data /\
    dict_get cat_data "programmes" JNull = ok progr_list /\
    py_iter progr_list = ok progs /\
    fst (category_content L W url true s) =
    (free_only progs (yields (category_content L W url false) s), None).
Proof.
  unfold category_content, ending, yields. intros H.
  unfold gen_bind in *. rewrite get_page_data_run in *.
  destruct (page L W url) as [e | cat_data] eqn:Hp; [discriminate H |].
  simpl in *. unfold lift in *.
  destruct (subscript cat_data "category") as [e | cat]; [discriminate H |].
  simpl in *.
  destruct (subscript cat "pathSegment") as [e | category];
    [discriminate H |].
  simpl in *.
  destruct (dict_get cat_data "programmes" JNull) as [e | progr_list] eqn:Hg;
    [discriminate H |].
  simpl in *.
  destruct (py_iter progr_list) as [e | progs] eqn:Hi; [discriminate H |].
  exists cat_data, progr_list, progs.
  split; [reflexivity |]. split; [exact Hg |]. split; [exact Hi |].
  exact (hidden_loop L category progs _ H).
Qed.

Lemma hiding_filters_the_listing_witness :
  exists cat_data progr_list progs,
    page Demo.lib Demo.world Demo.drama_url = ok cat_data /\
    dict_get cat_data "programmes" JNull = ok progr_list /\
    py_iter progr_list = ok progs /\
    fst (category_content Demo.lib Demo.world Demo.drama_url true initial) =
    (free_only progs
       (yields (category_content Demo.lib Demo.world Demo.drama_url false)
          initial),
     None).
Proof.
  apply hiding_filters_the_listing. reflexivity.
Defined.

(* ===================================================================== *)
(** * Further properties: series and episodes                             *)
(* ===================================================================== *)

Section Series.

Variable L : Lib.

Lemma series_entry_listed url brand_title thumb fanart brand_description
    series s entry s' :
  series_entry L url brand_title thumb fanart brand_description series s
    = (inr entry, s') ->
  series_listed L url thumb fanart series entry.
Proof.
  unfold series_entry. intros H. runs H.
  match goal with
  | F : for_each _ _ _ = (inr ?parsed, _) |- _ =>
      apply for_each_ok in F; rename F into F2
  end.
  repeat match goal with
         | E1 : subscript series "title" = inr ?x,
           E2 : subscript series "title" = inr ?y |- _ =>
             rewrite E1 in E2; injection E2 as <-
         end.
  unfold series_listed. do 5 eexists.
  repeat match goal with |- _ /\ _ => split end;
    try eassumption; try reflexivity.
  apply (Forall2_weaken _ _ _ _ F2).
  intros episode item (s1 & s2 & Hx). runs Hx. assumption.
Qed.

End Series.

(** X14. The list [episodes] returns has one entry per series of the
    brand, in the order of the page. Each entry has the title of its
    series as label, the URL [episodes] was called with (as given, not made
    absolute) and the number of the series as parameters, and one parsed
    episode per episode of the series, in order. All entries carry the same
    art, whose thumb and fanart are both made from the title of the brand.
    When [series] counts as false the list is empty. *)
Theorem episodes_lists_series (L : Lib) (W : World) (url : string)
    (s s' : State) (v : json) :
  episodes L W url s = (inr v, s') ->
  exists page brand brand_title thumb fanart series_data,
    Spec.page L W url = ok page /\
    brand_of page = ok brand /\
    subscript brand "title" = ok brand_title /\
    format_method L brand_title [JDict (IMG_PROPS_THUMB L)] [] = ok thumb /\
    format_method L brand_title [JDict (IMG_PROPS_FANART L)] [] = ok fanart /\
    subscript brand "series" = ok series_data /\
    (truthy series_data = false -> v = JList []) /\
    (truthy series_data = true ->
     exists series entries,
       py_iter series_data = ok series /\
       v = JList entries /\
       Forall2 (series_listed L url thumb fanart) series entries).
Proof.
  unfold episodes. intros H. unfold bind at 1 in H.
  rewrite get_page_data_run in H.
  destruct (Spec.page L W url) as [e | page] eqn:Hp; [discriminate H |].
  runs H.
  - repeat match goal with
           | E1 : subscript ?b "title" = inr ?x,
             E2 : subscript ?b "title" = inr ?y |- _ =>
               rewrite E1 in E2; injection E2 as <-
           end.
    do 6 eexists.
    repeat match goal with |- _ /\ _ => split end;
      try eassumption; try reflexivity.
    + unfold brand_of.
      repeat match goal with E : subscript _ _ = inr _ |- _ => rewrite E end.
      reflexivity.
    + intros T.
      match goal with
      | B : negb (truthy _) = true |- _ => rewrite T in B; discriminate B
      end.
  - repeat match goal with
           | E1 : subscript ?b "title" = inr ?x,
             E2 : subscript ?b "title" = inr ?y |- _ =>
               rewrite E1 in E2; injection E2 as <-
           end.
    match goal with
    | F : for_each _ _ _ = (inr ?entries, _) |- _ =>
        apply for_each_ok in F; rename F into F2
    end.
    do 6 eexists.
    repeat match goal with |- _ /\ _ => split end;
      try eassumption; try reflexivity.
    + unfold brand_of.
      repeat match goal with E : subscript _ _ = inr _ |- _ => rewrite E end.
      reflexivity.
    + intros T.
      match goal with
      | B : negb (truthy _) = false |- _ => rewrite T in B; discriminate B
      end.
    + intros _. do 2 eexists.
      split; [eassumption |]. split; [reflexivity |].
      apply (Forall2_weaken _ _ _ _ F2).
      intros series entry (s1 & s2 & Hx).
      exact (series_entry_listed L _ _ _ _ _ _ _ _ _ Hx).
Qed.

Lemma episodes_lists_series_witness :
  exists page brand brand_title thumb fanart series_data,
    Spec.page Demo.lib Demo.world "/watch/marple" = ok page /\
    brand_of page = ok brand /\
    subscript brand "title" = ok brand_title /\
    format_method Demo.lib brand_title
      [JDict (IMG_PROPS_THUMB Demo.lib)] [] = ok thumb /\
    format_method Demo.lib brand_title
      [JDict (IMG_PROPS_FANART Demo.lib)] [] = ok fanart /\
    subscript brand "series" = ok series_data /\
    (truthy series_data = false -> Demo.marple_listing = JList []) /\
    (truthy series_data = true ->
     exists series entries,
       py_iter series_data = ok series /\
       Demo.marple_listing = JList entries /\
       Forall2 (series_listed Demo.lib "/watch/marple" thumb fanart)
         series entries).
Proof.
  apply (episodes_lists_series Demo.lib Demo.world "/watch/marple" initial
           Demo.marple_state).
  vm_compute. reflexivity.
Defined.

(** X15. A brand without series gives the empty list, once the title and
    the synopses of the brand have been read: when the page has a brand
    whose title formats into the two images and whose [synopses] is a
    dictionary, and [series] is [None], empty, zero or anything else that
    counts as false, [episodes] returns [[]] after its one request and
    without a single pass of a loop. *)
Theorem episodes_of_brand_without_series (L : Lib) (W : World) (url : string)
    (s : State) (page brand brand_title thumb fanart series_data : json)
    (synopses : dict) :
  Spec.page L W url = ok page ->
  brand_of page = ok brand ->
  subscript brand "title" = ok brand_title ->
  format_method L brand_title [JDict (IMG_PROPS_THUMB L)] [] = ok thumb ->
  format_method L brand_title [JDict (IMG_PROPS_FANART L)] [] = ok fanart ->
  subscript brand "synopses" = ok (JDict synopses) ->
  subscript brand "series" = ok series_data ->
  truthy series_data = false ->
  episodes L W url s = (ok (JList []), issue (GetDocument (page_url url)) s).
Proof.
  intros Hp Hb Ht Hth Hfa Hsy Hse Hfalse.
  unfold brand_of in Hb.
  destruct (subscript page "title") as [e | title] eqn:Htitle;
    [discriminate Hb |].
  unfold episodes, bind, lift. rewrite get_page_data_run, Hp. simpl.
  rewrite Htitle. simpl. rewrite Hb. simpl. rewrite Ht. simpl.
  rewrite Hth. simpl. rewrite Hfa. simpl. rewrite Hsy. simpl.
  destruct (lookup "ninety" synopses); simpl; rewrite Hse; simpl;
    rewrite Hfalse; reflexivity.
Qed.

Lemma episodes_of_brand_without_series_witness :
  episodes Demo.ended_lib Demo.episode_site "/watch/bad-girls" initial =
  (ok (JList []),
   issue (GetDocument (page_url "/watch/bad-girls")) initial).
Proof.
  apply (episodes_of_brand_without_series Demo.ended_lib Demo.episode_site
           "/watch/bad-girls" initial Demo.ended_page Demo.ended_brand
           (Demo.str "Bad Girls") (Demo.str "Bad Girls") (Demo.str "Bad Girls")
           JNull []);
    reflexivity.
Defined.

(* ===================================================================== *)
(** * Further properties: live channels                                   *)
(* ===================================================================== *)

Section Channels.

Variable L : Lib.

Lemma lookup_remove_same (k : string) (d : dict) : lookup k (remove k d) = None.
Proof.
  induction d as [| [k' v] r IH]; simpl.
  - reflexivity.
  - destruct (String.eqb k k') eqn:E; simpl; [exact IH |].
    rewrite E. exact IH.
Qed.

Lemma untouched_keys (k : string) :
  untouched k = true ->
  String.eqb k "backdrop" = false /\ String.eqb k "slots" = false /\
  String.eqb k "slot" = false.
Proof.
  unfold untouched. intros H.
  apply andb_prop in H. destruct H as [H Hslot].
  apply andb_prop in H. destruct H as [Hb Hs].
  apply negb_true_iff in Hb, Hs, Hslot. repeat split; assumption.
Qed.

(** The returned channel is the fetched one without [slots], with
    [backdrop] and [slot] set, and with every other key as it came. *)
Lemma channel_entry_keys tz fanart_url main_schedule channel s out s' :
  channel_entry L tz fanart_url main_schedule channel s = (inr out, s') ->
  has_key "slots" out = false /\
  forall k, untouched k = true -> subscript out k = subscript channel k.
Proof.
  unfold channel_entry. intros H. runs H.
  all: destruct channel as [| | | | | | d]; try discriminate.
  all: match goal with
       | S : setitem (JDict _) "backdrop" _ = inr _ |- _ => injection S as <-
       end.
  all: match goal with
       | P : dict_pop _ "slots" = inr _ |- _ =>
           unfold dict_pop in P;
           destruct (lookup "slots" (store "backdrop" fanart_url d));
           [injection P as <- <- | discriminate P]
       end.
  all: assert (Hpop : forall v,
         lookup "slots" (remove "slots" (store "backdrop" v d)) = None)
         by (intros v; apply lookup_remove_same).
  all: assert (Hkeep : forall k v, untouched k = true ->
         lookup k (remove "slots" (store "backdrop" v d)) = lookup k d)
         by (intros k v Hk; apply untouched_keys in Hk;
             destruct Hk as (Hb & Hs & _); apply popped_lookup; assumption).
  - match goal with
    | F : find_main _ _ _ _ = _ |- _ =>
        apply find_main_shape in F;
        destruct F as [(_ & ->) | (_ & slot & Hset)]
    end.
    + unfold has_key, subscript. rewrite Hpop. split; [reflexivity |].
      intros k Hk. rewrite (Hkeep k _ Hk). reflexivity.
    + injection Hset as <-. unfold has_key, subscript.
      rewrite lookup_store_other by reflexivity. rewrite Hpop.
      split; [reflexivity |].
      intros k Hk. pose proof (untouched_keys k Hk) as (_ & _ & Hslot).
      rewrite (lookup_store_other k "slot" _ _ Hslot), (Hkeep k _ Hk).
      reflexivity.
  - match goal with
    | N : now_next _ _ _ _ _ = _ |- _ =>
        apply now_next_shape in N;
        destruct N as (d' & p1 & p2 & -> & -> & _ & _)
    end.
    match goal with
    | F : find_main _ _ _ _ = _ |- _ =>
        apply find_main_shape in F;
        destruct F as [(_ & Hsame) | (_ & slot & Hset)]
    end.
    + injection Hsame as ->. unfold has_key, subscript.
      rewrite lookup_store_other by reflexivity. rewrite Hpop.
      split; [reflexivity |].
      intros k Hk. pose proof (untouched_keys k Hk) as (_ & _ & Hslot).
      rewrite (lookup_store_other k "slot" _ _ Hslot), (Hkeep k _ Hk).
      reflexivity.
    + injection Hset as <-. unfold has_key, subscript.
      rewrite !lookup_store_other by reflexivity. rewrite Hpop.
      split; [reflexivity |].
      intros k Hk. pose proof (untouched_keys k Hk) as (_ & _ & Hslot).
      rewrite !(lookup_store_other k "slot" _ _ Hslot), (Hkeep k _ Hk).
      reflexivity.
  - match goal with
    | N : now_next _ _ _ _ _ = _ |- _ =>
        apply now_next_shape in N;
        destruct N as (d' & p1 & p2 & Hd & -> & _ & _)
    end.
    injection Hd as <-. unfold has_key, subscript.
    rewrite lookup_store_other by reflexivity. rewrite Hpop.
    split; [reflexivity |].
    intros k Hk. pose proof (untouched_keys k Hk) as (_ & _ & Hslot).
    rewrite (lookup_store_other k "slot" _ _ Hslot), (Hkeep k _ Hk).
    reflexivity.
Qed.

Lemma find_main_first main_schedule chan_id channel s out s' :
  find_main main_schedule chan_id channel s = (inr out, s') ->
  match find (matches chan_id) main_schedule with
  | None => out = channel
  | Some main_chan =>
      exists slot,
        subscript main_chan "slot" = ok slot /\
        setitem channel "slot" slot = ok out
  end.
Proof.
  revert s. induction main_schedule as [| main_chan rest IH]; simpl; intros s H.
  - runs H. reflexivity.
  - runs H.
    + unfold matches.
      repeat match goal with
             | E : subscript _ _ = inr _ |- _ => rewrite E
             | E : py_eq _ _ = _ |- _ => rewrite E
             end.
      eexists. split; [reflexivity | eassumption].
    + match goal with
      | F : find_main _ _ _ _ = _ |- _ => apply IH in F; rename F into F2
      end.
      unfold matches.
      repeat match goal with
             | E : subscript _ _ = inr _ |- _ => rewrite E
             | E : py_eq _ _ = _ |- _ => rewrite E
             end.
      exact F2.
Qed.

(** A simulcast channel takes the slot of its entry in the main live
    schedule when that slot counts as true, and the two entries of the
    now/next data when it does not. *)
Lemma channel_entry_scheduled tz fanart_url main_schedule channel s out s'
    main_chan :
  channel_entry L tz fanart_url main_schedule channel s = (inr out, s') ->
  is_simulcast channel = true ->
  scheduled_entry main_schedule channel = Some main_chan ->
  exists slot,
    subscript main_chan "slot" = ok slot /\
    (truthy slot = true -> subscript out "slot" = ok slot) /\
    (truthy slot = false -> two_entries out).
Proof.
  unfold channel_entry. intros H Hsim Hsched. runs H.
  all: destruct channel as [| | | | | | d]; try discriminate.
  all: match goal with
       | S : setitem (JDict _) "backdrop" _ = inr _ |- _ => injection S as <-
       end.
  all: match goal with
       | P : dict_pop _ "slots" = inr _ |- _ =>
           unfold dict_pop in P;
           destruct (lookup "slots" (store "backdrop" fanart_url d));
           [injection P as <- <- | discriminate P]
       end.
  all: unfold is_simulcast, scheduled_entry in *; looked_up.
  - match goal with
    | I : match lookup "id" d with _ => _ end = inr ?c,
      P : py_iter main_schedule = inr ?l |- _ =>
        rewrite I, P in Hsched
    end.
    match goal with
    | F : find_main _ _ _ _ = _ |- _ =>
        apply find_main_first in F; rewrite Hsched in F;
        destruct F as (slot & Hslot & Hset)
    end.
    injection Hset as <-. looked_up.
    match goal with
    | E : ok slot = inr ?v, T : truthy ?v = true |- _ =>
        injection E as <-
    end.
    exists slot. split; [exact Hslot |]. split; [reflexivity |].
    congruence.
  - match goal with
    | I : match lookup "id" d with _ => _ end = inr ?c,
      P : py_iter main_schedule = inr ?l |- _ =>
        rewrite I, P in Hsched
    end.
    match goal with
    | F : find_main _ _ _ _ = _ |- _ =>
        apply find_main_first in F; rewrite Hsched in F;
        destruct F as (slot & Hslot & Hset)
    end.
    match goal with
    | N : now_next _ _ _ _ _ = _ |- _ =>
        apply now_next_shape in N;
        destruct N as (d' & p1 & p2 & -> & -> & H1 & H2)
    end.
    injection Hset as <-. looked_up.
    match goal with
    | E : ok slot = inr ?v, T : truthy ?v = false |- _ =>
        injection E as <-
    end.
    exists slot. split; [exact Hslot |]. split; [congruence |].
    intros _. exact (two_entries_stored _ _ _ H1 H2).
  - match goal with
    | E : _ = inr ?t, B : py_eq ?t _ = false |- _ =>
        rewrite E in Hsim; congruence
    end.
Qed.

(** A channel that is not simulcast is treated alike whatever the main
    live schedule holds. *)
Lemma channel_entry_unscheduled tz fanart_url main_schedule main_schedule'
    channel s :
  is_simulcast channel = false ->
  channel_entry L tz fanart_url main_schedule channel s =
  channel_entry L tz fanart_url main_schedule' channel s.
Proof.
  unfold is_simulcast, channel_entry, bind, tick, lift. simpl. intros H.
  destruct channel as [| | | | | | d]; try reflexivity. simpl.
  destruct (lookup "slots" (store "backdrop" fanart_url d)); simpl;
    [| reflexivity].
  unfold subscript in *. rewrite popped_lookup by reflexivity.
  destruct (lookup "channelType" d); simpl in *; [| reflexivity].
  rewrite H. reflexivity.
Qed.

Lemma for_each_agree (body body' : json -> M json) xs :
  Forall (fun x => forall s, body x s = body' x s) xs ->
  forall s, for_each xs body s = for_each xs body' s.
Proof.
  induction 1 as [| x r Hx _ IH]; intros s.
  - reflexivity.
  - simpl. unfold bind. rewrite Hx.
    destruct (body' x s) as [[e | y] s1]; [reflexivity |].
    rewrite IH. reflexivity.
Qed.

Variable W : World.

(** What [get_live_channels] returns, channel by channel. *)
Lemma get_live_channels_entries (s : State) (outputs : list json) (s' : State) :
  get_live_channels L W s = (inr (JList outputs), s') ->
  exists live_data images fanart_url main_schedule inputs,
    get_json W live_url (live_params (globals s)) = ok live_data /\
    subscript live_data "images" = ok images /\
    subscript images "backdrop" = ok fanart_url /\
    get_live_schedule W = ok main_schedule /\
    subscript live_data "channels" = ok (JList inputs) /\
    Forall2 (fun channel out =>
               exists s1 s2,
                 channel_entry L (get_localzone W) fanart_url main_schedule
                   channel s1 = (inr out, s2))
      inputs outputs.
Proof.
  unfold get_live_channels. intros H. runs H.
  match goal with
  | U : JList outputs = updated ?channels _ |- _ =>
      destruct channels as [| | | | | inputs |]; try discriminate U;
      injection U as ->
  end.
  match goal with
  | I : py_iter (JList inputs) = inr _ |- _ => injection I as <-
  end.
  match goal with
  | F : for_each _ _ _ = _ |- _ => apply for_each_ok in F; rename F into F2
  end.
  do 5 eexists.
  repeat match goal with |- _ /\ _ => split end; try eassumption.
Qed.

End Channels.

(** X16. [get_live_channels] returns the fetched channels in their order,
    each without its [slots] key and with every key other than [backdrop],
    [slots] and [slot] holding the value it was fetched with, or missing as
    it was. *)
Theorem live_channels_keep_fields (L : Lib) (W : World) (s : State)
    (outputs : list json) (s' : State) :
  get_live_channels L W s = (inr (JList outputs), s') ->
  exists live_data inputs,
    get_json W live_url (live_params (globals s)) = ok live_data /\
    subscript live_data "channels" = ok (JList inputs) /\
    Forall2 (fun channel out =>
               has_key "slots" out = false /\
               forall k, untouched k = true ->
                         subscript out k = subscript channel k)
      inputs outputs.
Proof.
  intros H. apply get_live_channels_entries in H.
  destruct H as (live_data & images & fanart_url & main_schedule & inputs &
                 Hj & _ & _ & _ & Hc & F).
  exists live_data, inputs. split; [exact Hj |]. split; [exact Hc |].
  apply (Forall2_weaken _ _ _ _ F).
  intros channel out (s1 & s2 & He).
  exact (channel_entry_keys _ _ _ _ _ _ _ _ He).
Qed.

Lemma live_channels_keep_fields_witness :
  exists live_data inputs,
    get_json Demo.world live_url (live_params (globals initial)) = ok live_data /\
    subscript live_data "channels" = ok (JList inputs) /\
    Forall2 (fun channel out =>
               has_key "slots" out = false /\
               forall k, untouched k = true ->
                         subscript out k = subscript channel k)
      inputs Demo.live_outputs.
Proof.
  apply (live_channels_keep_fields Demo.lib Demo.world initial
           Demo.live_outputs Demo.live_state).
  vm_compute. reflexivity.
Defined.

(** X17. A simulcast channel that has an entry in the main live schedule
    takes the slot of the first such entry: the returned channel holds
    that slot when it counts as true, and two programme entries built from
    the now/next data when it does not. *)
Theorem simulcast_takes_scheduled_slot (L : Lib) (W : World) (s : State)
    (outputs : list json) (s' : State) :
  get_live_channels L W s = (inr (JList outputs), s') ->
  exists live_data main_schedule inputs,
    get_json W live_url (live_params (globals s)) = ok live_data /\
    get_live_schedule W = ok main_schedule /\
    subscript live_data "channels" = ok (JList inputs) /\
    Forall2 (fun channel out =>
               is_simulcast channel = true ->
               forall main_chan,
                 scheduled_entry main_schedule channel = Some main_chan ->
                 exists slot,
                   subscript main_chan "slot" = ok slot /\
                   (truthy slot = true -> subscript out "slot" = ok slot) /\
                   (truthy slot = false -> two_entries out))
      inputs outputs.
Proof.
  intros H. apply get_live_channels_entries in H.
  destruct H as (live_data & images & fanart_url & main_schedule & inputs &
                 Hj & _ & _ & Hs & Hc & F).
  exists live_data, main_schedule, inputs.
  split; [exact Hj |]. split; [exact Hs |]. split; [exact Hc |].
  apply (Forall2_weaken _ _ _ _ F).
  intros channel out (s1 & s2 & He) Hsim main_chan Hm.
  exact (channel_entry_scheduled _ _ _ _ _ _ _ _ _ He Hsim Hm).
Qed.

Lemma simulcast_takes_scheduled_slot_witness :
  exists live_data main_schedule inputs,
    get_json Demo.world live_url (live_params (globals initial)) = ok live_data /\
    get_live_schedule Demo.world = ok main_schedule /\
    subscript live_data "channels" = ok (JList inputs) /\
    Forall2 (fun channel out =>
               is_simulcast channel = true ->
               forall main_chan,
                 scheduled_entry main_schedule channel = Some main_chan ->
                 exists slot,
                   subscript main_chan "slot" = ok slot /\
                   (truthy slot = true -> subscript out "slot" = ok slot) /\
                   (truthy slot = false -> two_entries out))
      inputs Demo.live_outputs.
Proof.
  apply (simulcast_takes_scheduled_slot Demo.lib Demo.world initial
           Demo.live_outputs Demo.live_state).
  vm_compute. reflexivity.
Defined.

(** X18. When none of the fetched channels is of type [simulcast], what
    [get_live_channels] returns, and the state it leaves, do not depend on
    what the main live schedule holds: with any other schedule fetched in
    its place the run is the same. *)
Theorem schedule_unused_without_simulcast (L : Lib) (W : World) (s : State)
    (live_data channels main_schedule main_schedule' : json)
    (inputs : list json) :
  get_json W live_url (live_params (globals s)) = ok live_data ->
  subscript live_data "channels" = ok channels ->
  py_iter channels = ok inputs ->
  Forall (fun channel => is_simulcast channel = false) inputs ->
  get_live_schedule W = ok main_schedule ->
  get_live_channels L (with_schedule W (ok main_schedule')) s =
  get_live_channels L W s.
Proof.
  unfold live_url, live_params. intros Hj Hc Hi Hn Hs.
  unfold get_live_channels, fetch_get_json, itv_get_live_schedule, bind, read,
    lift.
  simpl. rewrite Hj, Hs. unfold ok. cbv beta iota.
  destruct (subscript live_data "images") as [e | images]; [reflexivity |].
  destruct (subscript images "backdrop") as [e | fanart_url]; [reflexivity |].
  rewrite Hc. unfold ok. cbv beta iota. rewrite Hi. unfold ok. cbv beta iota.
  rewrite (for_each_agree
             (channel_entry L (get_localzone W) fanart_url main_schedule')
             (channel_entry L (get_localzone W) fanart_url main_schedule)
             inputs).
  - reflexivity.
  - apply (Forall_impl _ (P := fun channel => is_simulcast channel = false));
      [| exact Hn].
    intros channel Hsim s0.
    apply channel_entry_unscheduled. exact Hsim.
Qed.

Lemma schedule_unused_without_simulcast_witness :
  get_live_channels Demo.lib (with_schedule Demo.fast_world (ok (JList [])))
    initial =
  get_live_channels Demo.lib Demo.fast_world initial.
Proof.
  apply (schedule_unused_without_simulcast Demo.lib Demo.fast_world initial
           Demo.fast_data
           (JList [Demo.obj
                     [("id", Demo.str "ITV");
                      ("channelType", Demo.str "fast");
                      ("slots",
                       Demo.obj
                         [("now", Demo.slot_of "Vera" "Series 2"
                                    "2022-11-01T18:30:00Z");
                          ("next", Demo.slot_of "Vera" ""
                                     "2022-11-01T20:00:00Z")])]])
           Demo.live_schedule (JList [])
           [Demo.obj
              [("id", Demo.str "ITV");
               ("channelType", Demo.str "fast");
               ("slots",
                Demo.obj
                  [("now", Demo.slot_of "Vera" "Series 2"
                             "2022-11-01T18:30:00Z");
                   ("next", Demo.slot_of "Vera" ""
                              "2022-11-01T20:00:00Z")])]]);
    try reflexivity.
  repeat constructor.
Defined.

Section NowNext.

Variable L : Lib.

Ltac same_lookups :=
  repeat match goal with
         | E1 : ?x = inr ?a, E2 : ?x = inr ?b |- _ =>
             rewrite E1 in E2; first [injection E2 as <- | clear E2]
         end.

Lemma programme_entry_shows tz prog s y s' :
  programme_entry L tz prog s = (inr y, s') -> shows prog y.
Proof.
  unfold programme_entry. intros H. runs H; same_lookups.
  all: match goal with
       | T : subscript _ "displayTitle" = inr ?t,
         D : subscript _ "detailedDisplayTitle" = inr ?d |- _ =>
           exists t, d; split; [exact T |]; split; [exact D |];
           split; [reflexivity |]
       end.
  all: match goal with B : truthy _ = _ |- _ => rewrite B end.
  - symmetry. assumption.
  - reflexivity.
Qed.

Lemma now_next_shows tz channel slots s out s' :
  now_next L tz channel slots s = (inr out, s') ->
  exists now next p1 p2,
    subscript slots "now" = ok now /\
    subscript slots "next" = ok next /\
    subscript out "slot" = ok (JList [p1; p2]) /\
    shows now p1 /\ shows next p2.
Proof.
  unfold now_next. intros H. runs H.
  match goal with
  | F : for_each _ _ _ = _ |- _ => apply for_each_ok in F; rename F into F2
  end.
  inversion F2 as [| ? p1 ? ? (? & ? & H1) F1]; subst.
  inversion F1 as [| ? p2 ? ? (? & ? & H2) F0]; subst.
  inversion F0; subst.
  destruct channel; try discriminate.
  match goal with
  | S : setitem _ _ _ = inr _ |- _ => injection S as <-
  end.
  do 2 eexists. exists p1, p2.
  split; [eassumption |]. split; [eassumption |].
  split; [unfold subscript; rewrite lookup_store_same; reflexivity |].
  split.
  - exact (programme_entry_shows _ _ _ _ _ H1).
  - exact (programme_entry_shows _ _ _ _ _ H2).
Qed.

(** A channel that is not simulcast gets the entries of its own [now] and
    [next]. *)
Lemma channel_entry_now_next tz fanart_url main_schedule channel s out s' :
  channel_entry L tz fanart_url main_schedule channel s = (inr out, s') ->
  is_simulcast channel = false ->
  exists slots now next p1 p2,
    subscript channel "slots" = ok slots /\
    subscript slots "now" = ok now /\
    subscript slots "next" = ok next /\
    subscript out "slot" = ok (JList [p1; p2]) /\
    shows now p1 /\ shows next p2.
Proof.
  unfold channel_entry. intros H Hsim. runs H.
  all: destruct channel as [| | | | | | d]; try discriminate.
  all: match goal with
       | S : setitem (JDict _) "backdrop" _ = inr _ |- _ => injection S as <-
       end.
  all: match goal with
       | P : dict_pop _ "slots" = inr _ |- _ =>
           unfold dict_pop in P;
           destruct (lookup "slots" (store "backdrop" fanart_url d))
             as [fetched |] eqn:Hslots;
           [injection P as <- <- | discriminate P]
       end.
  all: rewrite lookup_store_other in Hslots by reflexivity.
  1, 2: exfalso; unfold is_simulcast, subscript in *;
        rewrite popped_lookup in * by reflexivity;
        match goal with
        | E : _ = inr ?t, B : py_eq ?t _ = true |- _ =>
            rewrite E in Hsim; congruence
        end.
  match goal with
  | N : now_next _ _ _ _ _ = _ |- _ =>
      apply now_next_shows in N;
      destruct N as (now & next & p1 & p2 & Hn & Hx & Ho & S1 & S2)
  end.
  eexists. exists now, next, p1, p2.
  split; [unfold subscript; rewrite Hslots; reflexivity |].
  repeat split; assumption.
Qed.

End NowNext.

(** X19. For a channel that is not of type [simulcast],
    [get_live_channels] builds the slot list from the channel's own
    [slots]: the entry of [now] first and the entry of [next] second, each
    with the programme's display title as [programmeTitle], and with
    [programme_details] the display title alone, or the display title, a
    colon and the detailed title when there is one. *)
Theorem live_now_next_entries (L : Lib) (W : World) (s : State)
    (outputs : list json) (s' : State) :
  get_live_channels L W s = (inr (JList outputs), s') ->
  exists live_data inputs,
    get_json W live_url (live_params (globals s)) = ok live_data /\
    subscript live_data "channels" = ok (JList inputs) /\
    Forall2 (fun channel out =>
               is_simulcast channel = false ->
               exists slots now next p1 p2,
                 subscript channel "slots" = ok slots /\
                 subscript slots "now" = ok now /\
                 subscript slots "next" = ok next /\
                 subscript out "slot" = ok (JList [p1; p2]) /\
                 shows now p1 /\ shows next p2)
      inputs outputs.
Proof.
  intros H. apply get_live_channels_entries in H.
  destruct H as (live_data & images & fanart_url & main_schedule & inputs &
                 Hj & _ & _ & _ & Hc & F).
  exists live_data, inputs. split; [exact Hj |]. split; [exact Hc |].
  apply (Forall2_weaken _ _ _ _ F).
  intros channel out (s1 & s2 & He) Hsim.
  exact (channel_entry_now_next _ _ _ _ _ _ _ _ He Hsim).
Qed.

Lemma live_now_next_entries_witness :
  exists live_data inputs,
    get_json Demo.world live_url (live_params (globals initial)) = ok live_data /\
    subscript live_data "channels" = ok (JList inputs) /\
    Forall2 (fun channel out =>
               is_simulcast channel = false ->
               exists slots now next p1 p2,
                 subscript channel "slots" = ok slots /\
                 subscript slots "now" = ok now /\
                 subscript slots "next" = ok next /\
                 subscript out "slot" = ok (JList [p1; p2]) /\
                 shows now p1 /\ shows next p2)
      inputs Demo.live_outputs.
Proof.
  apply (live_now_next_entries Demo.lib Demo.world initial
           Demo.live_outputs Demo.live_state).
  vm_compute. reflexivity.
Defined.

(** X20. A category page without [programmes] is not taken for an empty
    category: [category_content] goes on to iterate over the [None] that
    [get] gives and ends with [TypeError], having yielded nothing and
    fetched the page once. *)
Theorem category_without_programmes_raises (L : Lib) (W : World)
    (url : string) (hide_payed : bool) (s : State) (d : dict)
    (cat category : json) :
  page L W url = ok (JDict d) ->
  subscript (JDict d) "category" = ok cat ->
  subscript cat "pathSegment" = ok category ->
  lookup "programmes" d = None ->
  category_content L W url hide_payed s =
  (([], Some TypeError), issue (GetDocument (page_url url)) s).
Proof.
  intros Hp Hc Hs Hn. unfold category_content, gen_bind.
  rewrite get_page_data_run, Hp. unfold ok, lift. cbv beta iota.
  rewrite Hc. unfold ok. cbv beta iota. rewrite Hs. unfold ok. cbv beta iota.
  unfold dict_get. rewrite Hn. reflexivity.
Qed.

Lemma category_without_programmes_raises_witness :
  category_content Demo.bare_lib Demo.episode_site "/watch/categories/news"
    false initial =
  (([], Some TypeError),
   issue (GetDocument (page_url "/watch/categories/news")) initial).
Proof.
  apply (category_without_programmes_raises Demo.bare_lib Demo.episode_site
           "/watch/categories/news" false initial
           [("category", Demo.obj [("pathSegment", Demo.str "news")])]
           (Demo.obj [("pathSegment", Demo.str "news")]) (Demo.str "news"));
    reflexivity.
Defined.

(* ===================================================================== *)
(** * Determinism                                                         *)
(* ===================================================================== *)

Section Alike.

Lemma alike_ret {A} (a : A) : alike (ret a) (ret a).
Proof. intros s1 s2 H. split; [reflexivity | exact H]. Qed.

Lemma alike_lift {A} (r : result A) : alike (lift r) (lift r).
Proof. intros s1 s2 H. split; [reflexivity | exact H]. Qed.

Lemma alike_tick : alike tick tick.
Proof. intros s1 s2 H. split; [reflexivity | exact H]. Qed.

Lemma alike_logger lv msg args : alike (logger lv msg args) (logger lv msg args).
Proof. intros s1 s2 H. split; [reflexivity | exact H]. Qed.

Lemma alike_feature_set : alike (read FEATURE_SET) (read FEATURE_SET).
Proof.
  intros s1 s2 H. split; [| exact H].
  unfold read. simpl. destruct H as [-> _]. reflexivity.
Qed.

Lemma alike_platform_tag : alike (read PLATFORM_TAG) (read PLATFORM_TAG).
Proof.
  intros s1 s2 H. split; [| exact H].
  unfold read. simpl. destruct H as [_ ->]. reflexivity.
Qed.

Lemma alike_bind {A B} (m1 m2 : M A) (k1 k2 : A -> M B) :
  alike m1 m2 -> (forall a, alike (k1 a) (k2 a)) ->
  alike (bind m1 k1) (bind m2 k2).
Proof.
  intros Hm Hk s1 s2 H. unfold bind. specialize (Hm s1 s2 H).
  destruct (m1 s1) as [[e | a] t1], (m2 s2) as [[e' | a'] t2];
    simpl in Hm; destruct Hm as [Hr Ht]; try discriminate Hr.
  - injection Hr as ->. split; [reflexivity | exact Ht].
  - injection Hr as ->. apply Hk. exact Ht.
Qed.

Lemma alike_for_each (b1 b2 : json -> M json) xs :
  (forall x, alike (b1 x) (b2 x)) -> alike (for_each xs b1) (for_each xs b2).
Proof.
  intros Hb. induction xs as [| x r IH]; intros s1 s2 H.
  - split; [reflexivity | exact H].
  - simpl. specialize (Hb x s1 s2 H).
    destruct (b1 x s1) as [[e | y] t1], (b2 x s2) as [[e' | y'] t2];
      simpl in Hb; destruct Hb as [Hr Ht]; try discriminate Hr.
    + injection Hr as ->. split; [reflexivity | exact Ht].
    + injection Hr as ->. specialize (IH t1 t2 Ht).
      destruct (for_each r b1 t1) as [[e | ys] u1],
               (for_each r b2 t2) as [[e' | ys'] u2];
        simpl in IH; destruct IH as [Hr Hu]; try discriminate Hr.
      * injection Hr as ->. split; [reflexivity | exact Hu].
      * injection Hr as ->. split; [reflexivity | exact Hu].
Qed.

Lemma gen_alike_bind {A} (m1 m2 : M A) (k1 k2 : A -> Gen) :
  alike m1 m2 -> (forall a, gen_alike (k1 a) (k2 a)) ->
  gen_alike (gen_bind m1 k1) (gen_bind m2 k2).
Proof.
  intros Hm Hk s1 s2 H. unfold gen_bind. specialize (Hm s1 s2 H).
  destruct (m1 s1) as [[e | a] t1], (m2 s2) as [[e' | a'] t2];
    simpl in Hm; destruct Hm as [Hr Ht]; try discriminate Hr.
  - injection Hr as ->. split; [reflexivity | exact Ht].
  - injection Hr as ->. apply Hk. exact Ht.
Qed.

Lemma gen_alike_for (b1 b2 : json -> M (option json)) xs :
  (forall x, alike (b1 x) (b2 x)) -> gen_alike (gen_for xs b1) (gen_for xs b2).
Proof.
  intros Hb. induction xs as [| x r IH]; intros s1 s2 H.
  - split; [reflexivity | exact H].
  - simpl. specialize (Hb x s1 s2 H).
    destruct (b1 x s1) as [[e | [y |]] t1], (b2 x s2) as [[e' | [y' |]] t2];
      simpl in Hb; destruct Hb as [Hr Ht]; try discriminate Hr.
    + injection Hr as ->. split; [reflexivity | exact Ht].
    + injection Hr as ->. specialize (IH t1 t2 Ht).
      destruct (gen_for r b1 t1) as [[ys e] u1],
               (gen_for r b2 t2) as [[ys' e'] u2].
      simpl in *. destruct IH as [Hr Hu]. injection Hr as -> ->.
      split; [reflexivity | exact Hu].
    + apply IH. exact Ht.
Qed.

Lemma gen_alike_done : gen_alike gen_done gen_done.
Proof. intros s1 s2 H. split; [reflexivity | exact H]. Qed.

Variables W1 W2 : World.
Hypothesis same : same_answers W1 W2.

Lemma alike_get_document url :
  alike (fetch_get_document W1 url) (fetch_get_document W2 url).
Proof.
  destruct same as (Hd & _). intros s1 s2 H. unfold fetch_get_document.
  simpl. rewrite Hd. split; [reflexivity | exact H].
Qed.

Lemma alike_get_json url params :
  alike (fetch_get_json W1 url params) (fetch_get_json W2 url params).
Proof.
  destruct same as (_ & Hj & _). intros s1 s2 H. unfold fetch_get_json.
  simpl. rewrite Hj. split; [reflexivity | exact H].
Qed.

Lemma alike_live_schedule :
  alike (itv_get_live_schedule W1) (itv_get_live_schedule W2).
Proof.
  destruct same as (_ & _ & Hs & _). intros s1 s2 H.
  unfold itv_get_live_schedule. simpl. rewrite Hs.
  split; [reflexivity | exact H].
Qed.

End Alike.

Ltac alike_run :=
  repeat first
    [ apply alike_ret | apply alike_lift | apply alike_tick
    | apply alike_logger | apply alike_feature_set | apply alike_platform_tag
    | apply alike_get_document; assumption
    | apply alike_get_json; assumption
    | apply alike_live_schedule; assumption
    | apply alike_bind; [ | intros ? ]
    | apply alike_for_each; intros ?
    | apply gen_alike_bind; [ | intros ? ]
    | apply gen_alike_for; intros ?
    | apply gen_alike_done
    | match goal with
      | |- alike (if ?b then _ else _) _ => destruct b
      | |- alike (match ?x with (_, _) => _ end) _ => destruct x
      | |- alike (match ?x with Some _ => _ | None => _ end) _ => destruct x
      | |- gen_alike (match ?x with JNull => _ | _ => _ end) _ => destruct x
      end
    | progress cbv zeta ].

Section AlikeFunctions.

Variable L : Lib.
Variables W1 W2 : World.
Hypothesis same : same_answers W1 W2.

Lemma find_main_alike main_schedule chan_id channel :
  alike (find_main main_schedule chan_id channel)
        (find_main main_schedule chan_id channel).
Proof.
  induction main_schedule as [| main_chan rest IH]; simpl.
  - alike_run.
  - alike_run. exact IH.
Qed.

Lemma get_page_data_alike url :
  alike (get_page_data L W1 url) (get_page_data L W2 url).
Proof. unfold get_page_data. alike_run. Qed.

Lemma get_live_channels_alike :
  alike (get_live_channels L W1) (get_live_channels L W2).
Proof.
  assert (Hz : get_localzone W1 = get_localzone W2) by apply same.
  unfold get_live_channels, channel_entry, now_next, programme_entry.
  rewrite Hz. alike_run; apply find_main_alike.
Qed.

Lemma main_page_items_alike :
  gen_alike (main_page_items L W1) (main_page_items L W2).
Proof. unfold main_page_items, get_page_data. alike_run. Qed.

Lemma episodes_alike url : alike (episodes L W1 url) (episodes L W2 url).
Proof. unfold episodes, series_entry, get_page_data. alike_run. Qed.

Lemma categories_alike : gen_alike (categories L W1) (categories L W2).
Proof. unfold categories, get_page_data. alike_run. Qed.

Lemma category_content_alike url hide_payed :
  gen_alike (category_content L W1 url hide_payed)
            (category_content L W2 url hide_payed).
Proof.
  unfold category_content, category_entry, programme_item, get_page_data.
  alike_run.
Qed.

Lemma playlist_alike url :
  alike (get_playlist_url_from_episode_page W1 url)
        (get_playlist_url_from_episode_page W2 url).
Proof. unfold get_playlist_url_from_episode_page. alike_run. Qed.

Lemma search_alike search_term :
  gen_alike (search L W1 search_term) (search L W2 search_term).
Proof.
  unfold search, search_entry, parse_programme, parse_special. alike_run.
Qed.

End AlikeFunctions.

Section InPlaceAgrees.

Variable L : Lib.

Lemma find_main_in_place main_schedule chan_id channel s :
  find_main main_schedule chan_id channel s =
  outcome (InPlace.find_main main_schedule chan_id channel s).
Proof.
  revert s. induction main_schedule as [| main_chan rest IH]; intros s.
  - reflexivity.
  - simpl. unfold bind, lift, tick, InPlace.seq, InPlace.here, InPlace.assign.
    simpl.
    destruct (subscript main_chan "channel") as [e | c]; simpl;
      [reflexivity |].
    destruct (subscript c "name") as [e | name]; simpl; [reflexivity |].
    destruct (py_eq name chan_id); simpl.
    + destruct (subscript main_chan "slot") as [e | slot]; simpl;
        [reflexivity |].
      destruct (setitem channel "slot" slot); reflexivity.
    + apply IH.
Qed.

Lemma now_next_in_place tz channel slots s :
  now_next L tz channel slots s = outcome (InPlace.now_next L tz slots channel s).
Proof.
  unfold now_next, InPlace.now_next, bind, lift, InPlace.seq, InPlace.here,
    InPlace.assign.
  destruct (subscript slots "now") as [e | now]; simpl; [reflexivity |].
  destruct (subscript slots "next") as [e | next]; simpl; [reflexivity |].
  destruct (programme_entry L tz now s) as [[e | p1] s1]; simpl;
    [reflexivity |].
  destruct (programme_entry L tz next s1) as [[e | p2] s2]; simpl;
    [reflexivity |].
  destruct (setitem channel "slot" (JList [p1; p2])); reflexivity.
Qed.

Lemma channel_entry_in_place tz fanart_url main_schedule channel s :
  channel_entry L tz fanart_url main_schedule channel s =
  outcome (InPlace.channel_entry L tz fanart_url main_schedule channel s).
Proof.
  unfold channel_entry, InPlace.channel_entry.
  unfold bind at 1 2 3 4. unfold InPlace.seq at 1 2 3 4.
  unfold lift, tick, InPlace.here, InPlace.assign, InPlace.pop, InPlace.item.
  cbv beta iota.
  destruct (setitem channel "backdrop" fanart_url) as [e | o1];
    [reflexivity |].
  cbv beta iota.
  destruct (dict_pop o1 "slots") as [e | [slots o2]]; [reflexivity |].
  cbv beta iota.
  destruct (subscript o2 "channelType") as [e | ctype]; [reflexivity |].
  cbv beta iota.
  destruct (py_eq ctype (JStr "simulcast")); [| apply now_next_in_place].
  unfold bind, InPlace.seq, InPlace.get. cbv beta iota.
  destruct (subscript o2 "id") as [e | chan_id]; [reflexivity |].
  cbv beta iota.
  destruct (py_iter main_schedule) as [e | main_chans]; [reflexivity |].
  cbv beta iota.
  rewrite find_main_in_place. unfold outcome.
  destruct (InPlace.find_main main_chans chan_id o2 _) as [[[e | u] o3] s3];
    [reflexivity |].
  cbn [fst snd].
  destruct (dict_get o3 "slot" JNull) as [e | slot]; [reflexivity |].
  cbv beta iota.
  destruct (truthy slot); [reflexivity |].
  apply now_next_in_place.
Qed.

Lemma each_in_place_agrees (body : json -> M json) (body' : InPlace.B unit) xs :
  (forall x s, body x s = outcome (body' x s)) ->
  forall s, for_each xs body s = outcome (InPlace.each_in_place xs body' s).
Proof.
  intros Hb. induction xs as [| x r IH]; intros s.
  - reflexivity.
  - simpl. rewrite Hb. unfold outcome at 1.
    destruct (body' x s) as [[[e | u] x'] s1]; cbn [fst snd]; [reflexivity |].
    rewrite IH. unfold outcome.
    destruct (InPlace.each_in_place r body' s1) as [[[e | u'] r'] s2];
      reflexivity.
Qed.


Variable W : World.

Lemma get_live_channels_in_place (live_data : json) (s : State) :
  get_json W live_url (live_params (globals s)) = ok live_data ->
  get_live_channels L W s =
  (fst (fst (InPlace.get_live_channels L W live_data s)),
   snd (InPlace.get_live_channels L W live_data s)).
Proof.
  unfold live_url, live_params. intros Hj.
  unfold get_live_channels, InPlace.get_live_channels.
  unfold bind, InPlace.seq, read, fetch_get_json, itv_get_live_schedule, lift,
    InPlace.here, InPlace.item, InPlace.requested, InPlace.in_channels.
  unfold ok in *. cbv beta iota zeta. rewrite Hj. cbv beta iota.
  destruct (subscript live_data "images") as [e | images]; [reflexivity |].
  cbv beta iota.
  destruct (subscript images "backdrop") as [e | fanart_url]; [reflexivity |].
  cbv beta iota.
  destruct (get_live_schedule W) as [e | main_schedule]; [reflexivity |].
  cbv beta iota.
  destruct (subscript live_data "channels") as [e | channels] eqn:Hc;
    [reflexivity |].
  cbv beta iota.
  destruct (py_iter channels) as [e | elements]; [reflexivity |].
  cbv beta iota.
  rewrite (each_in_place_agrees _
             (InPlace.channel_entry L (get_localzone W) fanart_url
                main_schedule) elements
             (channel_entry_in_place (get_localzone W) fanart_url
                main_schedule)).
  unfold outcome.
  destruct (InPlace.each_in_place elements _ _) as [[[e | u] elements'] s1];
    cbn [fst snd].
  - destruct live_data as [| | | | | | d]; try discriminate Hc.
    rewrite Hc. destruct channels; reflexivity.
  - destruct live_data as [| | | | | | d]; try discriminate Hc.
    unfold ret. rewrite Hc.
    destruct channels; cbn [fst snd]; unfold updated;
      try (rewrite Hc; reflexivity).
    unfold subscript. rewrite lookup_store_same. reflexivity.
Qed.


(** What the body has left of a channel has no [slots] any more. *)
Lemma entry_lacks_slots tz fanart_url main_schedule channel s u c s1 :
  InPlace.channel_entry L tz fanart_url main_schedule channel s
    = ((inr u, c), s1) ->
  exists d, c = JDict d /\ lookup "slots" d = None.
Proof.
  intros H.
  assert (K : channel_entry L tz fanart_url main_schedule channel s
              = (inr c, s1)).
  { rewrite channel_entry_in_place, H. reflexivity. }
  pose proof (channel_entry_shape L _ _ _ _ _ _ _ K) as (Hb & _).
  pose proof (channel_entry_keys L _ _ _ _ _ _ _ K) as (Hs & _).
  destruct c as [| | | | | | d]; try discriminate Hb.
  exists d. split; [reflexivity |].
  unfold has_key in Hs. destruct (lookup "slots" d);
    [discriminate Hs | reflexivity].
Qed.

(** On a channel without [slots] the body raises at line 60. *)
Lemma slotless_entry_raises tz fanart_url main_schedule d s :
  lookup "slots" d = None ->
  fst (fst (InPlace.channel_entry L tz fanart_url main_schedule (JDict d) s))
  = throw (KeyError "slots").
Proof.
  intros H.
  unfold InPlace.channel_entry, InPlace.seq, InPlace.here, InPlace.assign,
    InPlace.pop, tick.
  simpl. rewrite lookup_store_other by reflexivity. rewrite H. reflexivity.
Qed.

Lemma returned_is_held (o : json) (s : State) v o' s' :
  InPlace.get_live_channels L W o s = ((inr v, o'), s') ->
  subscript o' "channels" = ok v.
Proof.
  unfold InPlace.get_live_channels.
  unfold InPlace.seq, InPlace.here, InPlace.item, InPlace.requested, read,
    lift, itv_get_live_schedule, ok.
  cbv beta iota zeta.
  destruct (subscript o "images") as [e | images]; [discriminate |].
  cbv beta iota.
  destruct (subscript images "backdrop") as [e | fanart_url]; [discriminate |].
  cbv beta iota.
  destruct (get_live_schedule W) as [e | main_schedule]; [discriminate |].
  cbv beta iota.
  destruct (subscript o "channels") as [e | channels]; [discriminate |].
  cbv beta iota.
  destruct (py_iter channels) as [e | elements]; [discriminate |].
  cbv beta iota.
  destruct (InPlace.in_channels elements _ o _) as [[[e | u] o1] s1];
    [discriminate |].
  intros H. injection H as H <- _. exact H.
Qed.

Lemma second_run_raises (o : json) (s : State) c cs o' s' :
  InPlace.get_live_channels L W o s = ((inr (JList (c :: cs)), o'), s') ->
  forall W' s2 main_schedule',
    get_live_schedule W' = ok main_schedule' ->
    fst (fst (InPlace.get_live_channels L W' o' s2)) = throw (KeyError "slots").
Proof.
  unfold InPlace.get_live_channels.
  unfold InPlace.seq, InPlace.here, InPlace.item, InPlace.requested, read,
    lift, itv_get_live_schedule, InPlace.in_channels, ok.
  cbv beta iota zeta.
  destruct (subscript o "images") as [e | images] eqn:Hi; [discriminate |].
  cbv beta iota.
  destruct (subscript images "backdrop") as [e | fanart_url] eqn:Hb;
    [discriminate |].
  cbv beta iota.
  destruct (get_live_schedule W) as [e | main_schedule]; [discriminate |].
  cbv beta iota.
  destruct (subscript o "channels") as [e | channels] eqn:Hc; [discriminate |].
  cbv beta iota.
  destruct (py_iter channels) as [e | elements] eqn:Hp; [discriminate |].
  cbv beta iota.
  destruct (InPlace.each_in_place elements _ _) as [[r elements'] s1] eqn:He.
  destruct o as [| | | | | | d]; try discriminate Hi.
  rewrite Hc.
  destruct channels as [| | | | | l |];
    try (destruct r; [discriminate |]; rewrite Hc; discriminate).
  destruct r as [e | u]; [discriminate |].
  unfold subscript at 1. rewrite lookup_store_same.
  intros H. injection H as -> <- _.
  injection Hp as <-.
  destruct l as [| x rest]; [discriminate He |].
  simpl in He.
  destruct (InPlace.channel_entry L (get_localzone W) fanart_url main_schedule
              x _) as [[[e | u'] c'] s3] eqn:Hx; [discriminate He |].
  destruct (InPlace.each_in_place rest _ s3) as [[r' rest'] s4].
  injection He as _ <- _ _.
  apply entry_lacks_slots in Hx. destruct Hx as (dc & -> & Hs).
  intros W' s2 main_schedule' Hm.
  unfold subscript in Hi. unfold subscript at 1.
  rewrite lookup_store_other by reflexivity.
  destruct (lookup "images" d) as [images' |]; [| discriminate Hi].
  injection Hi as ->. unfold ok. cbv beta iota. rewrite Hb. cbv beta iota.
  rewrite Hm. unfold ok. cbv beta iota.
  unfold subscript at 1. rewrite lookup_store_same. unfold ok.
  cbv beta iota. unfold py_iter, ok. cbv beta iota.
  simpl InPlace.each_in_place.
  pose proof (slotless_entry_raises (get_localzone W') fanart_url
                main_schedule' dc
                (issue GetLiveSchedule
                   (issue
                      (GetJson "https://nownext.oasvc.itv.com/channels"
                         [("broadcaster", "itv");
                          ("featureSet", FEATURE_SET (globals s2));
                          ("platformTag", PLATFORM_TAG (globals s2))]) s2))
                Hs) as K.
  destruct (InPlace.channel_entry L (get_localzone W') fanart_url
              main_schedule' (JDict dc) _) as [[[e | u2] c2] s5];
    cbn [fst snd] in K; [| discriminate K].
  injection K as ->. unfold subscript. rewrite lookup_store_same. reflexivity.
Qed.

End InPlaceAgrees.



Lemma same_answers_later (W : World) (t : Z) : same_answers W (at_time W t).
Proof. repeat split. Qed.

